(** * Scenario store, rule handlers and capture format of the web application

    A shallow embedding of [mitmproxy/tools/web/app.py]: the request handlers
    that manage scenarios, rules, the learning and mock flags, the capture
    export and import, the flow projection [flow_to_json] and the flow update
    handler.  Handlers are functions from the state of the view to a result
    and the state left behind; a raised exception keeps the mutations made
    before it, as in Python. *)

From Stdlib Require Import String Ascii List ZArith Bool Lia.
From Stdlib Require Import DecimalString.
Import ListNotations.
Local Open Scope string_scope.
Local Open Scope list_scope.

(** ** Python values, exceptions and results *)

(** The exceptions the handlers can raise.  [APIError] is the class of
    [app.py]; the last five are the error kinds of the specification. *)
Inductive exn : Type :=
| KeyError
| ValueError
| IndexError
| TypeError
| AttributeError
| SyntaxError
| APIError (status : Z) (log_message : string)
| DuplicateNameError
| NotFoundError
| IndexOutOfRangeError
| InvalidCaptureFormatError
| CodecError.

Inductive result (A : Type) : Type :=
| Ok (a : A)
| Raise (e : exn).
Arguments Ok {A} a.
Arguments Raise {A} e.

(** Values as [json.loads] and [eval] of a literal deliver them. *)
#[local] Unset Elimination Schemes.
Inductive pyval : Type :=
| PNone
| PBool (b : bool)
| PInt (z : Z)
| PStr (s : string)
| PList (l : list pyval)
| PDict (d : list (string * pyval)).
#[local] Set Elimination Schemes.

(** A state and exception monad: the state survives a raise. *)
Definition M (S A : Type) : Type := S -> result A * S.

Definition ret {S A} (a : A) : M S A := fun s => (Ok a, s).
Definition raise {S A} (e : exn) : M S A := fun s => (Raise e, s).
Definition bind {S A B} (m : M S A) (k : A -> M S B) : M S B :=
  fun s =>
    match m s with
    | (Ok a, s') => k a s'
    | (Raise e, s') => (Raise e, s')
    end.
Definition get_state {S} : M S S := fun s => (Ok s, s).
Definition modify {S} (f : S -> S) : M S unit := fun s => (Ok tt, f s).
Definition lift {S A} (r : result A) : M S A := fun s => (r, s).

Declare Scope py_scope.
Delimit Scope py_scope with py.
Notation "x <- m ;; k" := (bind m (fun x => k))
  (at level 61, m at next level, right associativity) : py_scope.
Notation "m ;; k" := (bind m (fun _ => k))
  (at level 61, right associativity) : py_scope.

(** [for x in l: body x], stopping at the first exception. *)
Fixpoint for_each {S A} (l : list A) (body : A -> M S unit) : M S unit :=
  match l with
  | [] => ret tt
  | x :: l' => bind (body x) (fun _ => for_each l' body)
  end.

(** ** Python lists *)

Module PyList.

(** [l.index(x)]: the first position of [x], [ValueError] when absent. *)
Fixpoint index (x : string) (l : list string) : option nat :=
  match l with
  | [] => None
  | y :: l' =>
      if String.eqb x y then Some 0%nat
      else option_map S (index x l')
  end.

(** [l[i]] for a Python integer [i]: negative indices count from the end. *)
Definition getitem {A} (l : list A) (i : Z) : result A :=
  let n := Z.of_nat (length l) in
  let j := if (i <? 0)%Z then (i + n)%Z else i in
  if ((0 <=? j) && (j <? n))%Z
  then match nth_error l (Z.to_nat j) with
       | Some a => Ok a
       | None => Raise IndexError
       end
  else Raise IndexError.

Definition mem (x : string) (l : list string) : bool :=
  existsb (String.eqb x) l.

End PyList.

(** ** Python dictionaries with string keys, in insertion order *)

Module PyDict.

Definition dict (V : Type) : Type := list (string * V).

Section Ops.
Context {V : Type}.

Definition keys (d : dict V) : list string := map fst d.

Fixpoint get (k : string) (d : dict V) : option V :=
  match d with
  | [] => None
  | (k', v) :: d' => if String.eqb k k' then Some v else get k d'
  end.

Definition mem (k : string) (d : dict V) : bool :=
  match get k d with Some _ => true | None => false end.

(** [d[k] = v]: a present key keeps its place, a new key goes last. *)
Fixpoint set (k : string) (v : V) (d : dict V) : dict V :=
  match d with
  | [] => [(k, v)]
  | (k', v') :: d' =>
      if String.eqb k k' then (k, v) :: d' else (k', v') :: set k v d'
  end.

(** [del d[k]] and [d.pop(k)] on a present key. *)
Fixpoint del (k : string) (d : dict V) : dict V :=
  match d with
  | [] => []
  | (k', v') :: d' =>
      if String.eqb k k' then d' else (k', v') :: del k d'
  end.

(** Keys of a dictionary are pairwise different. *)
Definition wf (d : dict V) : Prop := NoDup (keys d).

End Ops.

End PyDict.

Import PyDict.

(** ** Flows

    The flow classes live in [mitmproxy.flow] and [mitmproxy.http]; the
    handlers read and write the attributes below. *)

(** [get_state()] of a connection: the negotiated ALPN protocol (bytes or
    [None]) and the other entries of the state dictionary, among them
    [tls_extensions], [cert] and [mitmcert]. *)
Record ConnState : Type := {
  alpn_proto_negotiated : option string;
  conn_attrs : dict pyval
}.

Record Request : Type := {
  req_method : string;
  req_scheme : string;
  req_host : string;
  req_port : Z;
  req_path : string;
  req_http_version : string;
  req_headers : list (string * string);
  req_raw_content : option string;
  req_timestamp_start : pyval;
  req_timestamp_end : pyval;
  req_is_replay : bool
}.

Record Response : Type := {
  resp_http_version : string;
  resp_status_code : Z;
  resp_reason : string;
  resp_msg : option string;
  resp_headers : list (string * string);
  resp_raw_content : option string;
  resp_timestamp_start : pyval;
  resp_timestamp_end : pyval;
  resp_is_replay : bool
}.

(** [isinstance(flow, http.HTTPFlow)]; only HTTP flows have the attributes
    [request] and [response]. *)
Inductive FlowKind : Type := HTTPFlow | OtherFlow.

Record FlowState : Type := {
  fl_id : string;
  fl_intercepted : bool;
  fl_client_conn : ConnState;
  fl_server_conn : ConnState;
  fl_type : string;
  fl_marked : bool;
  fl_error : option pyval;
  fl_kind : FlowKind;
  fl_request : option Request;
  fl_response : option Response
}.

(** A flow object: its state and the snapshot taken by [backup]. *)
Record Flow : Type := {
  state : FlowState;
  saved : option FlowState
}.

(** [resp_msg] is the attribute [msg] that [FlowHandler.put] sets on the
    response object with [setattr]; [None] stands for an object without
    it.  It is an attribute of the Python object, not part of the state
    that [get_state] returns and [set_state] writes. *)
Definition with_resp_msg (m : option string) (r : Response) : Response :=
  {| resp_http_version := resp_http_version r;
     resp_status_code := resp_status_code r; resp_reason := resp_reason r;
     resp_msg := m; resp_headers := resp_headers r;
     resp_raw_content := resp_raw_content r;
     resp_timestamp_start := resp_timestamp_start r;
     resp_timestamp_end := resp_timestamp_end r;
     resp_is_replay := resp_is_replay r |}.

(** [set_state] on the attribute [response]: a snapshot without a response
    sets the attribute to [None]; otherwise the state is written into the
    response object at hand, which keeps its attribute [msg], and a flow
    without a response gets a new object. *)
Definition restore_response (snapshot current : option Response)
  : option Response :=
  match snapshot with
  | None => None
  | Some rb =>
      Some (with_resp_msg
              (match current with Some rc => resp_msg rc | None => None end)
              rb)
  end.

(** [set_state(b)] on a flow in the state [s]. *)
Definition restore (b s : FlowState) : FlowState :=
  {| fl_id := fl_id b; fl_intercepted := fl_intercepted b;
     fl_client_conn := fl_client_conn b; fl_server_conn := fl_server_conn b;
     fl_type := fl_type b; fl_marked := fl_marked b; fl_error := fl_error b;
     fl_kind := fl_kind b; fl_request := fl_request b;
     fl_response := restore_response (fl_response b) (fl_response s) |}.

(** The state without the attribute [msg] of the response: what
    [get_state] returns. *)
Definition forget_msg (s : FlowState) : FlowState :=
  {| fl_id := fl_id s; fl_intercepted := fl_intercepted s;
     fl_client_conn := fl_client_conn s; fl_server_conn := fl_server_conn s;
     fl_type := fl_type s; fl_marked := fl_marked s; fl_error := fl_error s;
     fl_kind := fl_kind s; fl_request := fl_request s;
     fl_response := option_map (with_resp_msg None) (fl_response s) |}.

(** [flow.backup()] and [flow.revert()] of [mitmproxy.flow.Flow], a
    one-slot snapshot: [backup] keeps the first snapshot, [revert] writes
    the snapshot, if there is one, back with [set_state] and drops it.  Of
    a snapshot only [forget_msg] is ever read. *)
Definition backup (f : Flow) : Flow :=
  match saved f with
  | Some _ => f
  | None => {| state := state f; saved := Some (state f) |}
  end.

Definition revert (f : Flow) : Flow :=
  match saved f with
  | Some b => {| state := restore b (state f); saved := None |}
  | None => f
  end.

Definition hasattr_request (f : Flow) : bool :=
  match fl_kind (state f) with HTTPFlow => true | OtherFlow => false end.

Definition with_request (r : option Request) (f : Flow) : Flow :=
  let s := state f in
  {| state := {| fl_id := fl_id s; fl_intercepted := fl_intercepted s;
                 fl_client_conn := fl_client_conn s;
                 fl_server_conn := fl_server_conn s;
                 fl_type := fl_type s; fl_marked := fl_marked s;
                 fl_error := fl_error s; fl_kind := fl_kind s;
                 fl_request := r; fl_response := fl_response s |};
     saved := saved f |}.

Definition with_response (r : option Response) (f : Flow) : Flow :=
  let s := state f in
  {| state := {| fl_id := fl_id s; fl_intercepted := fl_intercepted s;
                 fl_client_conn := fl_client_conn s;
                 fl_server_conn := fl_server_conn s;
                 fl_type := fl_type s; fl_marked := fl_marked s;
                 fl_error := fl_error s; fl_kind := fl_kind s;
                 fl_request := fl_request s; fl_response := r |};
     saved := saved f |}.

(** ** External collaborators

    Library functions the handlers call and whose code is outside
    [app.py]. *)

Class Builtins : Type := {
  (** [hashlib.sha256(b).hexdigest()] *)
  sha256_hexdigest : string -> string;
  (** [b.decode(errors="backslashreplace")] *)
  decode_backslashreplace : string -> string;
  (** the integer a string denotes for [int], if any *)
  parse_int : string -> option Z;
  (** [str] of a list or a dictionary *)
  repr_container : pyval -> string;
  (** [json.loads(body.decode())], [None] when either step raises *)
  json_loads : string -> option pyval
}.

Class FlowApi : Type := {
  (** [flow.modified()] *)
  modified : Flow -> bool;
  (** [request.pretty_host] *)
  pretty_host : Request -> string;
  (** [request.text = v] and [response.text = v] *)
  request_set_text : pyval -> Request -> result Request;
  response_set_text : pyval -> Response -> result Response;
  (** [FlowWriter.add]: the bytes of one flow record *)
  encode_flow : Flow -> string;
  (** [FlowReader(bio).stream()]: the flows decoded in order and whether the
      stream ended on a record that does not decode *)
  read_flows : string -> list Flow * bool
}.

(** ** The flow projection [flow_to_json] *)

Record ConnJson : Type := {
  cj_alpn_proto_negotiated : option string;
  cj_attrs : dict pyval
}.

Record RequestJson : Type := {
  rqj_method : string;
  rqj_scheme : string;
  rqj_host : string;
  rqj_port : Z;
  rqj_path : string;
  rqj_http_version : string;
  rqj_headers : list (string * string);
  rqj_contentLength : option Z;
  rqj_contentHash : option string;
  rqj_timestamp_start : pyval;
  rqj_timestamp_end : pyval;
  rqj_is_replay : bool;
  rqj_pretty_host : string
}.

Record ResponseJson : Type := {
  rsj_http_version : string;
  rsj_status_code : Z;
  rsj_reason : string;
  rsj_headers : list (string * string);
  rsj_contentLength : option Z;
  rsj_contentHash : option string;
  rsj_timestamp_start : pyval;
  rsj_timestamp_end : pyval;
  rsj_is_replay : bool
}.

(** The dictionary [f]; a key that the function may leave out is an
    [option].  [j_scenario] is the key ["scenario"], which only [Flows.get]
    sets. *)
Record FlowJson : Type := {
  j_id : string;
  j_intercepted : bool;
  j_client_conn : ConnJson;
  j_server_conn : ConnJson;
  j_type : string;
  j_modified : bool;
  j_marked : bool;
  j_error : option pyval;
  j_request : option RequestJson;
  j_response : option ResponseJson;
  j_scenario : option string
}.

Section Projection.
Context {BI : Builtins} {FA : FlowApi}.

(** The state of a connection with the ALPN bytes decoded and the keys in
    [drop] popped. *)
Definition conn_to_json (drop : list string) (c : ConnState) : ConnJson :=
  {| cj_alpn_proto_negotiated :=
       match alpn_proto_negotiated c with
       | None => None
       | Some b => Some (decode_backslashreplace b)
       end;
     cj_attrs := fold_left (fun d k => del k d) drop (conn_attrs c) |}.

(** [if raw_content:] then length and hash, else [None] and [None]. *)
Definition content_length_hash (raw_content : option string)
  : option Z * option string :=
  match raw_content with
  | Some (String _ _ as b) =>
      (Some (Z.of_nat (String.length b)), Some (sha256_hexdigest b))
  | Some EmptyString => (None, None)
  | None => (None, None)
  end.

Definition request_to_json (r : Request) : RequestJson :=
  let '(content_length, content_hash) :=
    content_length_hash (req_raw_content r) in
  {| rqj_method := req_method r;
     rqj_scheme := req_scheme r;
     rqj_host := req_host r;
     rqj_port := req_port r;
     rqj_path := req_path r;
     rqj_http_version := req_http_version r;
     rqj_headers := req_headers r;
     rqj_contentLength := content_length;
     rqj_contentHash := content_hash;
     rqj_timestamp_start := req_timestamp_start r;
     rqj_timestamp_end := req_timestamp_end r;
     rqj_is_replay := req_is_replay r;
     rqj_pretty_host := pretty_host r |}.

Definition response_to_json (r : Response) : ResponseJson :=
  let '(content_length, content_hash) :=
    content_length_hash (resp_raw_content r) in
  {| rsj_http_version := resp_http_version r;
     rsj_status_code := resp_status_code r;
     rsj_reason := resp_reason r;
     rsj_headers := resp_headers r;
     rsj_contentLength := content_length;
     rsj_contentHash := content_hash;
     rsj_timestamp_start := resp_timestamp_start r;
     rsj_timestamp_end := resp_timestamp_end r;
     rsj_is_replay := resp_is_replay r |}.

Definition flow_to_json (flow : Flow) : FlowJson :=
  let s := state flow in
  let is_http :=
    match fl_kind s with HTTPFlow => true | OtherFlow => false end in
  {| j_id := fl_id s;
     j_intercepted := fl_intercepted s;
     j_client_conn :=
       conn_to_json ["tls_extensions"; "mitmcert"] (fl_client_conn s);
     j_server_conn := conn_to_json ["cert"] (fl_server_conn s);
     j_type := fl_type s;
     j_modified := modified flow;
     j_marked := fl_marked s;
     j_error := fl_error s;
     j_request :=
       if is_http then option_map request_to_json (fl_request s) else None;
     j_response :=
       if is_http then option_map response_to_json (fl_response s)
       else None;
     j_scenario := None |}.

End Projection.

(** ** Rule sets *)

Module Rules.

(** A rule is its field map; a rule set maps a label to its rules in
    order. *)
Definition Rule : Type := dict pyval.
Definition t : Type := dict (list Rule).

Definition rules_of (label : string) (rs : t) : list Rule :=
  match get label rs with Some l => l | None => [] end.

Fixpoint update_nth {A} (n : nat) (a : A) (l : list A) : list A :=
  match l, n with
  | [], _ => []
  | _ :: l', O => a :: l'
  | x :: l', S n' => x :: update_nth n' a l'
  end.

Definition in_range (i : Z) (l : list Rule) : bool :=
  ((0 <=? i) && (i <? Z.of_nat (length l)))%Z.

Definition swap (i j : nat) (l : list Rule) : list Rule :=
  match nth_error l i, nth_error l j with
  | Some a, Some b => update_nth j a (update_nth i b l)
  | _, _ => l
  end.

(** Modelled from the spec: the method [switchRules] of the rule set class,
    whose code is not in [app.py]: "swaps two positions; out-of-range
    indices fail with IndexOutOfRangeError". *)
Definition switchRules (label : string) (i j : Z) (rs : t) : result t :=
  let l := rules_of label rs in
  if in_range i l && in_range j l
  then Ok (set label (swap (Z.to_nat i) (Z.to_nat j) l) rs)
  else Raise IndexOutOfRangeError.

(** Modelled from the spec: the method [toDict] of the rule set class:
    "an ordered sequence of field mappings per label". *)
Definition toDict (rs : t) : dict (list Rule) := rs.

End Rules.

(** ** The view: live flows, scenarios, flags *)

(** The tuple [(flows, rules)] stored under a scenario name: references to
    flow objects and the rule set of each flow id. *)
Record Scen : Type := {
  scen_flows : list string;
  scen_rules : dict Rules.t
}.

(** [objects] gives the flow object behind a reference, [live] the flows of
    the view in order, [pending] the calls handed to the event loop. *)
Record View : Type := {
  objects : string -> Flow;
  live : list string;
  scenarios : dict Scen;
  scenario : string;
  mock : bool;
  learning : bool;
  matchers : dict pyval;
  pending : list Flow
}.

Definition set_objects (o : string -> Flow) (v : View) : View :=
  {| objects := o; live := live v; scenarios := scenarios v;
     scenario := scenario v; mock := mock v; learning := learning v;
     matchers := matchers v; pending := pending v |}.
Definition set_live (l : list string) (v : View) : View :=
  {| objects := objects v; live := l; scenarios := scenarios v;
     scenario := scenario v; mock := mock v; learning := learning v;
     matchers := matchers v; pending := pending v |}.
Definition set_scenarios (d : dict Scen) (v : View) : View :=
  {| objects := objects v; live := live v; scenarios := d;
     scenario := scenario v; mock := mock v; learning := learning v;
     matchers := matchers v; pending := pending v |}.
Definition set_scenario (n : string) (v : View) : View :=
  {| objects := objects v; live := live v; scenarios := scenarios v;
     scenario := n; mock := mock v; learning := learning v;
     matchers := matchers v; pending := pending v |}.
Definition set_mock (b : bool) (v : View) : View :=
  {| objects := objects v; live := live v; scenarios := scenarios v;
     scenario := scenario v; mock := b; learning := learning v;
     matchers := matchers v; pending := pending v |}.
Definition set_learning (b : bool) (v : View) : View :=
  {| objects := objects v; live := live v; scenarios := scenarios v;
     scenario := scenario v; mock := mock v; learning := b;
     matchers := matchers v; pending := pending v |}.
Definition set_matchers (m : dict pyval) (v : View) : View :=
  {| objects := objects v; live := live v; scenarios := scenarios v;
     scenario := scenario v; mock := mock v; learning := learning v;
     matchers := m; pending := pending v |}.
Definition set_pending (p : list Flow) (v : View) : View :=
  {| objects := objects v; live := live v; scenarios := scenarios v;
     scenario := scenario v; mock := mock v; learning := learning v;
     matchers := matchers v; pending := p |}.

(** [d[k]], [KeyError] when absent. *)
Definition getitem {V S} (k : string) (d : dict V) : M S V :=
  match get k d with
  | Some x => ret x
  | None => raise KeyError
  end.

Local Open Scope py_scope.

(** The methods of the view that the handlers call.  The class is not part
    of [app.py]. *)
Module ViewApi.

(** Modelled from the spec: [addScen] of the view: "fails with
    DuplicateNameError if name already exists; otherwise inserts an empty
    Scenario". *)
Definition addScen (name : string) : M View unit :=
  v <- get_state ;;
  if mem name (scenarios v) then raise DuplicateNameError
  else modify (set_scenarios
                 (set name {| scen_flows := []; scen_rules := [] |}
                      (scenarios v))).

(** Modelled from the spec: [setScen] of the view: "fails with
    NotFoundError if name is non-empty and absent; sets current = name". *)
Definition setScen (name : string) : M View unit :=
  v <- get_state ;;
  if negb (String.eqb name "") && negb (mem name (scenarios v))
  then raise NotFoundError
  else modify (set_scenario name).

(** Modelled from the spec: [switchMock] of the view: "flips the mock
    flag". *)
Definition switchMock : M View unit :=
  v <- get_state ;; modify (set_mock (negb (mock v))).

(** Modelled from the spec: [switchLearning] of the view: "flips the
    learning flag". *)
Definition switchLearning : M View unit :=
  v <- get_state ;; modify (set_learning (negb (learning v))).

(** Modelled from the spec: [remove] of the view, the FlowStore operation
    [remove(flows)]: the flows leave the live store. *)
Definition remove (flows : list string) : M View unit :=
  v <- get_state ;;
  modify (set_live
            (filter (fun r => negb (PyList.mem r flows)) (live v))).

(** Modelled from the spec: [newMatcher] of the view, the FlowStore
    operation [registerMatcher(id, payload)]. *)
Definition newMatcher (id : string) (matcher : pyval) : M View unit :=
  v <- get_state ;; modify (set_matchers (set id matcher (matchers v))).

(** Modelled from the spec: [get_by_id] of the view, the FlowStore
    operation [getById(id)]: the live flow with that id, if any. *)
Definition get_by_id (flow_id : string) (v : View) : option string :=
  find (fun r => String.eqb (fl_id (state (objects v r))) flow_id) (live v).

End ViewApi.
Import ViewApi.

(** ** Scenario handlers *)

(** [Scenario.post]: create the scenario when it is new, then activate it. *)
Definition Scenario_post (name : string) : M View unit :=
  v <- get_state ;;
  (if negb (mem name (scenarios v)) then addScen name else ret tt) ;;
  setScen name.

(** [DeleteScenario.post]: pick a neighbour as the current scenario, evict
    the flows of the scenario from the view, drop the scenario. *)
Definition DeleteScenario_post (name : string) : M View unit :=
  v <- get_state ;;
  let ks := keys (scenarios v) in
  index <- match PyList.index name ks with
           | Some i => ret i
           | None => raise ValueError
           end ;;
  (if Nat.eqb (length ks) 1 then setScen ""
   else if negb (Nat.eqb index 0)
        then k <- lift (PyList.getitem ks (Z.of_nat index - 1)) ;; setScen k
        else k <- lift (PyList.getitem ks (Z.of_nat index + 1)) ;; setScen k) ;;
  v1 <- get_state ;;
  sc <- getitem name (scenarios v1) ;;
  remove (scen_flows sc) ;;
  v2 <- get_state ;;
  _ <- getitem name (scenarios v2) ;;
  modify (set_scenarios (del name (scenarios v2))).

(** [CopyScenario.post]: the current scenario is stored under the new name,
    its old name is deleted, the new name becomes current. *)
Definition CopyScenario_post (name : string) : M View unit :=
  v <- get_state ;;
  sc <- getitem (scenario v) (scenarios v) ;;
  modify (set_scenarios (set name sc (scenarios v))) ;;
  v1 <- get_state ;;
  _ <- getitem (scenario v1) (scenarios v1) ;;
  modify (set_scenarios (del (scenario v1) (scenarios v1))) ;;
  setScen name.

(** [SwitchBouchonMode.post] and [SwitchLearning.post]. *)
Definition SwitchBouchonMode_post : M View unit := switchMock.
Definition SwitchLearning_post : M View unit := switchLearning.

(** ** Rule handlers *)

(** [self.scenarios[self.scenario][1][flow_id].switchRules(label, i, j)]:
    the rule set is changed in place. *)
Definition switch_current_rules (flow_id label : string) (i j : Z)
  : M View unit :=
  v <- get_state ;;
  sc <- getitem (scenario v) (scenarios v) ;;
  rs <- getitem flow_id (scen_rules sc) ;;
  rs' <- lift (Rules.switchRules label i j rs) ;;
  modify (set_scenarios
            (set (scenario v)
                 {| scen_flows := scen_flows sc;
                    scen_rules := set flow_id rs' (scen_rules sc) |}
                 (scenarios v))).

(** [RuleUp.post] and [RuleDown.post]; the route lets only digits through,
    so [int(index)] is a natural number. *)
Definition RuleUp_post (flow_id label : string) (index : nat) : M View unit :=
  switch_current_rules flow_id label (Z.of_nat index) (Z.of_nat index - 1).

Definition RuleDown_post (flow_id label : string) (index : nat)
  : M View unit :=
  switch_current_rules flow_id label (Z.of_nat index) (Z.of_nat index + 1).

(** ** Listing the flows *)

Inductive ListItem : Type :=
| Entry (dic : FlowJson) (r : dict (list Rules.Rule))
| Current (name : string).

Definition with_scenario (name : string) (j : FlowJson) : FlowJson :=
  {| j_id := j_id j; j_intercepted := j_intercepted j;
     j_client_conn := j_client_conn j; j_server_conn := j_server_conn j;
     j_type := j_type j; j_modified := j_modified j; j_marked := j_marked j;
     j_error := j_error j; j_request := j_request j;
     j_response := j_response j; j_scenario := Some name |}.

Section Listing.
Context {BI : Builtins} {FA : FlowApi}.

(** The inner loop over [self.scenarios.keys()]: the last scenario that
    holds the flow names it. *)
Definition tag_scenario (f : string) (d : dict Scen) (dic : FlowJson)
  : FlowJson :=
  fold_left
    (fun dic '(i, sc) =>
       if PyList.mem f (scen_flows sc) then with_scenario i dic else dic)
    d dic.

Definition default_rules : dict (list Rules.Rule) :=
  [("Headers", []); ("Content", []); ("URI", [])].

(** One turn of the loop over the view. *)
Definition list_flow (v : View) (f : string) : result ListItem :=
  let dic := tag_scenario f (scenarios v) (flow_to_json (objects v f)) in
  match j_scenario dic with
  | None => Ok (Entry dic default_rules)
  | Some name =>
      match get name (scenarios v) with
      | None => Raise KeyError
      | Some sc =>
          match get (fl_id (state (objects v f))) (scen_rules sc) with
          | None => Raise KeyError
          | Some rs => Ok (Entry dic (Rules.toDict rs))
          end
      end
  end.

Fixpoint list_flows (v : View) (fs : list string) : result (list ListItem) :=
  match fs with
  | [] => Ok []
  | f :: fs' =>
      match list_flow v f with
      | Raise e => Raise e
      | Ok item =>
          match list_flows v fs' with
          | Raise e => Raise e
          | Ok items => Ok (item :: items)
          end
      end
  end.

(** The list [li] as it stands when the loops are over. *)
Definition listing (v : View) : result (list ListItem) :=
  match list_flows v (live v) with
  | Raise e => Raise e
  | Ok li =>
      if negb (String.eqb (scenario v) "")
      then Ok (li ++ [Current (scenario v)])
      else Ok li
  end.

(** [Flows.get]: build the list, switch both modes off, write the list. *)
Definition Flows_get : M View (list ListItem) :=
  v <- get_state ;;
  li <- lift (listing v) ;;
  v1 <- get_state ;;
  (if mock v1 then switchMock else ret tt) ;;
  v2 <- get_state ;;
  (if learning v2 then switchLearning else ret tt) ;;
  ret li.

End Listing.

(** ** Capture export and import *)

(** [v.items()] *)
Definition items (v : pyval) : result (dict pyval) :=
  match v with
  | PDict d => Ok d
  | _ => Raise AttributeError
  end.

Class Capture : Type := {
  (** [str(m)] for a rule set [m] *)
  str_rules : Rules.t -> string;
  (** [eval(line.decode())] in the scope of [DumpFlows.post]: the line is
      run as an expression with [self] bound, so it can read and change
      the view, and it raises what the expression raises, [SyntaxError]
      when the line is no expression *)
  py_eval : string -> M View pyval
}.

(** The body of an upload: [files] are the bodies of the uploaded files of
    the first form field. *)
Record HTTPRequest : Type := {
  content_type : option string;
  body : string;
  files : list string
}.

(** [RequestHandler.filecontents] *)
Definition filecontents (req : HTTPRequest) : string :=
  match files req with
  | b :: _ => b
  | [] => body req
  end.

Definition newline : string := String (ascii_of_nat 10) EmptyString.

(** [bio.readline()]: the bytes up to and with the first newline, and what
    is left to read. *)
Fixpoint readline (s : string) : string * string :=
  match s with
  | EmptyString => (EmptyString, EmptyString)
  | String c s' =>
      if Ascii.eqb c (ascii_of_nat 10) then (String c EmptyString, s')
      else let '(l, rest) := readline s' in (String c l, rest)
  end.

(** [RequestHandler.set_header] of tornado refuses a value with one of the
    characters 0 to 31 with [ValueError]; a header set twice keeps its
    place. *)
Definition unsafe_header_value (value : string) : bool :=
  existsb (fun c => Nat.ltb (nat_of_ascii c) 32) (list_ascii_of_string value).

Definition set_header (name value : string) (headers : dict string)
  : result (dict string) :=
  if unsafe_header_value value then Raise ValueError
  else Ok (set name value headers).

Section CaptureCodec.
Context {FA : FlowApi} {CA : Capture}.

Definition header_entry (e : string * Rules.t) : string :=
  ("'" ++ fst e ++ "'" ++ ": " ++ str_rules (snd e) ++ ", ")%string.

(** The bytes written before the flow records. *)
Definition dump_header (rules : dict Rules.t) : string :=
  ("{" ++ String.concat "" (map header_entry rules)
       ++ "} " ++ newline)%string.

(** [DumpFlows.get]: the headers set on the response and the bytes
    written to it. *)
Definition DumpFlows_get : M View (dict string * string) :=
  v <- get_state ;;
  h1 <- lift (set_header "Content-Disposition"
                ("attachment; filename=" ++ scenario v ++ ".fl") []) ;;
  h2 <- lift (set_header "Content-Type" "application/octet-stream" h1) ;;
  sc <- getitem (scenario v) (scenarios v) ;;
  ret (h2,
       (dump_header (scen_rules sc)
        ++ String.concat ""
             (map (fun f => encode_flow (objects v f)) (scen_flows sc)))%string).

(** The body of the loop over the decoded flows,
    [asyncio.call_soon(self.master.load_flow, i)]: [call_soon] is a method
    of an event loop and the module [asyncio] has no attribute of that
    name, so the attribute access raises and nothing is called. *)
Definition schedule (i : Flow) : M View unit := raise AttributeError.

(** The part of [DumpFlows.post] that reads the upload.  No statement
    catches what [eval] or [.items()] raises; the exception of the flow
    reader is the [CodecError] of the specification. *)
Definition read_capture (contents : string) : M View unit :=
  let '(line, rest) := readline contents in
  matchers <- py_eval line ;;
  ms <- lift (items matchers) ;;
  for_each ms (fun '(id, matcher) => newMatcher id matcher) ;;
  let '(fs, broken) := read_flows rest in
  for_each fs schedule ;;
  if broken : bool then raise CodecError else ret tt.

(** The statements of [DumpFlows.post] before the upload is read. *)
Definition ensure_learning : M View unit :=
  v <- get_state ;;
  if negb (learning v) then switchLearning else ret tt.

Definition reset_current : M View unit :=
  v <- get_state ;;
  (if negb (String.eqb (scenario v) "")
   then sc <- getitem (scenario v) (scenarios v) ;; remove (scen_flows sc)
   else ret tt) ;;
  v1 <- get_state ;;
  modify (set_scenarios
            (set (scenario v1) {| scen_flows := []; scen_rules := [] |}
                 (scenarios v1))).

(** [DumpFlows.post] *)
Definition DumpFlows_post (req : HTTPRequest) : M View unit :=
  ensure_learning ;;
  reset_current ;;
  read_capture (filecontents req).

End CaptureCodec.

(** ** Updating a flow *)

(** Run a computation on one attribute of the state. *)
Definition zoom {S T A} (proj : S -> T) (inj : T -> S -> S) (m : M T A)
  : M S A :=
  fun s => let '(r, t) := m (proj s) in (r, inj t s).

(** An attribute access on [None] raises [AttributeError]. *)
Definition on_some {T} (m : M T unit) : M (option T) unit :=
  fun o =>
    match o with
    | None => (Raise AttributeError, None)
    | Some t => let '(r, t') := m t in (r, Some t')
    end.

Definition set_req_headers (h : list (string * string)) (r : Request)
  : Request :=
  {| req_method := req_method r; req_scheme := req_scheme r;
     req_host := req_host r; req_port := req_port r; req_path := req_path r;
     req_http_version := req_http_version r; req_headers := h;
     req_raw_content := req_raw_content r;
     req_timestamp_start := req_timestamp_start r;
     req_timestamp_end := req_timestamp_end r;
     req_is_replay := req_is_replay r |}.

Definition set_req_port (p : Z) (r : Request) : Request :=
  {| req_method := req_method r; req_scheme := req_scheme r;
     req_host := req_host r; req_port := p; req_path := req_path r;
     req_http_version := req_http_version r; req_headers := req_headers r;
     req_raw_content := req_raw_content r;
     req_timestamp_start := req_timestamp_start r;
     req_timestamp_end := req_timestamp_end r;
     req_is_replay := req_is_replay r |}.

(** [setattr(request, k, s)] for the five string attributes. *)
Definition request_setattr (k s : string) (r : Request) : Request :=
  let pick name old := if String.eqb k name then s else old in
  {| req_method := pick "method" (req_method r);
     req_scheme := pick "scheme" (req_scheme r);
     req_host := pick "host" (req_host r);
     req_port := req_port r;
     req_path := pick "path" (req_path r);
     req_http_version := pick "http_version" (req_http_version r);
     req_headers := req_headers r;
     req_raw_content := req_raw_content r;
     req_timestamp_start := req_timestamp_start r;
     req_timestamp_end := req_timestamp_end r;
     req_is_replay := req_is_replay r |}.

Definition set_resp_headers (h : list (string * string)) (r : Response)
  : Response :=
  {| resp_http_version := resp_http_version r;
     resp_status_code := resp_status_code r; resp_reason := resp_reason r;
     resp_msg := resp_msg r; resp_headers := h;
     resp_raw_content := resp_raw_content r;
     resp_timestamp_start := resp_timestamp_start r;
     resp_timestamp_end := resp_timestamp_end r;
     resp_is_replay := resp_is_replay r |}.

Definition set_resp_status_code (c : Z) (r : Response) : Response :=
  {| resp_http_version := resp_http_version r;
     resp_status_code := c; resp_reason := resp_reason r;
     resp_msg := resp_msg r; resp_headers := resp_headers r;
     resp_raw_content := resp_raw_content r;
     resp_timestamp_start := resp_timestamp_start r;
     resp_timestamp_end := resp_timestamp_end r;
     resp_is_replay := resp_is_replay r |}.

(** [setattr(response, k, s)] for ["msg"] and ["http_version"]:
    [http_version] is a property that writes the state of the response;
    the class has no [msg], so the call makes an attribute of that name on
    the object. *)
Definition response_setattr (k s : string) (r : Response) : Response :=
  {| resp_http_version :=
       if String.eqb k "http_version" then s else resp_http_version r;
     resp_status_code := resp_status_code r; resp_reason := resp_reason r;
     resp_msg := if String.eqb k "msg" then Some s else resp_msg r;
     resp_headers := resp_headers r;
     resp_raw_content := resp_raw_content r;
     resp_timestamp_start := resp_timestamp_start r;
     resp_timestamp_end := resp_timestamp_end r;
     resp_is_replay := resp_is_replay r |}.

Section FlowUpdate.
Context {BI : Builtins} {FA : FlowApi}.

(** [int(v)] *)
Definition int (v : pyval) : result Z :=
  match v with
  | PInt z => Ok z
  | PBool b => Ok (if b then 1%Z else 0%Z)
  | PStr s =>
      match parse_int s with
      | Some z => Ok z
      | None => Raise ValueError
      end
  | PNone | PList _ | PDict _ => Raise TypeError
  end.

(** [str(v)] *)
Definition str (v : pyval) : string :=
  match v with
  | PStr s => s
  | PNone => "None"
  | PBool true => "True"
  | PBool false => "False"
  | PInt z => NilZero.string_of_int (Z.to_int z)
  | PList _ | PDict _ => repr_container v
  end.

(** The elements that iterating over [v] yields. *)
Definition iter (v : pyval) : result (list pyval) :=
  match v with
  | PList l => Ok l
  | PStr s =>
      Ok (map (fun c => PStr (String c EmptyString))
              (list_ascii_of_string s))
  | PDict d => Ok (map (fun e => PStr (fst e)) d)
  | PNone | PBool _ | PInt _ => Raise TypeError
  end.

(** [headers.add] called with the elements of [header] as its arguments:
    a name and a value, both strings. *)
Definition header_args (header : pyval) : result (string * string) :=
  match iter header with
  | Ok [PStr k; PStr v] => Ok (k, v)
  | Ok _ => Raise TypeError
  | Raise e => Raise e
  end.

(** [RequestHandler.json]; the message of the second error also carries
    the text of the parser's exception, which is left out. *)
Definition json (req : HTTPRequest) : result pyval :=
  let ct := match content_type req with Some c => c | None => "" end in
  if negb (String.prefix "application/json" ct)
  then Raise (APIError 400 "Invalid Content-Type, expected application/json.")
  else match json_loads (body req) with
       | Some v => Ok v
       | None => Raise (APIError 400 "Malformed JSON")
       end.

Definition set_headers {T} (get_h : T -> list (string * string))
    (set_h : list (string * string) -> T -> T) (v : pyval) : M T unit :=
  modify (set_h []) ;;
  hs <- lift (iter v) ;;
  for_each hs
    (fun header =>
       kv <- lift (header_args header) ;;
       t <- get_state ;;
       modify (set_h (get_h t ++ [kv]))).

Definition set_text {T} (setter : pyval -> T -> result T) (v : pyval)
  : M T unit :=
  fun t =>
    match setter v t with
    | Ok t' => (Ok tt, t')
    | Raise e => (Raise e, t)
    end.

(** One turn of the loop over the fields of ["request"]. *)
Definition update_request (k : string) (v : pyval)
  : M (option Request) unit :=
  if existsb (String.eqb k)
       ["method"; "scheme"; "host"; "path"; "http_version"]
  then on_some (modify (request_setattr k (str v)))
  else if String.eqb k "port"
  then port <- lift (int v) ;; on_some (modify (set_req_port port))
  else if String.eqb k "headers"
  then on_some (set_headers req_headers set_req_headers v)
  else if String.eqb k "content"
  then on_some (set_text request_set_text v)
  else raise (APIError 400
                ("Unknown update request." ++ k ++ ": " ++ str v)%string).

(** One turn of the loop over the fields of ["response"]. *)
Definition update_response (k : string) (v : pyval)
  : M (option Response) unit :=
  if existsb (String.eqb k) ["msg"; "http_version"]
  then on_some (modify (response_setattr k (str v)))
  else if String.eqb k "code"
  then code <- lift (int v) ;; on_some (modify (set_resp_status_code code))
  else if String.eqb k "headers"
  then on_some (set_headers resp_headers set_resp_headers v)
  else if String.eqb k "content"
  then on_some (set_text response_set_text v)
  else raise (APIError 400
                ("Unknown update response." ++ k ++ ": " ++ str v)%string).

(** One turn of the loop over the items of the body. *)
Definition update_section (a : string) (b : pyval) : M Flow unit :=
  flow <- get_state ;;
  if String.eqb a "request" && hasattr_request flow
  then fields <- lift (items b) ;;
       for_each fields
         (fun '(k, v) =>
            zoom (fun f => fl_request (state f)) with_request
                 (update_request k v))
  else if String.eqb a "response" && hasattr_request flow
  then fields <- lift (items b) ;;
       for_each fields
         (fun '(k, v) =>
            zoom (fun f => fl_response (state f)) with_response
                 (update_response k v))
  else raise (APIError 400 ("Unknown update " ++ a ++ ": " ++ str b)%string).

(** [try: ... except APIError: flow.revert(); raise] *)
Definition except_APIError (m : M Flow unit) : M Flow unit :=
  fun f =>
    match m f with
    | (Raise (APIError status msg), f') =>
        (Raise (APIError status msg), revert f')
    | other => other
    end.

(** The work of [FlowHandler.put] on the flow object. *)
Definition put_flow (req : HTTPRequest) : M Flow unit :=
  modify backup ;;
  except_APIError
    (j <- lift (json req) ;;
     sections <- lift (items j) ;;
     for_each sections (fun '(a, b) => update_section a b)).

(** [FlowHandler.put]; [view.update] only notifies the observers. *)
Definition FlowHandler_put (flow_id : string) (req : HTTPRequest)
  : M View unit :=
  v <- get_state ;;
  flow <- match get_by_id flow_id v with
          | Some r => ret r
          | None => raise (APIError 404 "Flow not found.")
          end ;;
  zoom (fun v => objects v flow)
       (fun f v =>
          set_objects
            (fun r => if String.eqb r flow then f else objects v r) v)
       (put_flow req).

End FlowUpdate.

(** ** The invariant of the scenario store *)

(** The current scenario is the empty string or a key of the mapping. *)
Definition current_ok (v : View) : Prop :=
  scenario v = "" \/ In (scenario v) (keys (scenarios v)).

(** The scenario [DeleteScenario.post] selects: none when the list has one
    name, else the name before position [i], or the one after it when [i] is
    the first position. *)
Definition neighbour (ks : list string) (i : nat) : string :=
  if Nat.eqb (length ks) 1 then ""
  else if Nat.eqb i 0 then nth 1 ks "" else nth (i - 1) ks "".

(** The header of a capture as the specification words it: the matchers
    registered for the flows of the scenario, each written by [render]. *)
Definition matcher_header (render : pyval -> string) (v : View) (sc : Scen)
  : string :=
  let ids := map (fun f => fl_id (state (objects v f))) (scen_flows sc) in
  let entry (e : string * pyval) :=
    ("'" ++ fst e ++ "'" ++ ": " ++ render (snd e) ++ ", ")%string in
  ("{" ++ String.concat ""
            (map entry (filter (fun e => PyList.mem (fst e) ids) (matchers v)))
       ++ "} " ++ newline)%string.

Fixpoint has_newline (s : string) : bool :=
  match s with
  | EmptyString => false
  | String c s' => Ascii.eqb c (ascii_of_nat 10) || has_newline s'
  end.

(** [m] keeps the property [P] of the state, whether it returns or raises. *)
Definition preserves {S A} (P : S -> Prop) (m : M S A) : Prop :=
  forall s : S, P s -> P (snd (m s)).

(** ** Sample data *)

(** Stand-ins for the library functions and a few states, enough to run the
    handlers. *)
Module Sample.

Definition dq : string := String (ascii_of_nat 34) EmptyString.

(** The JSON text of an update that sets the method and gives [null] as
    the port. *)
Definition update_text : string :=
  ("{" ++ dq ++ "request" ++ dq ++ ": {"
       ++ dq ++ "method" ++ dq ++ ": " ++ dq ++ "POST" ++ dq ++ ", "
       ++ dq ++ "port" ++ dq ++ ": null}}")%string.

Definition builtins : Builtins :=
  {| sha256_hexdigest := fun b => ("sha256(" ++ b ++ ")")%string;
     decode_backslashreplace := fun b => b;
     parse_int := fun s => if String.eqb s "8080" then Some 8080%Z else None;
     repr_container := fun _ => "[...]";
     json_loads := fun s =>
       if String.eqb s update_text
       then Some (PDict [("request",
                          PDict [("method", PStr "POST");
                                 ("port", PNone)])])
       else None |}.

Definition conn : ConnState :=
  {| alpn_proto_negotiated := Some "h2";
     conn_attrs := [("address", PStr "10.0.0.1"); ("cert", PStr "pem");
                    ("tls_extensions", PList []); ("mitmcert", PStr "pem")] |}.

Definition request (content : option string) : Request :=
  {| req_method := "GET"; req_scheme := "http"; req_host := "example.com";
     req_port := 80; req_path := "/"; req_http_version := "HTTP/1.1";
     req_headers := [("Host", "example.com")];
     req_raw_content := content;
     req_timestamp_start := PInt 1; req_timestamp_end := PInt 2;
     req_is_replay := false |}.

Definition response (content : option string) : Response :=
  {| resp_http_version := "HTTP/1.1"; resp_status_code := 200;
     resp_reason := "OK"; resp_msg := None; resp_headers := [];
     resp_raw_content := content;
     resp_timestamp_start := PInt 3; resp_timestamp_end := PInt 4;
     resp_is_replay := false |}.

Definition flow (id : string) (content : option string) : Flow :=
  {| state := {| fl_id := id; fl_intercepted := false;
                 fl_client_conn := conn; fl_server_conn := conn;
                 fl_type := "http"; fl_marked := false; fl_error := None;
                 fl_kind := HTTPFlow;
                 fl_request := Some (request content);
                 fl_response := Some (response content) |};
     saved := None |}.

Definition api : FlowApi :=
  {| modified := fun f =>
       match saved f with Some _ => true | None => false end;
     pretty_host := req_host;
     request_set_text := fun _ r => Ok r;
     response_set_text := fun _ r => Ok r;
     encode_flow := fun f => ("<" ++ fl_id (state f) ++ ">")%string;
     read_flows := fun s =>
       if String.eqb s "" then ([], false) else ([flow s None], false) |}.

(** An evaluator that knows three lines: the empty mapping, a number, and
    an expression that calls [switchLearning] of the view before it gives
    the empty mapping. *)
Definition capture : Capture :=
  {| str_rules := fun rs =>
       ("{" ++ String.concat "," (keys rs) ++ "}")%string;
     py_eval := fun line =>
       if String.eqb line ("{} " ++ newline) then ret (PDict [])
       else if String.eqb line "7" then ret (PInt 7)
       else if String.eqb line "self.master.view.switchLearning() or {}"
       then (switchLearning ;; ret (PDict []))%py
       else raise SyntaxError |}.

(** A rendering of matcher payloads. *)
Definition render (m : pyval) : string :=
  match m with PStr s => s | _ => "?" end.

Definition rule (x : Z) : Rules.Rule := [("x", PInt x)].

Definition rules : Rules.t := [("Match", [rule 1; rule 2])].

Definition scen : Scen :=
  {| scen_flows := ["f1"]; scen_rules := [("f1", rules)] |}.

Definition empty_scen : Scen := {| scen_flows := []; scen_rules := [] |}.

(** Scenarios [A], [B], [C] with [B] current; the flow [f1] of [B] is
    live and has a matcher registered; both modes are on. *)
Definition view : View :=
  {| objects := fun r => flow r None;
     live := ["f1"];
     scenarios := [("A", empty_scen); ("B", scen); ("C", empty_scen)];
     scenario := "B";
     mock := true;
     learning := true;
     matchers := [("f1", PStr "~u example")];
     pending := [] |}.

(** One scenario, [A], which is current. *)
Definition single : View :=
  {| objects := fun r => flow r None;
     live := ["f1"];
     scenarios := [("A", scen)];
     scenario := "A";
     mock := false;
     learning := false;
     matchers := [];
     pending := [] |}.

Definition upload (contents : string) : HTTPRequest :=
  {| content_type := Some "application/octet-stream";
     body := contents; files := [] |}.

Definition update : HTTPRequest :=
  {| content_type := Some "application/json"; body := update_text;
     files := [] |}.

End Sample.

(** ** Handlers on single flows and on all flows *)

(** [self.flow] of [RequestHandler]: the live flow with the id of the route,
    [APIError(404)] when there is none.  The property is evaluated anew at
    each use. *)
Definition self_flow (flow_id : string) : M View string :=
  v <- get_state ;;
  match get_by_id flow_id v with
  | Some r => ret r
  | None => raise (APIError 404 "Flow not found.")
  end.

(** A method call that changes the flow object behind [r] in place. *)
Definition mutate (r : string) (f : Flow -> Flow) : M View unit :=
  modify (fun v =>
            set_objects
              (fun r' => if String.eqb r' r then f (objects v r)
                         else objects v r') v).

(** Methods of the flow and of the master whose code is outside [app.py]. *)
Class FlowControl : Type := {
  (** [flow.killable] *)
  killable : Flow -> bool;
  (** [flow.kill()] *)
  kill : Flow -> Flow;
  (** [flow.resume()] *)
  resume : Flow -> Flow;
  (** [master.replay_request(flow)]: the text of the [ReplayException] it
      raises, if it raises one *)
  replay_request : Flow -> option string
}.

(** [l.remove(x)] on a list of references: drops the first occurrence,
    [ValueError] when absent. *)
Fixpoint list_remove (x : string) (l : list string) : result (list string) :=
  match l with
  | [] => Raise ValueError
  | y :: l' =>
      if String.eqb x y then Ok l'
      else match list_remove x l' with
           | Ok l'' => Ok (y :: l'')
           | Raise e => Raise e
           end
  end.

Section FlowHandlers.
Context {FA : FlowApi} {FC : FlowControl}.

(** [if self.flow.killable: self.flow.kill()] *)
Definition kill_if_killable (flow_id : string) : M View unit :=
  f <- self_flow flow_id ;;
  v <- get_state ;;
  if killable (objects v f)
  then f1 <- self_flow flow_id ;; mutate f1 kill
  else ret tt.

(** [FlowHandler.delete] *)
Definition FlowHandler_delete (flow_id : string) : M View unit :=
  kill_if_killable flow_id ;;
  v <- get_state ;;
  sc <- getitem (scenario v) (scenarios v) ;;
  f <- self_flow flow_id ;;
  flows <- lift (list_remove f (scen_flows sc)) ;;
  modify (set_scenarios
            (set (scenario v)
                 {| scen_flows := flows; scen_rules := scen_rules sc |}
                 (scenarios v))) ;;
  v1 <- get_state ;;
  sc1 <- getitem (scenario v1) (scenarios v1) ;;
  f1 <- self_flow flow_id ;;
  modify (set_scenarios
            (set (scenario v1)
                 {| scen_flows := scen_flows sc1;
                    scen_rules :=
                      del (fl_id (state (objects v1 f1))) (scen_rules sc1) |}
                 (scenarios v1))) ;;
  f2 <- self_flow flow_id ;;
  remove [f2].

(** [RuleHandler.delete] *)
Definition RuleHandler_delete (flow_id : string) : M View unit :=
  kill_if_killable flow_id ;;
  f <- self_flow flow_id ;;
  remove [f].

(** [KillFlow.post]; [view.update] only notifies the observers. *)
Definition KillFlow_post (flow_id : string) : M View unit :=
  f <- self_flow flow_id ;;
  v <- get_state ;;
  if killable (objects v f)
  then f1 <- self_flow flow_id ;; mutate f1 kill ;;
       _ <- self_flow flow_id ;; ret tt
  else ret tt.

(** [ResumeFlow.post] *)
Definition ResumeFlow_post (flow_id : string) : M View unit :=
  f <- self_flow flow_id ;;
  mutate f resume ;;
  _ <- self_flow flow_id ;;
  ret tt.

(** [KillFlows.post]: the loop over the view. *)
Definition KillFlows_post : M View unit :=
  v <- get_state ;;
  for_each (live v)
    (fun f =>
       v1 <- get_state ;;
       if killable (objects v1 f) then mutate f kill else ret tt).

(** [ResumeFlows.post] *)
Definition ResumeFlows_post : M View unit :=
  v <- get_state ;;
  for_each (live v) (fun f => mutate f resume).

(** [RevertFlow.post] *)
Definition RevertFlow_post (flow_id : string) : M View unit :=
  f <- self_flow flow_id ;;
  v <- get_state ;;
  if modified (objects v f)
  then f1 <- self_flow flow_id ;; mutate f1 revert ;;
       _ <- self_flow flow_id ;; ret tt
  else ret tt.

(** [ReplayFlow.post] *)
Definition ReplayFlow_post (flow_id : string) : M View unit :=
  f <- self_flow flow_id ;;
  mutate f backup ;;
  f1 <- self_flow flow_id ;;
  mutate f1 (with_response None) ;;
  _ <- self_flow flow_id ;;
  f2 <- self_flow flow_id ;;
  v <- get_state ;;
  match replay_request (objects v f2) with
  | Some msg => raise (APIError 400 msg)
  | None => ret tt
  end.

End FlowHandlers.

(** ** Adding and replacing rules *)

(** The methods of the rule set class that [RuleHandler.put] and
    [RuleDelete.post] call; their code is outside [app.py].  The label and
    the index are whatever the JSON body holds. *)
Class RuleSetApi : Type := {
  addRule : pyval -> dict pyval -> Rules.t -> result Rules.t;
  setRule : pyval -> dict pyval -> pyval -> Rules.t -> result Rules.t;
  deleteRule : string -> Z -> Rules.t -> result Rules.t
}.

(** [d.pop(k)], [KeyError] when absent. *)
Definition dict_pop {V} (k : string) (d : dict V) : result (V * dict V) :=
  match get k d with
  | Some x => Ok (x, del k d)
  | None => Raise KeyError
  end.

(** [self.scenarios[self.scenario][1][flow_id]] changed in place by [f]. *)
Definition on_current_rules (flow_id : string)
    (f : Rules.t -> result Rules.t) : M View unit :=
  v <- get_state ;;
  sc <- getitem (scenario v) (scenarios v) ;;
  rs <- getitem flow_id (scen_rules sc) ;;
  rs' <- lift (f rs) ;;
  modify (set_scenarios
            (set (scenario v)
                 {| scen_flows := scen_flows sc;
                    scen_rules := set flow_id rs' (scen_rules sc) |}
                 (scenarios v))).

Section RuleUpdate.
Context {BI : Builtins} {RA : RuleSetApi}.

(** [RuleHandler.put]: [self.json.copy()] needs a dictionary or a list,
    and a list has no [pop] by key. *)
Definition RuleHandler_put (flow_id : string) (req : HTTPRequest)
  : M View unit :=
  j <- lift (json req) ;;
  tmpdict <- match j with
             | PDict d => ret d
             | PList _ => raise TypeError
             | _ => raise AttributeError
             end ;;
  p1 <- lift (dict_pop "Index" tmpdict) ;;
  let '(index, tmpdict1) := p1 in
  p2 <- lift (dict_pop "Label" tmpdict1) ;;
  let '(label, tmpdict2) := p2 in
  match index with
  | PInt (-1) => on_current_rules flow_id (addRule label tmpdict2)
  | _ => on_current_rules flow_id (setRule label tmpdict2 index)
  end.

(** [RuleDelete.post] *)
Definition RuleDelete_post (flow_id label : string) (index : nat)
  : M View unit :=
  on_current_rules flow_id (deleteRule label (Z.of_nat index)).

End RuleUpdate.

(** ** Settings and options *)

(** The option manager of the master: [options.update] with the keyword
    arguments [d], and the text [str(err)] of an exception. *)
Class OptManager : Type := {
  Options : Type;
  options_update : dict pyval -> Options -> result Options;
  str_exn : exn -> string
}.

Definition option_whitelist : list string :=
  ["intercept"; "showhost"; "upstream_cert"; "rawtcp"; "http2"; "websocket";
   "anticache"; "anticomp"; "stickycookie"; "stickyauth";
   "stream_large_bodies"].

Section Settings.
Context {BI : Builtins} {OM : OptManager}.

(** [options.update(STAR STAR update)]: the argument has to be a mapping. *)
Definition update_options (update : pyval) : M Options unit :=
  match update with
  | PDict d =>
      fun o =>
        match options_update d o with
        | Ok o' => (Ok tt, o')
        | Raise e => (Raise e, o)
        end
  | _ => raise TypeError
  end.

(** One turn of the loop of [Settings.put]: a list or a dictionary cannot
    be looked up in a set. *)
Definition check_setting (k : pyval) : M Options unit :=
  match k with
  | PList _ | PDict _ => raise TypeError
  | PStr s =>
      if PyList.mem s option_whitelist then ret tt
      else raise (APIError 400 ("Unknown setting " ++ s)%string)
  | _ => raise (APIError 400 ("Unknown setting " ++ str k)%string)
  end.

(** [Settings.put] *)
Definition Settings_put (req : HTTPRequest) : M Options unit :=
  update <- lift (json req) ;;
  ks <- lift (iter update) ;;
  for_each ks check_setting ;;
  update_options update.

(** [Options.put]: every exception of the update becomes an [APIError]. *)
Definition Options_put (req : HTTPRequest) : M Options unit :=
  update <- lift (json req) ;;
  fun o =>
    match update_options update o with
    | (Raise err, o') => (Raise (APIError 400 (str_exn err)), o')
    | other => other
    end.

End Settings.

(** ** The event broadcaster *)

(** The set [connections] as a list without repetition, the messages the
    connections took, and the number of errors logged. *)
Record Hub : Type := {
  connections : list string;
  outbox : list (string * string);
  logged : nat
}.

Class Socket : Type := {
  (** [json.dumps(kwargs, ensure_ascii=False).encode(...)] *)
  json_dumps : dict pyval -> string;
  (** whether [conn.write_message(message)] returns; it raises otherwise *)
  write_message : string -> string -> bool
}.

(** [WebSocketEventBroadcaster.open]: [connections.add(self)]. *)
Definition Broadcaster_open (conn : string) : M Hub unit :=
  modify (fun h =>
            if PyList.mem conn (connections h) then h
            else {| connections := connections h ++ [conn];
                    outbox := outbox h; logged := logged h |}).

(** [WebSocketEventBroadcaster.on_close]: [connections.remove(self)],
    [KeyError] when absent. *)
Definition Broadcaster_on_close (conn : string) : M Hub unit :=
  h <- get_state ;;
  if PyList.mem conn (connections h)
  then modify (fun h =>
                 {| connections :=
                      filter (fun c => negb (String.eqb c conn))
                             (connections h);
                    outbox := outbox h; logged := logged h |})
  else raise KeyError.

Section Broadcast.
Context {SO : Socket}.

(** One turn of the loop: [try: conn.write_message(message)], and an
    exception is logged. *)
Definition send (message conn : string) : M Hub unit :=
  modify (fun h =>
            if write_message conn message
            then {| connections := connections h;
                    outbox := outbox h ++ [(conn, message)];
                    logged := logged h |}
            else {| connections := connections h;
                    outbox := outbox h;
                    logged := S (logged h) |}).

(** [WebSocketEventBroadcaster.broadcast] *)
Definition broadcast (kwargs : dict pyval) : M Hub unit :=
  h <- get_state ;;
  for_each (connections h) (send (json_dumps kwargs)).

End Broadcast.

(** ** More sample data *)

Module SampleMore.

(** A flow can be killed while it is intercepted; killing and resuming
    clear the flag. *)
Definition release (f : Flow) : Flow :=
  let s := state f in
  {| state := {| fl_id := fl_id s; fl_intercepted := false;
                 fl_client_conn := fl_client_conn s;
                 fl_server_conn := fl_server_conn s;
                 fl_type := fl_type s; fl_marked := fl_marked s;
                 fl_error := fl_error s; fl_kind := fl_kind s;
                 fl_request := fl_request s;
                 fl_response := fl_response s |};
     saved := saved f |}.

Definition control : FlowControl :=
  {| killable := fun f => fl_intercepted (state f);
     kill := release;
     resume := release;
     replay_request := fun f =>
       match fl_request (state f) with
       | Some _ => None
       | None => Some "no request"
       end |}.

Definition intercepted (id : string) : Flow :=
  let s := state (Sample.flow id None) in
  {| state := {| fl_id := fl_id s; fl_intercepted := true;
                 fl_client_conn := fl_client_conn s;
                 fl_server_conn := fl_server_conn s;
                 fl_type := fl_type s; fl_marked := fl_marked s;
                 fl_error := fl_error s; fl_kind := fl_kind s;
                 fl_request := fl_request s;
                 fl_response := fl_response s |};
     saved := None |}.

(** The sample view with a second live flow, [f2], in no scenario; [f1]
    is intercepted. *)
Definition view : View :=
  {| objects := fun r =>
       if String.eqb r "f1" then intercepted r else Sample.flow r None;
     live := ["f1"; "f2"];
     scenarios := scenarios Sample.view;
     scenario := "B";
     mock := true;
     learning := false;
     matchers := [];
     pending := [] |}.

(** A flow that is not an HTTP flow. *)
Definition tcp_flow : Flow :=
  {| state := {| fl_id := "t1"; fl_intercepted := false;
                 fl_client_conn := Sample.conn;
                 fl_server_conn := Sample.conn;
                 fl_type := "tcp"; fl_marked := false; fl_error := None;
                 fl_kind := OtherFlow;
                 fl_request := None; fl_response := None |};
     saved := None |}.

(** A header evaluator that knows the header of the sample export and
    the empty header. *)
Definition capture : Capture :=
  {| str_rules := str_rules (Capture := Sample.capture);
     py_eval := fun line =>
       if String.eqb line ("{'f1': {Match}, } " ++ newline)
       then ret (PDict [("f1", PStr "{Match}")])
       else if String.eqb line ("{} " ++ newline) then ret (PDict [])
       else raise SyntaxError |}.

Definition rule_api : RuleSetApi :=
  {| addRule := fun label fields rs =>
       match label with
       | PStr l => Ok (set l (Rules.rules_of l rs ++ [fields]) rs)
       | _ => Raise TypeError
       end;
     setRule := fun _ _ _ rs => Ok rs;
     deleteRule := fun _ _ rs => Ok rs |}.

Definition opts : OptManager :=
  {| Options := dict pyval;
     options_update := fun d o =>
       Ok (fold_left (fun o e => set (fst e) (snd e) o) d o);
     str_exn := fun _ => "error" |}.

Definition socket : Socket :=
  {| json_dumps := fun d => String.concat "," (keys d);
     write_message := fun conn _ => negb (String.eqb conn "closed") |}.

Definition hub : Hub :=
  {| connections := ["a"; "closed"; "b"]; outbox := []; logged := 0 |}.

Definition json_request (text : string) : HTTPRequest :=
  {| content_type := Some "application/json"; body := text; files := [] |}.

(** A parser that knows a few bodies. *)
Definition builtins : Builtins :=
  {| sha256_hexdigest := sha256_hexdigest (Builtins := Sample.builtins);
     decode_backslashreplace := fun b => b;
     parse_int := parse_int (Builtins := Sample.builtins);
     repr_container := fun _ => "[...]";
     json_loads := fun s =>
       if String.eqb s "settings"
       then Some (PDict [("showhost", PBool true); ("mode", PStr "x");
                         ("http2", PBool false)])
       else if String.eqb s "headers"
       then Some (PDict [("request",
                          PDict [("headers",
                                  PList [PList [PStr "A"; PStr "1"];
                                         PList [PStr "A"; PStr "2"]])])])
       else if String.eqb s "rule"
       then Some (PDict [("Label", PStr "Match"); ("x", PInt 3)])
       else if String.eqb s "add rule"
       then Some (PDict [("Index", PInt (-1)); ("x", PInt 3);
                         ("Label", PStr "Match")])
       else if String.eqb s "colour"
       then Some (PDict [("request", PDict [("method", PStr "POST");
                                            ("colour", PStr "red")])])
       else if String.eqb s "msg"
       then Some (PDict [("response", PDict [("code", PInt 404);
                                             ("msg", PStr "gone");
                                             ("colour", PStr "red")])])
       else None |}.

End SampleMore.

(** * Properties *)

(** ** Dictionaries and lists *)

Module PyDictFacts.

Section Facts.
Context {V : Type}.
Implicit Types (d : dict V) (k : string) (v : V).

Lemma get_Some_In d k v : get k d = Some v -> In k (keys d).
Proof.
  induction d as [|[k' v'] d IH]; simpl; [discriminate|].
  destruct (String.eqb_spec k k'); auto.
Qed.

Lemma get_None_notin d k : get k d = None <-> ~ In k (keys d).
Proof.
  induction d as [|[k' v'] d IH]; simpl.
  - tauto.
  - destruct (String.eqb_spec k k') as [->|Hne].
    + split; [discriminate | intros Hn; exfalso; auto].
    + rewrite IH. split; [intros Hn [He|Hi]; congruence | tauto].
Qed.

Lemma In_get_Some d k : In k (keys d) -> exists v, get k d = Some v.
Proof.
  intros Hin. destruct (get k d) as [v|] eqn:E; [eauto|].
  apply get_None_notin in E. contradiction.
Qed.

Lemma mem_true_iff d k : mem k d = true <-> In k (keys d).
Proof.
  unfold mem. split.
  - destruct (get k d) eqn:E; [|discriminate].
    intros _. eapply get_Some_In; eauto.
  - intros Hin. destruct (In_get_Some _ _ Hin) as [v ->]. reflexivity.
Qed.

Lemma get_set_same d k v : get k (set k v d) = Some v.
Proof.
  induction d as [|[k' v'] d IH]; simpl.
  - now rewrite String.eqb_refl.
  - destruct (String.eqb_spec k k') as [->|Hne]; simpl.
    + now rewrite String.eqb_refl.
    + destruct (String.eqb_spec k k'); [contradiction | exact IH].
Qed.

Lemma get_set_other d k k' v : k' <> k -> get k' (set k v d) = get k' d.
Proof.
  intros Hne. induction d as [|[k0 v0] d IH]; simpl.
  - destruct (String.eqb_spec k' k); [contradiction | reflexivity].
  - destruct (String.eqb_spec k k0) as [->|Hk]; simpl.
    + destruct (String.eqb_spec k' k0); [contradiction | reflexivity].
    + now rewrite IH.
Qed.

Lemma keys_set_In d k k' v :
  In k' (keys (set k v d)) <-> k' = k \/ In k' (keys d).
Proof.
  induction d as [|[k0 v0] d IH]; simpl.
  - intuition.
  - destruct (String.eqb_spec k k0) as [->|Hk]; simpl.
    + intuition.
    + rewrite IH. intuition.
Qed.

Lemma wf_set d k v : wf d -> wf (set k v d).
Proof.
  unfold wf. induction d as [|[k0 v0] d IH]; simpl; intros Hnd.
  - constructor; [intros [] | constructor].
  - inversion Hnd as [|? ? Hnotin Hnd']; subst.
    destruct (String.eqb_spec k k0) as [->|Hk]; simpl.
    + constructor; assumption.
    + constructor; [|auto].
      rewrite keys_set_In. intros [->|Hin]; contradiction.
Qed.

Lemma keys_del_In d k k' :
  k' <> k -> In k' (keys d) -> In k' (keys (del k d)).
Proof.
  intros Hne. induction d as [|[k0 v0] d IH]; simpl; [tauto|].
  destruct (String.eqb_spec k k0) as [->|Hk]; simpl.
  - intros [->|Hin]; [contradiction | assumption].
  - intros [->|Hin]; auto.
Qed.

Lemma keys_del_incl d k k' : In k' (keys (del k d)) -> In k' (keys d).
Proof.
  induction d as [|[k0 v0] d IH]; simpl; [tauto|].
  destruct (String.eqb_spec k k0) as [->|Hk]; simpl; intuition.
Qed.

Lemma wf_del d k : wf d -> wf (del k d).
Proof.
  unfold wf. induction d as [|[k0 v0] d IH]; simpl; intros Hnd.
  - constructor.
  - inversion Hnd as [|? ? Hnotin Hnd']; subst.
    destruct (String.eqb_spec k k0) as [->|Hk]; simpl; [assumption|].
    constructor; [|auto].
    intros Hin. apply Hnotin. eapply keys_del_incl; eauto.
Qed.

Lemma keys_del_notin d k : wf d -> ~ In k (keys (del k d)).
Proof.
  unfold wf. induction d as [|[k0 v0] d IH]; simpl; intros Hnd.
  - tauto.
  - inversion Hnd as [|? ? Hnotin Hnd']; subst.
    destruct (String.eqb_spec k k0) as [->|Hk]; simpl; [assumption|].
    intros [He|Hin]; [congruence | now apply IH].
Qed.

Lemma get_del_same d k : wf d -> get k (del k d) = None.
Proof. intros Hwf. apply get_None_notin. now apply keys_del_notin. Qed.

Lemma get_del_other d k k' : k' <> k -> get k' (del k d) = get k' d.
Proof.
  intros Hne. induction d as [|[k0 v0] d IH]; simpl; [reflexivity|].
  destruct (String.eqb_spec k k0) as [->|Hk]; simpl.
  - destruct (String.eqb_spec k' k0); [contradiction | reflexivity].
  - now rewrite IH.
Qed.

Lemma keys_del_nil d k :
  wf d -> In k (keys d) -> keys (del k d) = [] -> length (keys d) = 1%nat.
Proof.
  destruct d as [|[k0 v0] d]; simpl; [tauto|].
  intros Hwf Hin. destruct (String.eqb_spec k k0) as [->|Hk]; simpl.
  - intros ->. reflexivity.
  - discriminate.
Qed.

End Facts.

End PyDictFacts.

Module PyListFacts.

Lemma index_nth (x : string) (l : list string) (i : nat) :
  PyList.index x l = Some i -> nth_error l i = Some x.
Proof.
  revert i. induction l as [|y l IH]; simpl; intros i; [discriminate|].
  destruct (String.eqb_spec x y) as [->|Hne].
  - intros [= <-]. reflexivity.
  - destruct (PyList.index x l) as [j|]; simpl; [|discriminate].
    intros [= <-]. simpl. now apply IH.
Qed.

Lemma In_index (x : string) (l : list string) :
  In x l -> exists i, PyList.index x l = Some i.
Proof.
  induction l as [|y l IH]; simpl; [tauto|].
  destruct (String.eqb_spec x y) as [->|Hne]; [eauto|].
  intros [He|Hin]; [congruence|].
  destruct (IH Hin) as [i ->]. simpl. eauto.
Qed.

Lemma index_lt (x : string) (l : list string) (i : nat) :
  PyList.index x l = Some i -> (i < length l)%nat.
Proof.
  intros Hi. apply nth_error_Some. rewrite (index_nth _ _ _ Hi). discriminate.
Qed.

(** An index inside the list reads the element at that position. *)
Lemma getitem_nat {A} (l : list A) (n : nat) (d : A) :
  (n < length l)%nat -> PyList.getitem l (Z.of_nat n) = Ok (nth n l d).
Proof.
  intros Hlt. unfold PyList.getitem.
  destruct (Z.ltb_spec (Z.of_nat n) 0); [lia|].
  destruct (Z.leb_spec 0 (Z.of_nat n)); [|lia].
  destruct (Z.ltb_spec (Z.of_nat n) (Z.of_nat (length l))); [|lia].
  simpl. rewrite Nat2Z.id.
  rewrite (nth_error_nth' l d Hlt). reflexivity.
Qed.

Lemma NoDup_nth_neq (l : list string) (i j : nat) (x : string) :
  NoDup l -> nth_error l i = Some x -> (j < length l)%nat -> j <> i ->
  nth j l "" <> x.
Proof.
  intros Hnd Hi Hj Hne Heq.
  apply Hne. apply (proj1 (NoDup_nth_error l) Hnd); [assumption|].
  rewrite Hi. rewrite (nth_error_nth' l "" Hj). now f_equal.
Qed.

End PyListFacts.

(** ** Scenario handlers *)

Module ScenarioFacts.
Import PyDictFacts PyListFacts.

Lemma setScen_empty (v : View) : setScen "" v = (Ok tt, set_scenario "" v).
Proof. reflexivity. Qed.

Lemma setScen_present (v : View) (k : string) :
  In k (keys (scenarios v)) -> setScen k v = (Ok tt, set_scenario k v).
Proof.
  intros Hin. unfold setScen, bind, get_state.
  rewrite (proj2 (mem_true_iff _ _) Hin).
  rewrite andb_false_r. reflexivity.
Qed.

Lemma setScen_absent (v : View) (k : string) :
  k <> "" -> ~ In k (keys (scenarios v)) ->
  setScen k v = (Raise NotFoundError, v).
Proof.
  intros Hne Hnotin. unfold setScen, bind, get_state.
  destruct (String.eqb_spec k ""); [contradiction|].
  destruct (mem k (scenarios v)) eqn:E.
  - apply mem_true_iff in E. contradiction.
  - reflexivity.
Qed.

Lemma getitem_present {V S} (k : string) (d : dict V) (x : V) (s : S) :
  get k d = Some x -> getitem k d s = (Ok x, s).
Proof. intros E. unfold getitem. now rewrite E. Qed.

(** The neighbour is a scenario of the store other than the one at
    position [i], unless the store holds a single scenario. *)
Lemma neighbour_spec (ks : list string) (i : nat) (name : string) :
  NoDup ks -> nth_error ks i = Some name -> length ks <> 1%nat ->
  In (neighbour ks i) ks /\ neighbour ks i <> name.
Proof.
  intros Hnd Hi Hlen. unfold neighbour.
  assert (Hlt : (i < length ks)%nat)
    by (apply nth_error_Some; rewrite Hi; discriminate).
  destruct (Nat.eqb_spec (length ks) 1); [contradiction|].
  destruct (Nat.eqb_spec i 0) as [->|Hi0].
  - assert (1 < length ks)%nat by lia.
    split; [now apply nth_In|].
    eapply NoDup_nth_neq; eauto.
  - assert (i - 1 < length ks)%nat by lia.
    split; [now apply nth_In|].
    eapply NoDup_nth_neq; eauto. lia.
Qed.

(** What [DeleteScenario.post] leaves behind when the scenario exists. *)
Lemma DeleteScenario_post_run (v : View) (name : string) (i : nat)
    (sc : Scen) :
  wf (scenarios v) ->
  PyList.index name (keys (scenarios v)) = Some i ->
  get name (scenarios v) = Some sc ->
  DeleteScenario_post name v =
    (Ok tt,
     set_scenarios (del name (scenarios v))
       (set_live
          (filter (fun r => negb (PyList.mem r (scen_flows sc))) (live v))
          (set_scenario (neighbour (keys (scenarios v)) i) v))).
Proof.
  intros Hwf Hidx Hget.
  pose proof (index_nth _ _ _ Hidx) as Hnth.
  pose proof (index_lt _ _ _ Hidx) as Hlt.
  unfold DeleteScenario_post, bind at 1, get_state.
  rewrite Hidx. unfold bind at 1, ret at 1.
  assert (Hsel :
    (if Nat.eqb (length (keys (scenarios v))) 1 then setScen ""
     else if negb (Nat.eqb i 0)
          then bind (lift (PyList.getitem (keys (scenarios v))
                                          (Z.of_nat i - 1)))
                    (fun k => setScen k)
          else bind (lift (PyList.getitem (keys (scenarios v))
                                          (Z.of_nat i + 1)))
                    (fun k => setScen k)) v
    = (Ok tt, set_scenario (neighbour (keys (scenarios v)) i) v)).
  { unfold neighbour.
    destruct (Nat.eqb_spec (length (keys (scenarios v))) 1) as [H1|H1].
    - reflexivity.
    - destruct (neighbour_spec _ _ _ Hwf Hnth H1) as [Hin _].
      unfold neighbour in Hin.
      destruct (Nat.eqb_spec (length (keys (scenarios v))) 1);
        [contradiction|].
      destruct (Nat.eqb_spec i 0) as [->|Hi0]; simpl negb; cbv iota.
      + unfold bind, lift. change (Z.of_nat 0 + 1)%Z with (Z.of_nat 1).
        rewrite (getitem_nat _ 1 ""%string) by lia.
        now apply setScen_present.
      + unfold bind, lift.
        replace (Z.of_nat i - 1)%Z with (Z.of_nat (i - 1)) by lia.
        rewrite (getitem_nat _ (i - 1) ""%string) by lia.
        now apply setScen_present. }
  unfold bind at 1. rewrite Hsel.
  unfold bind at 1, get_state.
  unfold bind at 1. rewrite (getitem_present _ _ sc) by exact Hget.
  unfold bind at 1, remove, bind at 1, get_state, modify.
  unfold bind at 1, get_state.
  unfold bind at 1. rewrite (getitem_present _ _ sc) by exact Hget.
  reflexivity.
Qed.

(** C4: removing the current scenario succeeds and reselects a neighbour:
    the empty name when it was the only scenario, else the name just before
    it in insertion order, or the one just after it when it was first.  The
    new current scenario is a scenario of the store when one remains and
    the empty string when none does. *)
Theorem DeleteScenario_post_current (v : View) (name : string) :
  wf (scenarios v) ->
  scenario v = name ->
  In name (keys (scenarios v)) ->
  exists (v' : View) (i : nat),
    DeleteScenario_post name v = (Ok tt, v') /\
    PyList.index name (keys (scenarios v)) = Some i /\
    scenarios v' = del name (scenarios v) /\
    ~ In name (keys (scenarios v')) /\
    (length (keys (scenarios v)) = 1%nat -> scenario v' = "") /\
    (length (keys (scenarios v)) <> 1%nat -> i <> 0%nat ->
     nth_error (keys (scenarios v)) (i - 1) = Some (scenario v')) /\
    (length (keys (scenarios v)) <> 1%nat -> i = 0%nat ->
     nth_error (keys (scenarios v)) 1 = Some (scenario v')) /\
    (keys (scenarios v') = [] -> scenario v' = "") /\
    (keys (scenarios v') <> [] -> In (scenario v') (keys (scenarios v'))).
Proof.
  intros Hwf _ Hin.
  destruct (In_index _ _ Hin) as [i Hidx].
  destruct (In_get_Some _ _ Hin) as [sc Hget].
  pose proof (index_nth _ _ _ Hidx) as Hnth.
  pose proof (index_lt _ _ _ Hidx) as Hlt.
  eexists. exists i.
  split; [apply (DeleteScenario_post_run v name i sc); assumption|].
  split; [assumption|].
  cbn [scenario scenarios set_scenarios set_live set_scenario].
  split; [reflexivity|].
  split; [now apply keys_del_notin|].
  split; [|split; [|split; [|split]]].
  - intros H1. unfold neighbour. now rewrite H1.
  - intros H1 Hi0. unfold neighbour.
    destruct (Nat.eqb_spec (length (keys (scenarios v))) 1);
      [contradiction|].
    destruct (Nat.eqb_spec i 0); [contradiction|].
    apply nth_error_nth'. lia.
  - intros H1 ->. unfold neighbour.
    destruct (Nat.eqb_spec (length (keys (scenarios v))) 1);
      [contradiction|].
    change (Nat.eqb 0 0) with true. cbv iota. apply nth_error_nth'. lia.
  - intros Hnil. unfold neighbour.
    now rewrite (keys_del_nil _ _ Hwf Hin Hnil).
  - intros Hsome.
    destruct (Nat.eq_dec (length (keys (scenarios v))) 1) as [H1|H1].
    + exfalso. apply Hsome.
      destruct (scenarios v) as [|[k0 s0] [|e d]]; try discriminate.
      simpl in Hin. destruct Hin as [<-|[]]. simpl.
      now rewrite String.eqb_refl.
    + destruct (neighbour_spec _ _ _ Hwf Hnth H1) as [Hn Hne].
      now apply keys_del_In.
Qed.

(** The three scenarios of the sample with [B] current: [A] is selected;
    a single scenario: none is. *)
Lemma DeleteScenario_post_current_witness :
  scenario (snd (DeleteScenario_post "B" Sample.view)) = "A" /\
  scenario (snd (DeleteScenario_post "A" Sample.single)) = "" /\
  exists (v' : View) (i : nat),
    DeleteScenario_post "B" Sample.view = (Ok tt, v') /\
    PyList.index "B" (keys (scenarios Sample.view)) = Some i /\
    scenarios v' = del "B" (scenarios Sample.view) /\
    ~ In "B" (keys (scenarios v')) /\
    (length (keys (scenarios Sample.view)) = 1%nat -> scenario v' = "") /\
    (length (keys (scenarios Sample.view)) <> 1%nat -> i <> 0%nat ->
     nth_error (keys (scenarios Sample.view)) (i - 1)
     = Some (scenario v')) /\
    (length (keys (scenarios Sample.view)) <> 1%nat -> i = 0%nat ->
     nth_error (keys (scenarios Sample.view)) 1 = Some (scenario v')) /\
    (keys (scenarios v') = [] -> scenario v' = "") /\
    (keys (scenarios v') <> [] -> In (scenario v') (keys (scenarios v'))).
Proof.
  split; [reflexivity|]. split; [reflexivity|].
  apply (DeleteScenario_post_current Sample.view "B").
  - unfold wf. simpl.
    repeat constructor; simpl; intuition discriminate.
  - reflexivity.
  - simpl. auto.
Defined.

(** What [CopyScenario.post] leaves behind for a new name other than the
    current one. *)
Lemma CopyScenario_post_run (v : View) (dst : string) (sc : Scen) :
  get (scenario v) (scenarios v) = Some sc ->
  dst <> scenario v ->
  CopyScenario_post dst v =
    (Ok tt,
     set_scenario dst
       (set_scenarios (del (scenario v) (set dst sc (scenarios v))) v)).
Proof.
  intros Hget Hne.
  unfold CopyScenario_post, bind at 1, get_state.
  unfold bind at 1. rewrite (getitem_present _ _ sc) by exact Hget.
  unfold bind at 1, modify at 1.
  unfold bind at 1, get_state.
  cbn [scenario scenarios set_scenarios].
  unfold bind at 1.
  rewrite (getitem_present _ _ sc)
    by (rewrite get_set_other by congruence; exact Hget).
  unfold bind at 1, modify at 1.
  cbn [scenario scenarios set_scenarios].
  apply setScen_present.
  cbn [scenario scenarios set_scenarios].
  apply keys_del_In; [assumption|].
  apply keys_set_In. now left.
Qed.

(** C3: [CopyScenario.post] copies the current scenario, which is the
    [src] of the claim, to a new name.  When [src] exists and the new name
    differs from it, the handler succeeds; afterwards [src] is no key of
    the mapping, the new name maps to the flows and rule sets that [src]
    had, and the new name is current. *)
Theorem CopyScenario_post_moves (v : View) (dst : string) (sc : Scen) :
  wf (scenarios v) ->
  get (scenario v) (scenarios v) = Some sc ->
  dst <> scenario v ->
  exists v' : View,
    CopyScenario_post dst v = (Ok tt, v') /\
    ~ In (scenario v) (keys (scenarios v')) /\
    get (scenario v) (scenarios v') = None /\
    get dst (scenarios v') = Some sc /\
    scenario v' = dst.
Proof.
  intros Hwf Hget Hne.
  eexists. split; [apply (CopyScenario_post_run v dst sc); assumption|].
  cbn [scenario scenarios set_scenarios set_scenario].
  pose proof (wf_set (scenarios v) dst sc Hwf) as Hwf'.
  repeat split.
  - now apply keys_del_notin.
  - now apply get_del_same.
  - rewrite get_del_other by assumption. apply get_set_same.
Qed.

Lemma CopyScenario_post_moves_witness :
  exists v' : View,
    CopyScenario_post "D" Sample.view = (Ok tt, v') /\
    ~ In "B" (keys (scenarios v')) /\
    get "B" (scenarios v') = None /\
    get "D" (scenarios v') = Some Sample.scen /\
    scenario v' = "D".
Proof.
  apply (CopyScenario_post_moves Sample.view "D" Sample.scen).
  - unfold wf. simpl.
    repeat constructor; simpl; intuition discriminate.
  - reflexivity.
  - simpl. discriminate.
Defined.

(** ** The invariant [current_ok] *)

Lemma Scenario_post_current_ok (v : View) (name : string) :
  current_ok (snd (Scenario_post name v)).
Proof.
  unfold Scenario_post, bind at 1, get_state.
  destruct (mem name (scenarios v)) eqn:Hmem; cbn [negb].
  - unfold bind, ret. apply mem_true_iff in Hmem.
    rewrite setScen_present by assumption.
    right. exact Hmem.
  - unfold bind at 1, addScen, bind at 1, get_state. rewrite Hmem.
    unfold modify.
    rewrite setScen_present
      by (cbn [scenarios set_scenarios]; apply keys_set_In; now left).
    right. cbn [snd scenario scenarios set_scenarios set_scenario].
    apply keys_set_In. now left.
Qed.

Lemma DeleteScenario_post_current_ok (v : View) (name : string) :
  wf (scenarios v) -> current_ok v ->
  current_ok (snd (DeleteScenario_post name v)).
Proof.
  intros Hwf Hok.
  destruct (PyList.index name (keys (scenarios v))) as [i|] eqn:Hidx.
  - pose proof (index_nth _ _ _ Hidx) as Hnth.
    assert (Hin : In name (keys (scenarios v)))
      by (eapply nth_error_In; eauto).
    destruct (In_get_Some _ _ Hin) as [sc Hget].
    rewrite (DeleteScenario_post_run v name i sc) by assumption.
    unfold current_ok.
    cbn [snd scenario scenarios set_scenarios set_live set_scenario].
    destruct (Nat.eq_dec (length (keys (scenarios v))) 1) as [H1|H1].
    + left. unfold neighbour. now rewrite H1.
    + right. destruct (neighbour_spec _ _ _ Hwf Hnth H1) as [Hn Hne].
      now apply keys_del_In.
  - unfold DeleteScenario_post, bind at 1, get_state. rewrite Hidx.
    exact Hok.
Qed.

Lemma CopyScenario_post_current_ok (v : View) (dst : string) :
  current_ok v -> dst <> scenario v ->
  current_ok (snd (CopyScenario_post dst v)).
Proof.
  intros Hok Hne.
  destruct (get (scenario v) (scenarios v)) as [sc|] eqn:Hget.
  - rewrite (CopyScenario_post_run v dst sc) by assumption.
    right. cbn [snd scenario scenarios set_scenarios set_scenario].
    apply keys_del_In; [assumption|]. apply keys_set_In. now left.
  - unfold CopyScenario_post, bind at 1, get_state.
    unfold bind at 1, getitem. rewrite Hget. exact Hok.
Qed.

(** C5 fails on the code: [A] is the only scenario and is current, so the
    invariant holds; [CopyScenario.post] with the name [A] stores the
    scenario under its own name, deletes that name and leaves [A] current
    with no scenario in the store. *)
Theorem CopyScenario_post_current_name_breaks_current_ok :
  wf (scenarios Sample.single) /\
  current_ok Sample.single /\
  scenarios (snd (CopyScenario_post "A" Sample.single)) = [] /\
  scenario (snd (CopyScenario_post "A" Sample.single)) = "A" /\
  ~ current_ok (snd (CopyScenario_post "A" Sample.single)).
Proof.
  split.
  { unfold wf. simpl. repeat constructor. simpl. tauto. }
  split; [right; simpl; auto|].
  split; [reflexivity|].
  split; [reflexivity|].
  intros [Hempty|Hin].
  - vm_compute in Hempty. discriminate.
  - vm_compute in Hin. exact Hin.
Qed.

End ScenarioFacts.

(** ** Reordering rules *)

Module RuleFacts.
Import PyDictFacts ScenarioFacts.

Lemma switchRules_out_of_range (label : string) (i j : Z) (rs : Rules.t) :
  (i < 0 \/ Z.of_nat (length (Rules.rules_of label rs)) <= i \/
   j < 0 \/ Z.of_nat (length (Rules.rules_of label rs)) <= j)%Z ->
  Rules.switchRules label i j rs = Raise IndexOutOfRangeError.
Proof.
  intros Hout. unfold Rules.switchRules, Rules.in_range.
  destruct (Z.leb_spec 0 i); destruct (Z.leb_spec 0 j);
    destruct (Z.ltb_spec i (Z.of_nat (length (Rules.rules_of label rs))));
    destruct (Z.ltb_spec j (Z.of_nat (length (Rules.rules_of label rs))));
    simpl; try reflexivity; lia.
Qed.

Lemma switch_current_rules_rejected (v : View) (flow_id label : string)
    (i j : Z) (sc : Scen) (rs : Rules.t) :
  get (scenario v) (scenarios v) = Some sc ->
  get flow_id (scen_rules sc) = Some rs ->
  Rules.switchRules label i j rs = Raise IndexOutOfRangeError ->
  switch_current_rules flow_id label i j v = (Raise IndexOutOfRangeError, v).
Proof.
  intros Hsc Hrs Hsw.
  unfold switch_current_rules, bind at 1, get_state.
  unfold bind at 1. rewrite (getitem_present _ _ sc) by exact Hsc.
  unfold bind at 1. rewrite (getitem_present _ _ rs) by exact Hrs.
  unfold bind at 1, lift. rewrite Hsw. reflexivity.
Qed.

(** The handlers never touch the current scenario or the scenario names. *)
Lemma switch_current_rules_current_ok (v : View) (flow_id label : string)
    (i j : Z) :
  current_ok v -> current_ok (snd (switch_current_rules flow_id label i j v)).
Proof.
  intros Hok. unfold switch_current_rules, bind at 1, get_state.
  unfold bind at 1, getitem.
  destruct (get (scenario v) (scenarios v)) as [sc|] eqn:Hsc;
    [|exact Hok].
  unfold ret at 1, bind at 1.
  destruct (get flow_id (scen_rules sc)) as [rs|]; [|exact Hok].
  unfold ret at 1, bind at 1, lift.
  destruct (Rules.switchRules label i j rs) as [rs'|e]; [|exact Hok].
  unfold modify, current_ok.
  cbn [snd scenario scenarios set_scenarios].
  destruct Hok as [Hempty|Hin]; [now left|right].
  apply keys_set_In. now left.
Qed.

(** C6: with [n] rules under the label, moving the rule at index 0 up, or
    the rule at index [n - 1] down, raises [IndexOutOfRangeError] and
    leaves the state as it was; so does every request for an index from
    [n] on.  No index is clamped or wrapped around. *)
Theorem RuleUp_RuleDown_boundary_rejected (v : View)
    (flow_id label : string) (sc : Scen) (rs : Rules.t) :
  get (scenario v) (scenarios v) = Some sc ->
  get flow_id (scen_rules sc) = Some rs ->
  RuleUp_post flow_id label 0 v = (Raise IndexOutOfRangeError, v) /\
  ((1 <= length (Rules.rules_of label rs))%nat ->
   RuleDown_post flow_id label (length (Rules.rules_of label rs) - 1) v
   = (Raise IndexOutOfRangeError, v)) /\
  (forall i : nat,
      (length (Rules.rules_of label rs) <= i)%nat ->
      RuleUp_post flow_id label i v = (Raise IndexOutOfRangeError, v) /\
      RuleDown_post flow_id label i v = (Raise IndexOutOfRangeError, v)).
Proof.
  intros Hsc Hrs. unfold RuleUp_post, RuleDown_post.
  split; [|split].
  - apply (switch_current_rules_rejected v _ _ _ _ sc rs Hsc Hrs).
    apply switchRules_out_of_range. lia.
  - intros Hn.
    apply (switch_current_rules_rejected v _ _ _ _ sc rs Hsc Hrs).
    apply switchRules_out_of_range. lia.
  - intros i Hi. split;
      apply (switch_current_rules_rejected v _ _ _ _ sc rs Hsc Hrs);
      apply switchRules_out_of_range; lia.
Qed.

(** In range the handlers do swap: moving the first of the two sample
    rules down puts it second. *)
Example RuleDown_post_swaps :
  exists v',
    RuleDown_post "f1" "Match" 0 Sample.view = (Ok tt, v') /\
    get "B" (scenarios v')
    = Some {| scen_flows := ["f1"];
              scen_rules :=
                [("f1", [("Match", [Sample.rule 2; Sample.rule 1])])] |}.
Proof. eexists. split; reflexivity. Qed.

Lemma RuleUp_RuleDown_boundary_rejected_witness :
  RuleUp_post "f1" "Match" 0 Sample.view
  = (Raise IndexOutOfRangeError, Sample.view) /\
  ((1 <= length (Rules.rules_of "Match" Sample.rules))%nat ->
   RuleDown_post "f1" "Match"
     (length (Rules.rules_of "Match" Sample.rules) - 1) Sample.view
   = (Raise IndexOutOfRangeError, Sample.view)) /\
  (forall i : nat,
      (length (Rules.rules_of "Match" Sample.rules) <= i)%nat ->
      RuleUp_post "f1" "Match" i Sample.view
      = (Raise IndexOutOfRangeError, Sample.view) /\
      RuleDown_post "f1" "Match" i Sample.view
      = (Raise IndexOutOfRangeError, Sample.view)).
Proof.
  apply (RuleUp_RuleDown_boundary_rejected
           Sample.view "f1" "Match" Sample.scen Sample.rules);
    reflexivity.
Defined.

End RuleFacts.

(** ** The flow projection *)

Module ProjectionFacts.

Section Facts.
Context {BI : Builtins} {FA : FlowApi}.

Lemma content_length_hash_empty (raw : option string) :
  raw = None \/ raw = Some "" ->
  content_length_hash raw = (None, None).
Proof. intros [->| ->]; reflexivity. Qed.

Lemma content_length_hash_nonempty (c : ascii) (b : string) :
  content_length_hash (Some (String c b))
  = (Some (Z.of_nat (String.length (String c b))),
     Some (sha256_hexdigest (String c b))).
Proof. reflexivity. Qed.

(** C10: for an HTTP flow, a request whose body is absent or empty is
    projected with [contentLength] and [contentHash] both [None], and so
    is such a response. *)
Theorem flow_to_json_empty_body (flow : Flow) :
  fl_kind (state flow) = HTTPFlow ->
  (forall r : Request,
      fl_request (state flow) = Some r ->
      req_raw_content r = None \/ req_raw_content r = Some "" ->
      exists j : RequestJson,
        j_request (flow_to_json flow) = Some j /\
        rqj_contentLength j = None /\ rqj_contentHash j = None) /\
  (forall r : Response,
      fl_response (state flow) = Some r ->
      resp_raw_content r = None \/ resp_raw_content r = Some "" ->
      exists j : ResponseJson,
        j_response (flow_to_json flow) = Some j /\
        rsj_contentLength j = None /\ rsj_contentHash j = None).
Proof.
  intros Hkind. split.
  - intros r Hr Hraw. exists (request_to_json r).
    unfold flow_to_json. cbn [j_request]. rewrite Hkind, Hr.
    split; [reflexivity|].
    unfold request_to_json.
    rewrite (content_length_hash_empty _ Hraw). split; reflexivity.
  - intros r Hr Hraw. exists (response_to_json r).
    unfold flow_to_json. cbn [j_response]. rewrite Hkind, Hr.
    split; [reflexivity|].
    unfold response_to_json.
    rewrite (content_length_hash_empty _ Hraw). split; reflexivity.
Qed.

(** A body with at least one byte is projected with its length and its
    hash. *)
Lemma flow_to_json_body (flow : Flow) (r : Request) (c : ascii)
    (b : string) :
  fl_kind (state flow) = HTTPFlow ->
  fl_request (state flow) = Some r ->
  req_raw_content r = Some (String c b) ->
  exists j : RequestJson,
    j_request (flow_to_json flow) = Some j /\
    rqj_contentLength j = Some (Z.of_nat (String.length (String c b))) /\
    rqj_contentHash j = Some (sha256_hexdigest (String c b)).
Proof.
  intros Hkind Hr Hraw. exists (request_to_json r).
  unfold flow_to_json. cbn [j_request]. rewrite Hkind, Hr.
  split; [reflexivity|].
  unfold request_to_json. rewrite Hraw, content_length_hash_nonempty.
  split; reflexivity.
Qed.

End Facts.

Lemma flow_to_json_empty_body_witness :
  rqj_contentLength
    (request_to_json (BI := Sample.builtins) (FA := Sample.api)
       (Sample.request (Some "")))
  = None /\
  ((forall r : Request,
       fl_request (state (Sample.flow "f1" (Some ""))) = Some r ->
       req_raw_content r = None \/ req_raw_content r = Some "" ->
       exists j : RequestJson,
         j_request (flow_to_json (BI := Sample.builtins) (FA := Sample.api)
                      (Sample.flow "f1" (Some ""))) = Some j /\
         rqj_contentLength j = None /\ rqj_contentHash j = None) /\
   (forall r : Response,
       fl_response (state (Sample.flow "f1" (Some ""))) = Some r ->
       resp_raw_content r = None \/ resp_raw_content r = Some "" ->
       exists j : ResponseJson,
         j_response (flow_to_json (BI := Sample.builtins) (FA := Sample.api)
                       (Sample.flow "f1" (Some ""))) = Some j /\
         rsj_contentLength j = None /\ rsj_contentHash j = None)).
Proof.
  split; [reflexivity|].
  apply (flow_to_json_empty_body (BI := Sample.builtins) (FA := Sample.api)
           (Sample.flow "f1" (Some ""))).
  reflexivity.
Defined.

End ProjectionFacts.

(** ** Listing the flows *)

Module ListingFacts.

Section Facts.
Context {BI : Builtins} {FA : FlowApi}.

Lemma clear_modes (v : View) (li : list ListItem) :
  ((v1 <- get_state ;;
    (if mock v1 then switchMock else ret tt) ;;
    v2 <- get_state ;;
    (if learning v2 then switchLearning else ret tt) ;;
    ret li) v)%py
  = (Ok li,
     {| objects := objects v; live := live v; scenarios := scenarios v;
        scenario := scenario v; mock := false; learning := false;
        matchers := matchers v; pending := pending v |}).
Proof.
  destruct v as [o l ss s m le ma p].
  destruct m, le; reflexivity.
Qed.

Lemma Flows_get_run (v : View) (li : list ListItem) :
  listing v = Ok li ->
  Flows_get v
  = (Ok li,
     {| objects := objects v; live := live v; scenarios := scenarios v;
        scenario := scenario v; mock := false; learning := false;
        matchers := matchers v; pending := pending v |}).
Proof.
  intros Hli. unfold Flows_get, bind at 1, get_state.
  unfold bind at 1, lift. rewrite Hli.
  apply clear_modes.
Qed.

(** C7: when the loops of [Flows.get] run through, the handler answers
    with the list built from the state before the call; in the state it
    leaves, the mock flag and the learning flag are both off, whatever
    they were, and nothing else has changed. *)
Theorem Flows_get_clears_modes (v : View) (li : list ListItem) :
  listing v = Ok li ->
  exists v' : View,
    Flows_get v = (Ok li, v') /\
    mock v' = false /\ learning v' = false /\
    objects v' = objects v /\ live v' = live v /\
    scenarios v' = scenarios v /\ scenario v' = scenario v /\
    matchers v' = matchers v /\ pending v' = pending v.
Proof.
  intros Hli. eexists. split.
  - now apply Flows_get_run.
  - cbn. repeat split.
Qed.

(** Conversely an answer of [Flows.get] is the list of the state before
    the call, and the flags are off after it. *)
Lemma Flows_get_answer (v v' : View) (li : list ListItem) :
  Flows_get v = (Ok li, v') ->
  listing v = Ok li /\ mock v' = false /\ learning v' = false.
Proof.
  intros Hrun. destruct (listing v) as [li0|e] eqn:Hli.
  - rewrite (Flows_get_run v li0 Hli) in Hrun.
    injection Hrun as <- <-. auto.
  - unfold Flows_get, bind at 1, get_state in Hrun.
    unfold bind at 1, lift in Hrun. rewrite Hli in Hrun. discriminate.
Qed.

(** When the loops raise, the flags keep their values. *)
Lemma Flows_get_raises (v : View) (e : exn) :
  listing v = Raise e -> Flows_get v = (Raise e, v).
Proof.
  intros Hli. unfold Flows_get, bind at 1, get_state.
  unfold bind at 1, lift. now rewrite Hli.
Qed.

End Facts.

(** The sample view has both modes on; its flow [f1] is listed with the
    scenario [B] and the rules of [B], followed by the current name. *)
Lemma Flows_get_clears_modes_witness :
  mock Sample.view = true /\ learning Sample.view = true /\
  exists v' : View,
    Flows_get (BI := Sample.builtins) (FA := Sample.api) Sample.view
    = (Ok [Entry (with_scenario "B"
                    (flow_to_json (BI := Sample.builtins)
                       (FA := Sample.api) (Sample.flow "f1" None)))
                 Sample.rules;
           Current "B"], v') /\
    mock v' = false /\ learning v' = false /\
    objects v' = objects Sample.view /\ live v' = live Sample.view /\
    scenarios v' = scenarios Sample.view /\
    scenario v' = scenario Sample.view /\
    matchers v' = matchers Sample.view /\
    pending v' = pending Sample.view.
Proof.
  split; [reflexivity|]. split; [reflexivity|].
  apply (Flows_get_clears_modes (BI := Sample.builtins) (FA := Sample.api)
           Sample.view).
  reflexivity.
Defined.

End ListingFacts.

(** ** Properties kept by the steps of a handler *)

Module Preservation.

Section Rules.
Context {S : Type} {P : S -> Prop}.

Lemma preserves_ret {A} (a : A) : preserves P (ret a).
Proof. intros s Hs. exact Hs. Qed.

Lemma preserves_raise {A} (e : exn) : preserves P (@raise S A e).
Proof. intros s Hs. exact Hs. Qed.

Lemma preserves_lift {A} (r : result A) : preserves P (lift r).
Proof. intros s Hs. exact Hs. Qed.

Lemma preserves_get_state : preserves P get_state.
Proof. intros s Hs. exact Hs. Qed.

Lemma preserves_getitem {V} (k : string) (d : dict V) :
  preserves P (getitem k d).
Proof. intros s Hs. unfold getitem. destruct (get k d); exact Hs. Qed.

Lemma preserves_modify (f : S -> S) :
  (forall s, P s -> P (f s)) -> preserves P (modify f).
Proof. intros Hf s Hs. now apply Hf. Qed.

Lemma preserves_bind {A B} (m : M S A) (k : A -> M S B) :
  preserves P m -> (forall a, preserves P (k a)) ->
  preserves P (bind m k).
Proof.
  intros Hm Hk s Hs. unfold bind.
  specialize (Hm s Hs). destruct (m s) as [[a|e] s1]; simpl in Hm.
  - now apply Hk.
  - exact Hm.
Qed.

Lemma preserves_if {A} (b : bool) (m1 m2 : M S A) :
  preserves P m1 -> preserves P m2 -> preserves P (if b then m1 else m2).
Proof. now destruct b. Qed.

Lemma preserves_for_each {A} (l : list A) (body : A -> M S unit) :
  (forall a, preserves P (body a)) -> preserves P (for_each l body).
Proof.
  intros Hbody. induction l as [|a l IH]; simpl.
  - apply preserves_ret.
  - apply preserves_bind; auto.
Qed.

(** A computation on one attribute keeps what writing that attribute
    keeps. *)
Lemma preserves_zoom {T A} (proj : S -> T) (inj : T -> S -> S)
    (m : M T A) :
  (forall t s, P s -> P (inj t s)) -> preserves P (zoom proj inj m).
Proof.
  intros Hinj s Hs. unfold zoom.
  destruct (m (proj s)) as [r t]. now apply Hinj.
Qed.

End Rules.

(** Running a sequence whose first step is known. *)
Lemma bind_ok {S A B} (m : M S A) (k : A -> M S B) (s s' : S) (a : A) :
  m s = (Ok a, s') -> bind m k s = k a s'.
Proof. intros E. unfold bind. now rewrite E. Qed.

Lemma bind_raise {S A B} (m : M S A) (k : A -> M S B) (s s' : S)
    (e : exn) :
  m s = (Raise e, s') -> bind m k s = (Raise e, s').
Proof. intros E. unfold bind. now rewrite E. Qed.

End Preservation.

(** ** Capture export and import *)

Module CaptureFacts.
Import PyDictFacts ScenarioFacts Preservation.

Lemma append_assoc (a b c : string) :
  ((a ++ b) ++ c = a ++ (b ++ c))%string.
Proof. induction a as [|x a IH]; simpl; [reflexivity | now rewrite IH]. Qed.

Lemma has_newline_app (a b : string) :
  has_newline (a ++ b) = has_newline a || has_newline b.
Proof.
  induction a as [|x a IH]; simpl; [reflexivity|].
  now rewrite IH, orb_assoc.
Qed.

Lemma has_newline_concat (l : list string) :
  (forall s, In s l -> has_newline s = false) ->
  has_newline (String.concat "" l) = false.
Proof.
  induction l as [|s l IH]; intros Hl; [reflexivity|].
  assert (Hs : has_newline s = false) by (apply Hl; now left).
  assert (Hr : has_newline (String.concat "" l) = false)
    by (apply IH; intros; apply Hl; now right).
  destruct l as [|s' l]; simpl; [exact Hs|].
  simpl in Hr. now rewrite has_newline_app, Hs, Hr.
Qed.

(** A first line without a newline of its own is read back whole. *)
Lemma readline_line (a b : string) :
  has_newline a = false ->
  readline (a ++ newline ++ b) = ((a ++ newline)%string, b).
Proof.
  induction a as [|x a IH]; intros Hn.
  - reflexivity.
  - simpl in Hn. apply orb_false_elim in Hn as [Hx Ha].
    cbn [append readline]. rewrite Hx, (IH Ha). reflexivity.
Qed.

Lemma unsafe_header_value_app (a b : string) :
  unsafe_header_value (a ++ b)
  = unsafe_header_value a || unsafe_header_value b.
Proof.
  unfold unsafe_header_value.
  induction a as [|x a IH]; cbn [append list_ascii_of_string existsb];
    [reflexivity|].
  now rewrite IH, orb_assoc.
Qed.

(** The value of the header [Content-Disposition] is refused exactly when
    the name of the scenario is. *)
Lemma unsafe_content_disposition (name : string) :
  unsafe_header_value ("attachment; filename=" ++ name ++ ".fl")
  = unsafe_header_value name.
Proof.
  rewrite !unsafe_header_value_app.
  change (unsafe_header_value "attachment; filename=") with false.
  change (unsafe_header_value ".fl") with false.
  now rewrite orb_false_r.
Qed.

Section Facts.
Context {FA : FlowApi} {CA : Capture}.

Lemma has_newline_header_entry (e : string * Rules.t) :
  has_newline (fst e) = false ->
  has_newline (str_rules (snd e)) = false ->
  has_newline (header_entry e) = false.
Proof.
  intros H1 H2. unfold header_entry.
  repeat rewrite has_newline_app. now rewrite H1, H2.
Qed.

(** The header that the export writes is the first line of what follows
    when no id and no rule set text holds a newline. *)
Lemma dump_header_line (rules : dict Rules.t) (records : string) :
  (forall e, In e rules ->
             has_newline (fst e) = false /\
             has_newline (str_rules (snd e)) = false) ->
  readline (dump_header rules ++ records) = (dump_header rules, records).
Proof.
  intros Hclean. unfold dump_header.
  set (entries := String.concat "" _).
  assert (Hentries : has_newline entries = false).
  { apply has_newline_concat. intros s Hs.
    apply in_map_iff in Hs as (e & <- & He).
    destruct (Hclean e He).
    now apply (has_newline_header_entry e). }
  replace (("{" ++ entries ++ "} " ++ newline) ++ records)%string
    with (("{" ++ entries ++ "} ") ++ newline ++ records)%string
    by (now rewrite !append_assoc).
  rewrite readline_line.
  - now rewrite !append_assoc.
  - simpl. rewrite has_newline_app, Hentries. reflexivity.
Qed.

Lemma DumpFlows_get_unsafe (v : View) :
  unsafe_header_value (scenario v) = true ->
  DumpFlows_get v = (Raise ValueError, v).
Proof.
  intros Hbad. unfold DumpFlows_get.
  rewrite (bind_ok _ _ v v v) by reflexivity.
  apply bind_raise. unfold lift, set_header.
  now rewrite unsafe_content_disposition, Hbad.
Qed.

Lemma DumpFlows_get_headers (v : View) :
  unsafe_header_value (scenario v) = false ->
  DumpFlows_get v
  = (sc <- getitem (scenario v) (scenarios v) ;;
     ret ([("Content-Disposition",
            ("attachment; filename=" ++ scenario v ++ ".fl")%string);
           ("Content-Type", "application/octet-stream")],
          (dump_header (scen_rules sc)
           ++ String.concat ""
                (map (fun f => encode_flow (objects v f))
                     (scen_flows sc)))%string))%py v.
Proof.
  intros Hsafe. unfold DumpFlows_get.
  rewrite (bind_ok _ _ v v v) by reflexivity.
  rewrite (bind_ok _ _ v v
             [("Content-Disposition",
               ("attachment; filename=" ++ scenario v ++ ".fl")%string)])
    by (unfold lift, set_header;
        now rewrite unsafe_content_disposition, Hsafe).
  rewrite (bind_ok _ _ v v
             [("Content-Disposition",
               ("attachment; filename=" ++ scenario v ++ ".fl")%string);
              ("Content-Type", "application/octet-stream")])
    by reflexivity.
  reflexivity.
Qed.

Lemma DumpFlows_get_run (v : View) (sc : Scen) :
  unsafe_header_value (scenario v) = false ->
  get (scenario v) (scenarios v) = Some sc ->
  DumpFlows_get v
  = (Ok ([("Content-Disposition",
           ("attachment; filename=" ++ scenario v ++ ".fl")%string);
          ("Content-Type", "application/octet-stream")],
         (dump_header (scen_rules sc)
          ++ String.concat ""
               (map (fun f => encode_flow (objects v f))
                    (scen_flows sc)))%string), v).
Proof.
  intros Hsafe Hsc. rewrite (DumpFlows_get_headers v Hsafe).
  now rewrite (bind_ok _ _ v v sc) by (now apply getitem_present).
Qed.

(** C2, amended: [DumpFlows.get] first sets the header
    [Content-Disposition] from the name of the current scenario, and a name
    with a control character ends the handler there with [ValueError]; with
    another name that is no key of the store the handler raises [KeyError].
    For a current scenario of the store it answers with the two headers and
    with a header line followed by the records.  The header line maps each
    flow id of the scenario's rule set mapping to the text of its rule set,
    in the order of that mapping; the records are the encodings of the
    flows of the scenario in the order of its flow list.  When no id and no
    rule set text holds a newline, the header line is the first line of the
    answer and the records are all that follows it. *)
Theorem DumpFlows_get_bytes (v : View) :
  (unsafe_header_value (scenario v) = true ->
   DumpFlows_get v = (Raise ValueError, v)) /\
  (unsafe_header_value (scenario v) = false ->
   get (scenario v) (scenarios v) = None ->
   DumpFlows_get v = (Raise KeyError, v)) /\
  (forall sc : Scen,
      unsafe_header_value (scenario v) = false ->
      get (scenario v) (scenarios v) = Some sc ->
      exists header records : string,
        DumpFlows_get v
        = (Ok ([("Content-Disposition",
                 ("attachment; filename=" ++ scenario v ++ ".fl")%string);
                ("Content-Type", "application/octet-stream")],
               (header ++ records)%string), v) /\
        header
        = ("{" ++ String.concat ""
                    (map (fun e : string * Rules.t =>
                            "'" ++ fst e ++ "'" ++ ": "
                                ++ str_rules (snd e) ++ ", ")
                         (scen_rules sc))
               ++ "} " ++ newline)%string /\
        records
        = String.concat ""
            (map (fun f => encode_flow (objects v f)) (scen_flows sc)) /\
        ((forall e, In e (scen_rules sc) ->
                    has_newline (fst e) = false /\
                    has_newline (str_rules (snd e)) = false) ->
         readline (header ++ records) = (header, records))).
Proof.
  split; [apply DumpFlows_get_unsafe|]. split.
  - intros Hsafe Hnone. rewrite (DumpFlows_get_headers v Hsafe).
    apply bind_raise. unfold getitem. now rewrite Hnone.
  - intros sc Hsafe Hsc. do 2 eexists.
    split; [apply (DumpFlows_get_run v sc Hsafe Hsc)|].
    split; [reflexivity|]. split; [reflexivity|].
    apply dump_header_line.
Qed.

(** *** Import *)

Lemma ensure_learning_run (v : View) :
  ensure_learning v = (Ok tt, set_learning true v).
Proof. destruct v as [o l ss s m le ma p]. destruct le; reflexivity. Qed.

(** What the second and third statement of [DumpFlows.post] do. *)
Lemma reset_current_cases (v : View) :
  reset_current v
  = if negb (String.eqb (scenario v) "")
    then match get (scenario v) (scenarios v) with
         | Some sc =>
             (Ok tt,
              set_scenarios
                (set (scenario v) {| scen_flows := []; scen_rules := [] |}
                     (scenarios v))
                (set_live
                   (filter (fun r => negb (PyList.mem r (scen_flows sc)))
                           (live v)) v))
         | None => (Raise KeyError, v)
         end
    else (Ok tt,
          set_scenarios
            (set (scenario v) {| scen_flows := []; scen_rules := [] |}
                 (scenarios v)) v).
Proof.
  unfold reset_current, bind at 1, get_state.
  destruct (String.eqb (scenario v) ""); cbn [negb].
  - reflexivity.
  - unfold bind at 1. unfold bind at 1. unfold getitem.
    destruct (get (scenario v) (scenarios v)) as [sc|]; reflexivity.
Qed.

Lemma reset_current_run (v : View) :
  current_ok v ->
  exists l : list string,
    incl l (live v) /\
    reset_current v =
      (Ok tt,
       set_scenarios
         (set (scenario v) {| scen_flows := []; scen_rules := [] |}
              (scenarios v))
         (set_live l v)).
Proof.
  intros Hok. rewrite reset_current_cases.
  destruct (String.eqb_spec (scenario v) "") as [Hempty|Hne]; cbn [negb].
  - exists (live v). split; [apply incl_refl|].
    destruct v as [o l ss s m le ma p]. reflexivity.
  - destruct Hok as [Hempty|Hin]; [contradiction|].
    destruct (In_get_Some _ _ Hin) as [sc Hsc]. rewrite Hsc.
    exists (filter (fun r => negb (PyList.mem r (scen_flows sc))) (live v)).
    split; [apply incl_filter | reflexivity].
Qed.

Lemma reset_current_missing (v : View) :
  scenario v <> "" ->
  get (scenario v) (scenarios v) = None ->
  reset_current v = (Raise KeyError, v).
Proof.
  intros Hne Hnone. rewrite reset_current_cases, Hnone.
  destruct (String.eqb_spec (scenario v) ""); [contradiction | reflexivity].
Qed.

(** The reset adds no flow to the view and leaves the matchers and the
    calls of the event loop alone. *)
Lemma reset_current_frame (v w : View) :
  reset_current v = (Ok tt, w) ->
  incl (live w) (live v) /\ matchers w = matchers v /\
  pending w = pending v.
Proof.
  rewrite reset_current_cases.
  destruct (negb (String.eqb (scenario v) "")).
  - destruct (get (scenario v) (scenarios v)) as [sc|]; [|discriminate].
    intros [= <-]. cbn [live matchers pending set_scenarios set_live].
    split; [apply incl_filter | split; reflexivity].
  - intros [= <-]. cbn [live matchers pending set_scenarios].
    split; [apply incl_refl | split; reflexivity].
Qed.

Lemma DumpFlows_post_run (req : HTTPRequest) (v w : View) :
  reset_current (set_learning true v) = (Ok tt, w) ->
  DumpFlows_post req v = read_capture (filecontents req) w.
Proof.
  intros Hreset. unfold DumpFlows_post.
  rewrite (bind_ok _ _ v (set_learning true v) tt)
    by apply ensure_learning_run.
  now rewrite (bind_ok _ _ _ w tt Hreset).
Qed.

(** The exception of [eval] is the exception of the import. *)
Lemma read_capture_eval_raises (contents : string) (w w' : View) (e : exn) :
  py_eval (fst (readline contents)) w = (Raise e, w') ->
  read_capture contents w = (Raise e, w').
Proof.
  intros Heval. unfold read_capture.
  destruct (readline contents) as [line rest]. cbn [fst] in Heval.
  now apply bind_raise.
Qed.

(** So is the exception of [.items()] on a value that is no mapping. *)
Lemma read_capture_not_mapping (contents : string) (w w' : View)
    (x : pyval) (e : exn) :
  py_eval (fst (readline contents)) w = (Ok x, w') ->
  items x = Raise e ->
  read_capture contents w = (Raise e, w').
Proof.
  intros Heval Hitems. unfold read_capture.
  destruct (readline contents) as [line rest]. cbn [fst] in Heval.
  rewrite (bind_ok _ _ w w' x Heval).
  apply bind_raise. unfold lift. now rewrite Hitems.
Qed.

(** C1, amended: nothing in [DumpFlows.post] catches what the header line
    raises.  When the current name is not empty and no key of the store,
    the handler raises [KeyError] before it reads the upload, with the
    learning flag on.  Otherwise the current scenario is reset, which adds
    no flow to the view and leaves the matchers and the pending calls as
    they were, and the first line is run by [eval]: when [eval] raises, or
    gives a value on which [.items()] raises, the handler raises that
    exception, and the state is the one that the evaluation of the line
    left: the handler has registered no matcher and has not reached the
    loop over the flow records. *)
Theorem DumpFlows_post_malformed_header (v : View) (req : HTTPRequest) :
  (scenario v <> "" ->
   get (scenario v) (scenarios v) = None ->
   DumpFlows_post req v = (Raise KeyError, set_learning true v)) /\
  (forall w : View,
      reset_current (set_learning true v) = (Ok tt, w) ->
      incl (live w) (live v) /\ matchers w = matchers v /\
      pending w = pending v /\
      (forall (e : exn) (w' : View),
          py_eval (fst (readline (filecontents req))) w = (Raise e, w') ->
          DumpFlows_post req v = (Raise e, w')) /\
      (forall (x : pyval) (e : exn) (w' : View),
          py_eval (fst (readline (filecontents req))) w = (Ok x, w') ->
          items x = Raise e ->
          DumpFlows_post req v = (Raise e, w'))).
Proof.
  split.
  - intros Hne Hnone. unfold DumpFlows_post.
    rewrite (bind_ok _ _ v (set_learning true v) tt)
      by apply ensure_learning_run.
    apply bind_raise. now apply reset_current_missing.
  - intros w Hreset.
    destruct (reset_current_frame _ _ Hreset) as (Hlive & Hm & Hp).
    split; [exact Hlive|]. split; [exact Hm|]. split; [exact Hp|].
    split.
    + intros e w' Heval. rewrite (DumpFlows_post_run req v w Hreset).
      now apply read_capture_eval_raises.
    + intros x e w' Heval Hitems.
      rewrite (DumpFlows_post_run req v w Hreset).
      now apply (read_capture_not_mapping _ w w' x e).
Qed.

(** Reading the upload keeps what the evaluation of the header line and
    the registration of matchers keep. *)
Lemma read_capture_preserves (P : View -> Prop) (contents : string) :
  preserves P (py_eval (fst (readline contents))) ->
  (forall v m, P v -> P (set_matchers m v)) ->
  preserves P (read_capture contents).
Proof.
  intros Heval Hmatch. unfold read_capture.
  destruct (readline contents) as [line rest]. cbn [fst] in Heval.
  apply preserves_bind; [exact Heval|]. intros x.
  apply preserves_bind; [apply preserves_lift|]. intros ms.
  apply preserves_bind.
  { apply preserves_for_each. intros [id matcher].
    unfold newMatcher. apply preserves_bind;
      [apply preserves_get_state|].
    intros v0. apply preserves_modify. auto. }
  intros _. destruct (read_flows rest) as [fs broken].
  apply preserves_bind.
  { apply preserves_for_each. intros i. apply preserves_raise. }
  intros _. destruct broken; [apply preserves_raise | apply preserves_ret].
Qed.

Lemma reset_current_learning (b : bool) :
  preserves (fun v => learning v = b) reset_current.
Proof.
  unfold reset_current.
  apply preserves_bind; [apply preserves_get_state|]. intros v0.
  apply preserves_bind.
  { apply preserves_if; [|apply preserves_ret].
    apply preserves_bind; [apply preserves_getitem|]. intros sc.
    unfold remove.
    apply preserves_bind; [apply preserves_get_state|]. intros v1.
    apply preserves_modify. auto. }
  intros _. apply preserves_bind; [apply preserves_get_state|].
  intros v1. apply preserves_modify. auto.
Qed.

(** C9, amended: the first statement of [DumpFlows.post] runs before the
    upload is looked at and leaves the learning flag on; the rest of the
    handler starts from that state.  No later statement of the handler
    writes the flag, so the flag is on however the import ends, with or
    without an exception, when the header line, which [eval] runs, does
    not switch it off. *)
Theorem DumpFlows_post_learning (v : View) (req : HTTPRequest) :
  exists v1 : View,
    ensure_learning v = (Ok tt, v1) /\
    learning v1 = true /\
    DumpFlows_post req v
    = (reset_current ;; read_capture (filecontents req))%py v1 /\
    (preserves (fun s => learning s = true)
               (py_eval (fst (readline (filecontents req)))) ->
     learning (snd (DumpFlows_post req v)) = true).
Proof.
  exists (set_learning true v).
  split; [apply ensure_learning_run|].
  split; [reflexivity|].
  assert (Hrun : DumpFlows_post req v
                 = (reset_current ;; read_capture (filecontents req))%py
                     (set_learning true v)).
  { unfold DumpFlows_post, bind at 1. now rewrite ensure_learning_run. }
  split; [exact Hrun|].
  intros Heval. rewrite Hrun.
  apply (preserves_bind (P := fun v => learning v = true)).
  - apply reset_current_learning.
  - intros _. apply read_capture_preserves; auto.
  - reflexivity.
Qed.

(** The import keeps the invariant of the store when the evaluation of
    the header line does. *)
Lemma DumpFlows_post_current_ok (v : View) (req : HTTPRequest) :
  preserves current_ok (py_eval (fst (readline (filecontents req)))) ->
  current_ok v -> current_ok (snd (DumpFlows_post req v)).
Proof.
  intros Heval Hok.
  assert (Hok1 : current_ok (set_learning true v)) by exact Hok.
  destruct (reset_current_run _ Hok1) as (l & _ & Hreset).
  rewrite (DumpFlows_post_run req v _ Hreset).
  apply read_capture_preserves; auto.
  right. cbn [scenario scenarios set_scenarios set_live set_learning].
  apply keys_set_In. now left.
Qed.

End Facts.

(** The export of the sample, and the export after [Scenario.post] has
    made a name with a newline the current scenario. *)
Lemma DumpFlows_get_bytes_witness :
  DumpFlows_get (FA := Sample.api) (CA := Sample.capture) Sample.view
  = (Ok ([("Content-Disposition", "attachment; filename=B.fl");
          ("Content-Type", "application/octet-stream")],
         ("{'f1': {Match}, } " ++ newline ++ "<f1>")%string), Sample.view) /\
  (exists v1 : View,
      Scenario_post ("a" ++ newline ++ "b")%string Sample.view
      = (Ok tt, v1) /\
      DumpFlows_get (FA := Sample.api) (CA := Sample.capture) v1
      = (Raise ValueError, v1)) /\
  exists header records : string,
    DumpFlows_get (FA := Sample.api) (CA := Sample.capture) Sample.view
    = (Ok ([("Content-Disposition",
             ("attachment; filename=" ++ scenario Sample.view ++ ".fl")%string);
            ("Content-Type", "application/octet-stream")],
           (header ++ records)%string), Sample.view) /\
    header
    = ("{" ++ String.concat ""
                (map (fun e : string * Rules.t =>
                        "'" ++ fst e ++ "'" ++ ": "
                            ++ str_rules (Capture := Sample.capture) (snd e)
                            ++ ", ")
                     (scen_rules Sample.scen))
           ++ "} " ++ newline)%string /\
    records
    = String.concat ""
        (map (fun f => encode_flow (FlowApi := Sample.api)
                         (objects Sample.view f))
             (scen_flows Sample.scen)) /\
    ((forall e, In e (scen_rules Sample.scen) ->
                has_newline (fst e) = false /\
                has_newline (str_rules (Capture := Sample.capture) (snd e))
                = false) ->
     readline (header ++ records) = (header, records)).
Proof.
  split; [reflexivity|]. split.
  - eexists. split; [reflexivity|].
    apply (proj1 (DumpFlows_get_bytes (FA := Sample.api)
                    (CA := Sample.capture) _)).
    reflexivity.
  - apply (proj2 (proj2 (DumpFlows_get_bytes (FA := Sample.api)
                           (CA := Sample.capture) Sample.view))
             Sample.scen);
      reflexivity.
Defined.

(** C2 as stated fails: in the sample the matcher registered for the flow
    [f1] of the current scenario is [~u example], so the header of the
    claim is the mapping of [f1] to that matcher; the header that
    [DumpFlows.get] writes maps [f1] to the text of its rule set. *)
Lemma DumpFlows_get_header_counterexample :
  get "f1" (matchers Sample.view) = Some (PStr "~u example") /\
  get "f1" (scen_rules Sample.scen) = Some Sample.rules /\
  matcher_header Sample.render Sample.view Sample.scen
  = ("{'f1': ~u example, } " ++ newline)%string /\
  exists (headers : dict string) (out : string),
    DumpFlows_get (FA := Sample.api) (CA := Sample.capture) Sample.view
    = (Ok (headers, out), Sample.view) /\
    fst (readline out) = ("{'f1': {Match}, } " ++ newline)%string /\
    fst (readline out)
    <> matcher_header Sample.render Sample.view Sample.scen.
Proof.
  split; [reflexivity|]. split; [reflexivity|]. split; [reflexivity|].
  do 2 eexists. split; [reflexivity|]. split; [reflexivity|].
  vm_compute. discriminate.
Qed.

(** C1 as stated fails: the upload [not a mapping] is no expression, and
    the exception of the import is the [SyntaxError] of [eval]; the upload
    [7] is an expression but no mapping, and the exception is the
    [AttributeError] of [.items()].  Neither is caught and turned into an
    error of the import. *)
Lemma DumpFlows_post_malformed_header_counterexample :
  current_ok Sample.view /\
  fst (DumpFlows_post (FA := Sample.api) (CA := Sample.capture)
         (Sample.upload "not a mapping") Sample.view)
  = Raise SyntaxError /\
  fst (DumpFlows_post (FA := Sample.api) (CA := Sample.capture)
         (Sample.upload "7") Sample.view)
  = Raise AttributeError /\
  fst (DumpFlows_post (FA := Sample.api) (CA := Sample.capture)
         (Sample.upload "not a mapping") Sample.view)
  <> Raise InvalidCaptureFormatError.
Proof.
  split; [right; simpl; auto|].
  split; [reflexivity|]. split; [reflexivity|].
  vm_compute. discriminate.
Qed.

(** The two uploads into the sample, and an upload into a store whose
    current name is no key. *)
Lemma DumpFlows_post_malformed_header_witness :
  (exists w' : View,
      DumpFlows_post (FA := Sample.api) (CA := Sample.capture)
        (Sample.upload "not a mapping") Sample.view
      = (Raise SyntaxError, w') /\
      live w' = [] /\ matchers w' = matchers Sample.view) /\
  (exists w' : View,
      DumpFlows_post (FA := Sample.api) (CA := Sample.capture)
        (Sample.upload "7") Sample.view
      = (Raise AttributeError, w')) /\
  DumpFlows_post (FA := Sample.api) (CA := Sample.capture)
    (Sample.upload "7") (set_scenario "Z" Sample.single)
  = (Raise KeyError, set_learning true (set_scenario "Z" Sample.single)).
Proof.
  destruct (DumpFlows_post_malformed_header (FA := Sample.api)
              (CA := Sample.capture) Sample.view
              (Sample.upload "not a mapping")) as [_ Hbad].
  destruct (DumpFlows_post_malformed_header (FA := Sample.api)
              (CA := Sample.capture) Sample.view
              (Sample.upload "7")) as [_ Hint].
  destruct (DumpFlows_post_malformed_header (FA := Sample.api)
              (CA := Sample.capture) (set_scenario "Z" Sample.single)
              (Sample.upload "7")) as [Hkey _].
  split; [|split].
  - destruct (Hbad _ eq_refl) as (_ & _ & _ & Hraise & _).
    eexists. split; [exact (Hraise SyntaxError _ eq_refl)|].
    split; reflexivity.
  - destruct (Hint _ eq_refl) as (_ & _ & _ & _ & Hitems).
    eexists. exact (Hitems (PInt 7) AttributeError _ eq_refl eq_refl).
  - apply Hkey; [discriminate | reflexivity].
Defined.

(** C9 as stated fails: the header line below is an expression that calls
    [switchLearning] and evaluates to the empty mapping.  The import of it
    into a store with the learning flag off succeeds and leaves the flag
    off. *)
Lemma DumpFlows_post_learning_counterexample :
  learning Sample.single = false /\
  exists v' : View,
    DumpFlows_post (FA := Sample.api) (CA := Sample.capture)
      (Sample.upload "self.master.view.switchLearning() or {}")
      Sample.single
    = (Ok tt, v') /\
    learning v' = false.
Proof.
  split; [reflexivity|]. eexists. split; reflexivity.
Qed.

(** An upload whose header is the empty mapping. *)
Lemma DumpFlows_post_learning_witness :
  learning Sample.single = false /\
  learning (snd (DumpFlows_post (FA := Sample.api) (CA := Sample.capture)
                   (Sample.upload ("{} " ++ newline)%string) Sample.single))
  = true.
Proof.
  split; [reflexivity|].
  destruct (DumpFlows_post_learning (FA := Sample.api)
              (CA := Sample.capture) Sample.single
              (Sample.upload ("{} " ++ newline)%string))
    as (v1 & _ & _ & _ & Hflag).
  apply Hflag. intros s Hs. exact Hs.
Defined.

(** An upload with the empty mapping as its header is accepted when no
    flow record follows; with a record, the first decoded flow ends the
    import with [AttributeError]. *)
Example DumpFlows_post_first_flow :
  fst (DumpFlows_post (FA := Sample.api) (CA := Sample.capture)
         (Sample.upload ("{} " ++ newline)%string) Sample.single)
  = Ok tt /\
  exists v' : View,
    DumpFlows_post (FA := Sample.api) (CA := Sample.capture)
      (Sample.upload ("{} " ++ newline ++ "f9")%string) Sample.single
    = (Raise AttributeError, v') /\
    pending v' = [] /\
    learning v' = true /\
    get "A" (scenarios v') = Some Sample.empty_scen.
Proof. split; [reflexivity|]. eexists. repeat split. Qed.

End CaptureFacts.

(** ** Updating a flow *)

Module FlowUpdateFacts.
Export Preservation.

Section Facts.
Context {BI : Builtins} {FA : FlowApi}.

(** The loops of [FlowHandler.put] never touch the snapshot. *)
Lemma update_section_saved (b : option FlowState) (a : string)
    (x : pyval) :
  preserves (fun f => saved f = b) (update_section a x).
Proof.
  unfold update_section.
  apply preserves_bind; [apply preserves_get_state|]. intros flow.
  repeat apply preserves_if; try apply preserves_raise;
    (apply preserves_bind; [apply preserves_lift|]; intros fields;
     apply preserves_for_each; intros [k v];
     apply preserves_zoom; intros t s Hs; exact Hs).
Qed.

(** [set_state] writes every attribute of the state; the attribute [msg]
    of the response object is not one of them. *)
Lemma forget_msg_restore (b s : FlowState) :
  forget_msg (restore b s) = forget_msg b.
Proof. destruct b as [? ? ? ? ? ? ? ? ? [rb|]]; reflexivity. Qed.

(** When the handler raises [APIError] on a flow without a snapshot, the
    flow has no snapshot and the state it had before the request, up to
    the attribute [msg] of the response object. *)
Lemma put_flow_APIError_restores (req : HTTPRequest) (flow f' : Flow)
    (status : Z) (msg : string) :
  saved flow = None ->
  put_flow req flow = (Raise (APIError status msg), f') ->
  saved f' = None /\ forget_msg (state f') = forget_msg (state flow).
Proof.
  intros Hsaved Hrun.
  unfold put_flow, bind at 1, modify, except_APIError in Hrun.
  set (body := bind (lift (json req)) _) in Hrun.
  assert (Hkeep : preserves (fun f => saved f = Some (state flow)) body).
  { unfold body.
    apply preserves_bind; [apply preserves_lift|]. intros j.
    apply preserves_bind; [apply preserves_lift|]. intros sections.
    apply preserves_for_each. intros [a x]. apply update_section_saved. }
  specialize (Hkeep (backup flow)).
  assert (Hb : saved (backup flow) = Some (state flow))
    by (unfold backup; now rewrite Hsaved).
  specialize (Hkeep Hb).
  destruct (body (backup flow)) as [[[]|e] f2]; [discriminate|].
  simpl in Hkeep.
  destruct e; try discriminate.
  injection Hrun as _ _ <-.
  unfold revert. rewrite Hkeep. cbn [saved state].
  split; [reflexivity | apply forget_msg_restore].
Qed.

Lemma update_request_method (v : string) (r : Request) :
  update_request "method" (PStr v) (Some r)
  = (Ok tt, Some (request_setattr "method" v r)).
Proof. reflexivity. Qed.

Lemma update_request_port_raises (port : pyval) (e : exn) (r : Request) :
  int port = Raise e ->
  update_request "port" port (Some r) = (Raise e, Some r).
Proof.
  intros Hint. unfold update_request. cbn [existsb String.eqb Ascii.eqb
    Bool.eqb orb andb]. apply bind_raise. unfold lift. now rewrite Hint.
Qed.

(** An update that sets the method and then gives a port that [int]
    rejects: the exception is not an [APIError], nothing reverts the
    flow, and the method stays changed. *)
Lemma put_flow_invalid_port (req : HTTPRequest) (flow : Flow)
    (r : Request) (port : pyval) (e : exn) :
  fl_kind (state flow) = HTTPFlow ->
  fl_request (state flow) = Some r ->
  content_type req = Some "application/json" ->
  json_loads (body req)
  = Some (PDict [("request",
                  PDict [("method", PStr "POST"); ("port", port)])]) ->
  int port = Raise e ->
  (forall status msg, e <> APIError status msg) ->
  put_flow req flow
  = (Raise e,
     with_request (Some (request_setattr "method" "POST" r))
                  (backup flow)).
Proof.
  intros Hkind Hreq Hct Hjson Hint Hexn.
  assert (Hkind' : fl_kind (state (backup flow)) = HTTPFlow)
    by (unfold backup; destruct (saved flow); exact Hkind).
  assert (Hreq' : fl_request (state (backup flow)) = Some r)
    by (unfold backup; destruct (saved flow); exact Hreq).
  assert (Hj : json req
               = Ok (PDict [("request",
                             PDict [("method", PStr "POST");
                                    ("port", port)])])).
  { unfold json. rewrite Hct, Hjson. reflexivity. }
  set (f1 := with_request (Some (request_setattr "method" "POST" r))
                          (backup flow)).
  assert (Hsec : update_section "request"
                   (PDict [("method", PStr "POST"); ("port", port)])
                   (backup flow)
                 = (Raise e, f1)).
  { unfold update_section. rewrite (bind_ok _ _ _ _ (backup flow))
      by reflexivity.
    unfold hasattr_request. rewrite Hkind'.
    cbn [String.eqb Ascii.eqb Bool.eqb andb].
    rewrite (bind_ok _ _ _ _
               [("method", PStr "POST"); ("port", port)])
      by reflexivity.
    cbn [for_each].
    rewrite (bind_ok _ _ _ f1 tt).
    - apply bind_raise. unfold zoom.
      cbn [f1 with_request state fl_request].
      rewrite (update_request_port_raises port e) by exact Hint.
      unfold f1, with_request. reflexivity.
    - unfold zoom. rewrite Hreq', update_request_method. reflexivity. }
  unfold put_flow. rewrite (bind_ok _ _ _ (backup flow) tt) by reflexivity.
  unfold except_APIError.
  rewrite (bind_ok (lift (json req)) _ (backup flow) (backup flow)
             (PDict [("request",
                      PDict [("method", PStr "POST"); ("port", port)])]))
    by (unfold lift; now rewrite Hj).
  rewrite (bind_ok _ _ _ (backup flow)
             [("request",
               PDict [("method", PStr "POST"); ("port", port)])])
    by reflexivity.
  cbn [for_each]. rewrite (bind_raise _ _ _ _ _ Hsec).
  destruct e; try reflexivity.
  exfalso. eapply Hexn. reflexivity.
Qed.

End Facts.

(** C8 fails on the code: the flow [f1] of the sample has the method [GET]
    and no snapshot; the update [{"request": {"method": "POST", "port":
    null}}] makes [int] raise [TypeError], which [FlowHandler.put] does
    not catch, and the flow keeps the method [POST]. *)
Theorem FlowHandler_put_invalid_port_keeps_mutation :
  exists v' : View,
    FlowHandler_put (BI := Sample.builtins) (FA := Sample.api)
      "f1" Sample.update Sample.view
    = (Raise TypeError, v') /\
    option_map req_method (fl_request (state (objects Sample.view "f1")))
    = Some "GET" /\
    option_map req_method (fl_request (state (objects v' "f1")))
    = Some "POST" /\
    state (objects v' "f1") <> state (objects Sample.view "f1").
Proof.
  eexists. split; [reflexivity|].
  split; [reflexivity|]. split; [reflexivity|].
  intros Heq. apply (f_equal (fun s => option_map req_method (fl_request s)))
    in Heq.
  vm_compute in Heq. discriminate.
Qed.

(** An unknown field raises [APIError] and the flow is reverted. *)
Example FlowHandler_put_unknown_field :
  put_flow (BI := {| sha256_hexdigest := fun b => b;
                     decode_backslashreplace := fun b => b;
                     parse_int := fun _ => None;
                     repr_container := fun _ => "{...}";
                     json_loads := fun _ =>
                       Some (PDict [("request",
                                     PDict [("method", PStr "POST");
                                            ("colour", PStr "red")])]) |})
           (FA := Sample.api) Sample.update (Sample.flow "f1" None)
  = (Raise (APIError 400 "Unknown update request.colour: red"),
     Sample.flow "f1" None).
Proof. reflexivity. Qed.

End FlowUpdateFacts.

(** * Further properties *)

(** ** The flow projection *)

Module ProjectionMore.
Import PyDictFacts.

Section Facts.
Context {BI : Builtins} {FA : FlowApi}.

Lemma content_length_hash_cases (raw : option string) :
  (fst (content_length_hash raw) = None <-> raw = None \/ raw = Some "") /\
  (snd (content_length_hash raw) = None <->
   fst (content_length_hash raw) = None) /\
  (forall b : string,
      raw = Some b -> b <> "" ->
      content_length_hash raw
      = (Some (Z.of_nat (String.length b)), Some (sha256_hexdigest b)) /\
      (0 < Z.of_nat (String.length b))%Z).
Proof.
  destruct raw as [[|c0 b0]|]; cbn [content_length_hash fst snd].
  - split; [tauto|]. split; [tauto|].
    intros b [= <-] Hb. contradiction.
  - split; [split; [discriminate | intros [H|H]; discriminate]|].
    split; [split; discriminate|].
    intros b [= <-] _. split; [reflexivity|].
    change (String.length (String c0 b0)) with (S (String.length b0)). lia.
  - split; [tauto|]. split; [tauto|]. intros b H. discriminate.
Qed.

(** The projected request: length and hash are [None] exactly for an absent
    or empty body. *)
Lemma request_to_json_content (r : Request) :
  (rqj_contentLength (request_to_json r) = None <->
   req_raw_content r = None \/ req_raw_content r = Some "") /\
  (rqj_contentHash (request_to_json r) = None <->
   rqj_contentLength (request_to_json r) = None) /\
  (forall b : string,
      req_raw_content r = Some b -> b <> "" ->
      rqj_contentLength (request_to_json r)
      = Some (Z.of_nat (String.length b)) /\
      (0 < Z.of_nat (String.length b))%Z /\
      rqj_contentHash (request_to_json r) = Some (sha256_hexdigest b)).
Proof.
  destruct (content_length_hash_cases (req_raw_content r)) as (H1 & H2 & H3).
  unfold request_to_json.
  destruct (content_length_hash (req_raw_content r)) as [len hash] eqn:E.
  cbn [rqj_contentLength rqj_contentHash fst snd] in *.
  split; [exact H1|]. split; [exact H2|].
  intros b Hb Hne. destruct (H3 b Hb Hne) as [Heq Hpos].
  injection Heq as -> ->. auto.
Qed.

(** The same for the projected response. *)
Lemma response_to_json_content (r : Response) :
  (rsj_contentLength (response_to_json r) = None <->
   resp_raw_content r = None \/ resp_raw_content r = Some "") /\
  (rsj_contentHash (response_to_json r) = None <->
   rsj_contentLength (response_to_json r) = None) /\
  (forall b : string,
      resp_raw_content r = Some b -> b <> "" ->
      rsj_contentLength (response_to_json r)
      = Some (Z.of_nat (String.length b)) /\
      (0 < Z.of_nat (String.length b))%Z /\
      rsj_contentHash (response_to_json r) = Some (sha256_hexdigest b)).
Proof.
  destruct (content_length_hash_cases (resp_raw_content r)) as (H1 & H2 & H3).
  unfold response_to_json.
  destruct (content_length_hash (resp_raw_content r)) as [len hash] eqn:E.
  cbn [rsj_contentLength rsj_contentHash fst snd] in *.
  split; [exact H1|]. split; [exact H2|].
  intros b Hb Hne. destruct (H3 b Hb Hne) as [Heq Hpos].
  injection Heq as -> ->. auto.
Qed.

(** In the projection of a request and of a response, [contentLength] is
    [None] exactly for an absent or empty body, [contentHash] is [None]
    exactly when [contentLength] is, and a body with bytes gives its
    positive length and the digest of its bytes. *)
Theorem message_content_projection (rq : Request) (rs : Response) :
  ((rqj_contentLength (request_to_json rq) = None <->
    req_raw_content rq = None \/ req_raw_content rq = Some "") /\
   (rqj_contentHash (request_to_json rq) = None <->
    rqj_contentLength (request_to_json rq) = None) /\
   (forall b : string,
       req_raw_content rq = Some b -> b <> "" ->
       rqj_contentLength (request_to_json rq)
       = Some (Z.of_nat (String.length b)) /\
       (0 < Z.of_nat (String.length b))%Z /\
       rqj_contentHash (request_to_json rq) = Some (sha256_hexdigest b))) /\
  ((rsj_contentLength (response_to_json rs) = None <->
    resp_raw_content rs = None \/ resp_raw_content rs = Some "") /\
   (rsj_contentHash (response_to_json rs) = None <->
    rsj_contentLength (response_to_json rs) = None) /\
   (forall b : string,
       resp_raw_content rs = Some b -> b <> "" ->
       rsj_contentLength (response_to_json rs)
       = Some (Z.of_nat (String.length b)) /\
       (0 < Z.of_nat (String.length b))%Z /\
       rsj_contentHash (response_to_json rs) = Some (sha256_hexdigest b))).
Proof.
  split; [apply request_to_json_content | apply response_to_json_content].
Qed.

(** The projection drops the certificate of the server connection and the
    TLS extensions and the certificate of the client connection, and keeps
    every other entry of the two connection states with its value. *)
Theorem flow_to_json_strips_secrets (flow : Flow) :
  wf (conn_attrs (fl_client_conn (state flow))) ->
  wf (conn_attrs (fl_server_conn (state flow))) ->
  get "tls_extensions" (cj_attrs (j_client_conn (flow_to_json flow))) = None /\
  get "mitmcert" (cj_attrs (j_client_conn (flow_to_json flow))) = None /\
  get "cert" (cj_attrs (j_server_conn (flow_to_json flow))) = None /\
  (forall k : string,
      k <> "tls_extensions" -> k <> "mitmcert" ->
      get k (cj_attrs (j_client_conn (flow_to_json flow)))
      = get k (conn_attrs (fl_client_conn (state flow)))) /\
  (forall k : string,
      k <> "cert" ->
      get k (cj_attrs (j_server_conn (flow_to_json flow)))
      = get k (conn_attrs (fl_server_conn (state flow)))).
Proof.
  intros Hc Hs.
  unfold flow_to_json, conn_to_json.
  cbn [j_client_conn j_server_conn cj_attrs fold_left].
  split; [|split; [|split; [|split]]].
  - rewrite get_del_other by discriminate. now apply get_del_same.
  - apply get_del_same. now apply wf_del.
  - now apply get_del_same.
  - intros k H1 H2. now rewrite !get_del_other by assumption.
  - intros k H1. now rewrite get_del_other by assumption.
Qed.

End Facts.

Lemma flow_to_json_strips_secrets_witness :
  keys (cj_attrs (j_client_conn
                    (flow_to_json (BI := Sample.builtins) (FA := Sample.api)
                       (Sample.flow "f1" None))))
  = ["address"; "cert"] /\
  keys (cj_attrs (j_server_conn
                    (flow_to_json (BI := Sample.builtins) (FA := Sample.api)
                       (Sample.flow "f1" None))))
  = ["address"; "tls_extensions"; "mitmcert"] /\
  get "tls_extensions"
    (cj_attrs (j_client_conn
                 (flow_to_json (BI := Sample.builtins) (FA := Sample.api)
                    (Sample.flow "f1" None)))) = None.
Proof.
  split; [reflexivity|]. split; [reflexivity|].
  apply (flow_to_json_strips_secrets (BI := Sample.builtins)
           (FA := Sample.api) (Sample.flow "f1" None)).
  - unfold wf. simpl. repeat constructor; simpl; intuition discriminate.
  - unfold wf. simpl. repeat constructor; simpl; intuition discriminate.
Defined.

End ProjectionMore.

(** ** Listing the flows *)

Module ListingMore.
Import PyDictFacts ListingFacts.

Lemma wf_In_get {V} (d : dict V) (k : string) (x : V) :
  wf d -> In (k, x) d -> get k d = Some x.
Proof.
  unfold wf. induction d as [|[k0 x0] d IH]; simpl; [tauto|].
  intros Hnd [Heq|Hin].
  - injection Heq as -> ->. now rewrite String.eqb_refl.
  - inversion Hnd as [|? ? Hnotin Hnd']; subst.
    destruct (String.eqb_spec k k0) as [->|Hne]; [|auto].
    exfalso. apply Hnotin. change k0 with (fst (k0, x)). now apply in_map.
Qed.

(** The last scenario, in the order of the keys, whose flow list holds the
    flow. *)
Lemma tag_scenario_last (f : string) (d : dict Scen) (dic : FlowJson) :
  tag_scenario f d dic
  = match find (fun e => PyList.mem f (scen_flows (snd e))) (rev d) with
    | Some e => with_scenario (fst e) dic
    | None => dic
    end.
Proof.
  induction d as [|[name sc] d IH] using rev_ind; [reflexivity|].
  unfold tag_scenario in *. rewrite fold_left_app, rev_app_distr. simpl.
  destruct (PyList.mem f (scen_flows sc)); [|exact IH].
  rewrite IH. now destruct (find _ (rev d)).
Qed.

Section Facts.
Context {BI : Builtins} {FA : FlowApi}.

Lemma list_flow_raises (v : View) (f : string) (e : exn) :
  list_flow v f = Raise e -> e = KeyError.
Proof.
  unfold list_flow.
  destruct (j_scenario _) as [name|]; [|discriminate].
  destruct (get name (scenarios v)) as [sc|]; [|congruence].
  destruct (get _ (scen_rules sc)); [discriminate | congruence].
Qed.

Lemma list_flows_raises (v : View) (fs : list string) (f : string) :
  In f fs -> list_flow v f = Raise KeyError ->
  list_flows v fs = Raise KeyError.
Proof.
  induction fs as [|f0 fs IH]; simpl; [tauto|].
  intros [->|Hin] Hf.
  - now rewrite Hf.
  - destruct (list_flow v f0) as [item|e] eqn:E.
    + now rewrite (IH Hin Hf).
    + now rewrite (list_flow_raises _ _ _ E).
Qed.

(** How one flow is listed: a flow that no scenario holds comes without
    the key [scenario] and with the three empty default rule lists; a flow
    that scenarios hold comes with the name of the last of them and with
    that scenario's rule set for its id, and the absence of that rule set
    is a [KeyError]. *)
Theorem list_flow_by_scenario (v : View) (f : string) :
  wf (scenarios v) ->
  match find (fun e => PyList.mem f (scen_flows (snd e)))
             (rev (scenarios v)) with
  | None =>
      list_flow v f = Ok (Entry (flow_to_json (objects v f)) default_rules)
  | Some (name, sc) =>
      list_flow v f
      = match get (fl_id (state (objects v f))) (scen_rules sc) with
        | Some rs =>
            Ok (Entry (with_scenario name (flow_to_json (objects v f)))
                      (Rules.toDict rs))
        | None => Raise KeyError
        end
  end.
Proof.
  intros Hwf. unfold list_flow. rewrite tag_scenario_last.
  destruct (find _ (rev (scenarios v))) as [[name sc]|] eqn:Hfind.
  - cbn [fst j_scenario with_scenario].
    apply find_some in Hfind as [Hin _]. apply in_rev in Hin.
    now rewrite (wf_In_get _ _ _ Hwf Hin).
  - reflexivity.
Qed.

(** A live flow of a scenario that has no rule set for it makes [Flows.get]
    raise [KeyError]; the mock and learning flags then stay as they were. *)
Theorem Flows_get_missing_rules (v : View) (f name : string) (sc : Scen) :
  wf (scenarios v) ->
  In f (live v) ->
  find (fun e => PyList.mem f (scen_flows (snd e))) (rev (scenarios v))
  = Some (name, sc) ->
  get (fl_id (state (objects v f))) (scen_rules sc) = None ->
  Flows_get v = (Raise KeyError, v).
Proof.
  intros Hwf Hlive Hfind Hnone.
  apply Flows_get_raises. unfold listing.
  rewrite (list_flows_raises v (live v) f Hlive); [reflexivity|].
  unfold list_flow. rewrite tag_scenario_last, Hfind.
  cbn [fst j_scenario with_scenario].
  apply find_some in Hfind as [Hin _]. apply in_rev in Hin.
  now rewrite (wf_In_get _ _ _ Hwf Hin), Hnone.
Qed.

Lemma list_flow_entry (v : View) (f : string) (item : ListItem) :
  list_flow v f = Ok item ->
  exists (dic : FlowJson) (r : dict (list Rules.Rule)),
    item = Entry dic r /\
    (dic = flow_to_json (objects v f) \/
     exists name : string,
       In name (keys (scenarios v)) /\
       dic = with_scenario name (flow_to_json (objects v f))).
Proof.
  unfold list_flow. rewrite tag_scenario_last.
  destruct (find _ (rev (scenarios v))) as [[name sc]|] eqn:Hfind.
  - cbn [fst j_scenario with_scenario].
    apply find_some in Hfind as [Hin _]. apply in_rev in Hin.
    destruct (get name (scenarios v)) as [sc'|]; [|discriminate].
    destruct (get _ (scen_rules sc')) as [rs|]; [|discriminate].
    intros [= <-]. do 2 eexists. split; [reflexivity|].
    right. exists name. split; [|reflexivity].
    change name with (fst (name, sc)). now apply in_map.
  - cbn. intros [= <-]. do 2 eexists. split; [reflexivity|]. now left.
Qed.

(** The answer of [Flows.get] has one entry for each flow of the view, in
    the order of the view: the projection of that flow, with at most the name
    of a scenario of the store added.  After the entries comes the name of
    the current scenario, unless that name is empty. *)
Theorem listing_shape (v : View) (li : list ListItem) :
  listing v = Ok li ->
  exists entries : list ListItem,
    li = entries ++ (if String.eqb (scenario v) "" then []
                     else [Current (scenario v)]) /\
    Forall2
      (fun f item =>
         exists (dic : FlowJson) (r : dict (list Rules.Rule)),
           item = Entry dic r /\
           (dic = flow_to_json (objects v f) \/
            exists name : string,
              In name (keys (scenarios v)) /\
              dic = with_scenario name (flow_to_json (objects v f))))
      (live v) entries.
Proof.
  unfold listing.
  destruct (list_flows v (live v)) as [items|e] eqn:Hfs; [|discriminate].
  intros Hli. exists items. split.
  - destruct (String.eqb (scenario v) ""); cbn [negb] in Hli;
      injection Hli as <-; [now rewrite app_nil_r | reflexivity].
  - clear Hli. revert items Hfs.
    induction (live v) as [|f fs IH]; simpl; intros items Hfs.
    + injection Hfs as <-. constructor.
    + destruct (list_flow v f) as [item|e] eqn:Hf; [|discriminate].
      destruct (list_flows v fs) as [items'|e]; [|discriminate].
      injection Hfs as <-. constructor; [|now apply IH].
      now apply list_flow_entry.
Qed.

Lemma list_flows_modes (v : View) (m l : bool) (fs : list string) :
  list_flows (set_learning l (set_mock m v)) fs = list_flows v fs.
Proof.
  induction fs as [|f fs IH]; simpl; [reflexivity|].
  change (list_flow (set_learning l (set_mock m v)) f) with (list_flow v f).
  now rewrite IH.
Qed.

(** A second [Flows.get] right after the first answers with the same list
    and changes nothing: the list does not depend on the two flags. *)
Theorem Flows_get_twice (v v' : View) (li : list ListItem) :
  Flows_get v = (Ok li, v') -> Flows_get v' = (Ok li, v').
Proof.
  intros Hrun.
  destruct (Flows_get_answer v v' li Hrun) as (Hli & _ & _).
  rewrite (Flows_get_run v li Hli) in Hrun. injection Hrun as <-.
  apply (Flows_get_run
           {| objects := objects v; live := live v; scenarios := scenarios v;
              scenario := scenario v; mock := false; learning := false;
              matchers := matchers v; pending := pending v |} li).
  unfold listing in *. cbn [live scenario].
  change {| objects := objects v; live := live v; scenarios := scenarios v;
            scenario := scenario v; mock := false; learning := false;
            matchers := matchers v; pending := pending v |}
    with (set_learning false (set_mock false v)).
  now rewrite list_flows_modes.
Qed.

End Facts.

(** A view whose flow [f1] is in the scenario [A] without a rule set. *)
Lemma Flows_get_missing_rules_witness :
  Flows_get (BI := Sample.builtins) (FA := Sample.api)
    (set_scenarios
       [("A", {| scen_flows := ["f1"]; scen_rules := [] |})] Sample.view)
  = (Raise KeyError,
     set_scenarios
       [("A", {| scen_flows := ["f1"]; scen_rules := [] |})] Sample.view).
Proof.
  apply (Flows_get_missing_rules (BI := Sample.builtins) (FA := Sample.api)
           _ "f1" "A" {| scen_flows := ["f1"]; scen_rules := [] |}).
  - unfold wf. simpl. repeat constructor. simpl. tauto.
  - simpl. auto.
  - reflexivity.
  - reflexivity.
Defined.

Lemma list_flow_by_scenario_witness :
  list_flow (BI := Sample.builtins) (FA := Sample.api) SampleMore.view "f1"
  = Ok (Entry (with_scenario "B"
                 (flow_to_json (BI := Sample.builtins) (FA := Sample.api)
                    (SampleMore.intercepted "f1")))
              Sample.rules) /\
  list_flow (BI := Sample.builtins) (FA := Sample.api) SampleMore.view "f2"
  = Ok (Entry (flow_to_json (BI := Sample.builtins) (FA := Sample.api)
                 (Sample.flow "f2" None))
              default_rules).
Proof.
  assert (Hwf : wf (scenarios SampleMore.view)).
  { unfold wf. simpl. repeat constructor; simpl; intuition discriminate. }
  split.
  - exact (list_flow_by_scenario (BI := Sample.builtins) (FA := Sample.api)
             SampleMore.view "f1" Hwf).
  - exact (list_flow_by_scenario (BI := Sample.builtins) (FA := Sample.api)
             SampleMore.view "f2" Hwf).
Defined.

Lemma listing_shape_witness :
  exists entries : list ListItem,
    [Entry (with_scenario "B"
              (flow_to_json (BI := Sample.builtins) (FA := Sample.api)
                 (Sample.flow "f1" None)))
           Sample.rules;
     Current "B"]
    = entries ++ (if String.eqb (scenario Sample.view) "" then []
                  else [Current (scenario Sample.view)]) /\
    Forall2
      (fun f item =>
         exists (dic : FlowJson) (r : dict (list Rules.Rule)),
           item = Entry dic r /\
           (dic = flow_to_json (BI := Sample.builtins) (FA := Sample.api)
                    (objects Sample.view f) \/
            exists name : string,
              In name (keys (scenarios Sample.view)) /\
              dic = with_scenario name
                      (flow_to_json (BI := Sample.builtins)
                         (FA := Sample.api) (objects Sample.view f))))
      (live Sample.view) entries.
Proof.
  apply (listing_shape (BI := Sample.builtins) (FA := Sample.api)
           Sample.view).
  reflexivity.
Defined.

Lemma Flows_get_twice_witness :
  Flows_get (BI := Sample.builtins) (FA := Sample.api)
    (set_learning false (set_mock false Sample.view))
  = (Ok [Entry (with_scenario "B"
                  (flow_to_json (BI := Sample.builtins) (FA := Sample.api)
                     (Sample.flow "f1" None)))
               Sample.rules;
         Current "B"],
     set_learning false (set_mock false Sample.view)).
Proof.
  apply (Flows_get_twice (BI := Sample.builtins) (FA := Sample.api)
           Sample.view).
  reflexivity.
Defined.

End ListingMore.

(** ** Scenario handlers *)

Module ScenarioMore.
Import PyDictFacts PyListFacts ScenarioFacts.

Lemma set_absent {V} (d : dict V) (k : string) (x : V) :
  ~ In k (keys d) -> set k x d = d ++ [(k, x)].
Proof.
  induction d as [|[k0 x0] d IH]; simpl; intros Hnotin; [reflexivity|].
  destruct (String.eqb_spec k k0) as [->|Hne]; [tauto|].
  rewrite IH by tauto. reflexivity.
Qed.

Lemma set_present_keys {V} (d : dict V) (k : string) (x : V) :
  In k (keys d) -> keys (set k x d) = keys d.
Proof.
  induction d as [|[k0 x0] d IH]; simpl; [tauto|].
  destruct (String.eqb_spec k k0) as [->|Hne]; [reflexivity|].
  intros [Heq|Hin]; [congruence|]. simpl. now rewrite IH.
Qed.

Lemma keys_del_filter {V} (d : dict V) (k : string) :
  wf d -> keys (del k d) = filter (fun x => negb (String.eqb x k)) (keys d).
Proof.
  unfold wf. induction d as [|[k0 x0] d IH]; simpl; intros Hnd;
    [reflexivity|].
  inversion Hnd as [|? ? Hnotin Hnd']; subst.
  rewrite (String.eqb_sym k0 k).
  destruct (String.eqb_spec k k0) as [->|Hne]; simpl.
  - clear IH Hnd Hnd'. induction (keys d) as [|y l IHl]; [reflexivity|].
    simpl in *. destruct (String.eqb_spec y k0) as [->|Hy]; [tauto|].
    simpl. f_equal. apply IHl. tauto.
  - now rewrite IH.
Qed.

Lemma index_absent (x : string) (l : list string) :
  ~ In x l -> PyList.index x l = None.
Proof.
  induction l as [|y l IH]; simpl; [reflexivity|].
  intros Hnotin. destruct (String.eqb_spec x y) as [->|Hne]; [tauto|].
  rewrite IH by tauto. reflexivity.
Qed.

(** [Scenario.post] never fails.  It makes the name current; a name of the
    store keeps its scenario and the store is as before, a new name gets an
    empty scenario at the end of the order.  Nothing else changes, and a
    second call with the same name changes nothing at all. *)
Theorem Scenario_post_activates (v : View) (name : string) :
  exists v' : View,
    Scenario_post name v = (Ok tt, v') /\
    scenario v' = name /\
    (In name (keys (scenarios v)) -> scenarios v' = scenarios v) /\
    (~ In name (keys (scenarios v)) ->
     scenarios v'
     = scenarios v ++ [(name, {| scen_flows := []; scen_rules := [] |})]) /\
    objects v' = objects v /\ live v' = live v /\
    mock v' = mock v /\ learning v' = learning v /\
    Scenario_post name v' = (Ok tt, v').
Proof.
  unfold Scenario_post at 1, bind at 1, get_state.
  destruct (mem name (scenarios v)) eqn:Hmem; cbn [negb].
  - apply mem_true_iff in Hmem.
    unfold bind at 1, ret at 1. rewrite setScen_present by assumption.
    eexists. split; [reflexivity|].
    cbn [scenario scenarios objects live mock learning set_scenario].
    repeat split; try tauto.
    unfold Scenario_post, bind at 1, get_state.
    cbn [scenarios set_scenario].
    rewrite (proj2 (mem_true_iff _ _) Hmem). cbn [negb].
    unfold bind at 1, ret at 1. now rewrite setScen_present by assumption.
  - assert (Hnotin : ~ In name (keys (scenarios v))).
    { intros Hin. apply mem_true_iff in Hin. congruence. }
    unfold bind at 1, addScen, bind at 1, get_state. rewrite Hmem.
    unfold modify.
    assert (Hin' : In name
                     (keys (set name {| scen_flows := []; scen_rules := [] |}
                                (scenarios v))))
      by (apply keys_set_In; now left).
    rewrite setScen_present by exact Hin'.
    eexists. split; [reflexivity|].
    cbn [scenario scenarios objects live mock learning set_scenario
         set_scenarios].
    repeat split; try tauto.
    + intros _. now apply set_absent.
    + unfold Scenario_post, bind at 1, get_state.
      cbn [scenarios set_scenario set_scenarios].
      rewrite (proj2 (mem_true_iff _ _) Hin'). cbn [negb].
      unfold bind at 1, ret at 1.
      now rewrite setScen_present by exact Hin'.
Qed.

(** [DeleteScenario.post] with a name that is not in the store raises
    [ValueError] and changes nothing. *)
Theorem DeleteScenario_post_absent (v : View) (name : string) :
  ~ In name (keys (scenarios v)) ->
  DeleteScenario_post name v = (Raise ValueError, v).
Proof.
  intros Hnotin. unfold DeleteScenario_post, bind at 1, get_state.
  now rewrite (index_absent _ _ Hnotin).
Qed.

Lemma DeleteScenario_post_absent_witness :
  DeleteScenario_post "Z" Sample.view = (Raise ValueError, Sample.view).
Proof.
  apply (DeleteScenario_post_absent Sample.view "Z").
  simpl. intuition discriminate.
Defined.

(** [DeleteScenario.post] with a name of the store, whether or not it is
    the current one: the neighbour of the removed scenario becomes current,
    the flows of the removed scenario leave the view and every other flow
    stays, the other scenarios keep their content and their order, and the
    two flags are untouched. *)
Theorem DeleteScenario_post_effect (v : View) (name : string) (sc : Scen)
    (i : nat) :
  wf (scenarios v) ->
  get name (scenarios v) = Some sc ->
  PyList.index name (keys (scenarios v)) = Some i ->
  exists v' : View,
    DeleteScenario_post name v = (Ok tt, v') /\
    scenario v' = neighbour (keys (scenarios v)) i /\
    live v' = filter (fun r => negb (PyList.mem r (scen_flows sc))) (live v) /\
    keys (scenarios v')
    = filter (fun k => negb (String.eqb k name)) (keys (scenarios v)) /\
    (forall k : string,
        k <> name -> get k (scenarios v') = get k (scenarios v)) /\
    mock v' = mock v /\ learning v' = learning v.
Proof.
  intros Hwf Hget Hidx. eexists.
  split; [apply (DeleteScenario_post_run v name i sc); assumption|].
  cbn [scenario scenarios live mock learning set_scenarios set_live
       set_scenario].
  repeat split.
  - now apply keys_del_filter.
  - intros k Hne. now apply get_del_other.
Qed.

(** With [A] current, removing [C] makes [B] current. *)
Lemma DeleteScenario_post_effect_witness :
  exists v' : View,
    DeleteScenario_post "C" (set_scenario "A" Sample.view) = (Ok tt, v') /\
    scenario v' = "B" /\
    live v' = ["f1"] /\
    keys (scenarios v') = ["A"; "B"] /\
    (forall k : string,
        k <> "C" -> get k (scenarios v') = get k (scenarios Sample.view)) /\
    mock v' = true /\ learning v' = true.
Proof.
  apply (DeleteScenario_post_effect (set_scenario "A" Sample.view) "C"
           Sample.empty_scen 2).
  - unfold wf. simpl. repeat constructor; simpl; intuition discriminate.
  - reflexivity.
  - reflexivity.
Defined.

(** [CopyScenario.post] when the current name has no scenario, as in a
    store that has none yet: [KeyError], and nothing changes. *)
Theorem CopyScenario_post_no_current (v : View) (dst : string) :
  get (scenario v) (scenarios v) = None ->
  CopyScenario_post dst v = (Raise KeyError, v).
Proof.
  intros Hnone. unfold CopyScenario_post, bind at 1, get_state.
  unfold bind at 1, getitem. now rewrite Hnone.
Qed.

Lemma CopyScenario_post_no_current_witness :
  CopyScenario_post "D" (set_scenarios [] (set_scenario "" Sample.view))
  = (Raise KeyError, set_scenarios [] (set_scenario "" Sample.view)).
Proof.
  apply (CopyScenario_post_no_current
           (set_scenarios [] (set_scenario "" Sample.view)) "D").
  reflexivity.
Defined.

(** [CopyScenario.post] never refuses a name: a name that is already in the
    store keeps its place in the order and loses its scenario to the copied
    one, a new name goes to the end; in both cases the name holds the copied
    scenario and is current, the old name of the copied scenario is gone and
    the other scenarios keep their content. *)
Theorem CopyScenario_post_order (v : View) (dst : string) (sc : Scen) :
  wf (scenarios v) ->
  get (scenario v) (scenarios v) = Some sc ->
  dst <> scenario v ->
  exists v' : View,
    CopyScenario_post dst v = (Ok tt, v') /\
    keys (scenarios v')
    = filter (fun k => negb (String.eqb k (scenario v)))
             (if mem dst (scenarios v) then keys (scenarios v)
              else keys (scenarios v) ++ [dst]) /\
    get dst (scenarios v') = Some sc /\
    get (scenario v) (scenarios v') = None /\
    scenario v' = dst /\
    (forall k : string,
        k <> dst -> k <> scenario v ->
        get k (scenarios v') = get k (scenarios v)) /\
    live v' = live v /\ objects v' = objects v.
Proof.
  intros Hwf Hget Hne. eexists.
  split; [apply (CopyScenario_post_run v dst sc); assumption|].
  cbn [scenario scenarios live objects set_scenarios set_scenario].
  repeat split.
  - rewrite keys_del_filter by now apply wf_set.
    f_equal. destruct (mem dst (scenarios v)) eqn:Hmem.
    + apply set_present_keys. now apply mem_true_iff.
    + rewrite set_absent.
      * unfold keys. now rewrite map_app.
      * intros Hin. apply mem_true_iff in Hin. congruence.
  - rewrite get_del_other by assumption. apply get_set_same.
  - apply get_del_same. now apply wf_set.
  - intros k H1 H2. rewrite get_del_other by assumption.
    now apply get_set_other.
Qed.

(** Copying the current scenario [B] to the name [A], which exists. *)
Lemma CopyScenario_post_order_witness :
  exists v' : View,
    CopyScenario_post "A" Sample.view = (Ok tt, v') /\
    keys (scenarios v') = ["A"; "C"] /\
    get "A" (scenarios v') = Some Sample.scen /\
    get "B" (scenarios v') = None /\
    scenario v' = "A" /\
    (forall k : string,
        k <> "A" -> k <> "B" ->
        get k (scenarios v') = get k (scenarios Sample.view)) /\
    live v' = live Sample.view /\ objects v' = objects Sample.view.
Proof.
  apply (CopyScenario_post_order Sample.view "A" Sample.scen).
  - unfold wf. simpl. repeat constructor; simpl; intuition discriminate.
  - reflexivity.
  - simpl. discriminate.
Defined.

End ScenarioMore.

(** ** Rule handlers *)

Module RuleMore.
Import PyDictFacts ScenarioFacts.

(** The two lookups that open every rule handler. *)
Ltac lookup_fails Hnone :=
  unfold bind at 1, get_state;
  unfold bind at 1, getitem at 1;
  match goal with
  | |- context [get (scenario ?v) (scenarios ?v)] =>
      let sc := fresh "sc" in
      let Hsc := fresh "Hsc" in
      destruct (get (scenario v) (scenarios v)) as [sc|] eqn:Hsc;
      [ unfold ret at 1, bind at 1, getitem;
        rewrite (Hnone sc eq_refl); reflexivity
      | reflexivity ]
  end.

Section Facts.
Context {BI : Builtins} {RA : RuleSetApi}.

(** When the current name has no scenario, or its scenario has no rule set
    for the flow id of the route, moving a rule up or down and deleting a
    rule raise [KeyError] and change nothing. *)
Theorem rule_handlers_no_rule_set (v : View) (flow_id label : string)
    (index : nat) :
  (forall sc : Scen,
      get (scenario v) (scenarios v) = Some sc ->
      get flow_id (scen_rules sc) = None) ->
  RuleUp_post flow_id label index v = (Raise KeyError, v) /\
  RuleDown_post flow_id label index v = (Raise KeyError, v) /\
  RuleDelete_post flow_id label index v = (Raise KeyError, v).
Proof.
  intros Hnone.
  unfold RuleUp_post, RuleDown_post, RuleDelete_post, switch_current_rules,
    on_current_rules.
  repeat split; lookup_fails Hnone.
Qed.

(** A body of [RuleHandler.put] that is an object without the key [Index],
    or without the key [Label], raises [KeyError] before the store is looked
    at, whatever the store holds. *)
Theorem RuleHandler_put_missing_key (v : View) (flow_id : string)
    (req : HTTPRequest) (d : dict pyval) :
  json req = Ok (PDict d) ->
  get "Index" d = None \/ get "Label" d = None ->
  RuleHandler_put flow_id req v = (Raise KeyError, v).
Proof.
  intros Hjson Hmiss. unfold RuleHandler_put.
  unfold bind at 1, lift at 1. rewrite Hjson.
  unfold bind at 1, ret at 1.
  unfold bind at 1, lift at 1, dict_pop at 1.
  destruct (get "Index" d) as [index|] eqn:Hindex; [|reflexivity].
  destruct Hmiss as [Hmiss|Hmiss]; [discriminate|].
  unfold bind at 1, lift at 1, dict_pop.
  rewrite get_del_other by discriminate. now rewrite Hmiss.
Qed.

(** A body with both keys: the index [-1] adds the rule, every other index
    sets it; the fields handed to the rule set are those of the body without
    [Index] and [Label]. *)
Theorem RuleHandler_put_dispatch (v : View) (flow_id : string)
    (req : HTTPRequest) (d : dict pyval) (index label : pyval) :
  wf d ->
  json req = Ok (PDict d) ->
  get "Index" d = Some index ->
  get "Label" d = Some label ->
  (index = PInt (-1) ->
   RuleHandler_put flow_id req v
   = on_current_rules flow_id
       (addRule label (del "Label" (del "Index" d))) v) /\
  (index <> PInt (-1) ->
   RuleHandler_put flow_id req v
   = on_current_rules flow_id
       (setRule label (del "Label" (del "Index" d)) index) v) /\
  get "Index" (del "Label" (del "Index" d)) = None /\
  get "Label" (del "Label" (del "Index" d)) = None /\
  (forall k : string,
      k <> "Index" -> k <> "Label" ->
      get k (del "Label" (del "Index" d)) = get k d).
Proof.
  intros Hwf Hjson Hindex Hlabel.
  assert (Hrun :
    RuleHandler_put flow_id req v
    = match index with
      | PInt (-1) =>
          on_current_rules flow_id
            (addRule label (del "Label" (del "Index" d)))
      | _ =>
          on_current_rules flow_id
            (setRule label (del "Label" (del "Index" d)) index)
      end v).
  { unfold RuleHandler_put.
    unfold bind at 1, lift at 1. rewrite Hjson.
    unfold bind at 1, ret at 1.
    unfold bind at 1, lift at 1, dict_pop at 1. rewrite Hindex.
    unfold bind at 1, lift at 1, dict_pop.
    rewrite get_del_other by discriminate. rewrite Hlabel. reflexivity. }
  split; [|split; [|split; [|split]]].
  - intros ->. exact Hrun.
  - intros Hne. rewrite Hrun.
    destruct index as [| | z | | |]; try reflexivity.
    destruct z as [|p|p]; try reflexivity.
    destruct p; try reflexivity. contradiction.
  - rewrite get_del_other by discriminate. now apply get_del_same.
  - apply get_del_same. now apply wf_del.
  - intros k H1 H2. now rewrite !get_del_other by assumption.
Qed.

End Facts.

Lemma rule_handlers_no_rule_set_witness :
  RuleUp_post "f2" "Match" 1 Sample.view = (Raise KeyError, Sample.view) /\
  RuleDown_post "f2" "Match" 1 Sample.view = (Raise KeyError, Sample.view) /\
  RuleDelete_post (RA := SampleMore.rule_api) "f2" "Match" 1 Sample.view
  = (Raise KeyError, Sample.view).
Proof.
  apply (rule_handlers_no_rule_set (RA := SampleMore.rule_api)
           Sample.view "f2" "Match" 1).
  intros sc [= <-]. reflexivity.
Defined.

Lemma RuleHandler_put_missing_key_witness :
  RuleHandler_put (BI := SampleMore.builtins) (RA := SampleMore.rule_api)
    "f1" (SampleMore.json_request "rule") Sample.view
  = (Raise KeyError, Sample.view).
Proof.
  apply (RuleHandler_put_missing_key (BI := SampleMore.builtins)
           (RA := SampleMore.rule_api) Sample.view "f1"
           (SampleMore.json_request "rule")
           [("Label", PStr "Match"); ("x", PInt 3)]).
  - reflexivity.
  - left. reflexivity.
Defined.

(** Adding a rule to the sample flow: it goes last under its label and
    holds the field [x] only. *)
Lemma RuleHandler_put_dispatch_witness :
  exists v' : View,
    RuleHandler_put (BI := SampleMore.builtins) (RA := SampleMore.rule_api)
      "f1" (SampleMore.json_request "add rule") Sample.view
    = (Ok tt, v') /\
    get "B" (scenarios v')
    = Some {| scen_flows := ["f1"];
              scen_rules :=
                [("f1", [("Match", [Sample.rule 1; Sample.rule 2;
                                    [("x", PInt 3)]])])] |}.
Proof.
  destruct (RuleHandler_put_dispatch (BI := SampleMore.builtins)
              (RA := SampleMore.rule_api) Sample.view "f1"
              (SampleMore.json_request "add rule")
              [("Index", PInt (-1)); ("x", PInt 3); ("Label", PStr "Match")]
              (PInt (-1)) (PStr "Match")) as (Hadd & _).
  - unfold wf. simpl. repeat constructor; simpl; intuition discriminate.
  - reflexivity.
  - reflexivity.
  - reflexivity.
  - rewrite (Hadd eq_refl). eexists. split; reflexivity.
Defined.

End RuleMore.

(** ** Updating, reverting and replaying a flow *)

Module FlowUpdateMore.
Import Preservation FlowUpdateFacts.

Lemma restore_same (s : FlowState) : restore s s = s.
Proof.
  destruct s as [? ? ? ? ? ? ? ? ? [r|]]; [destruct r|]; reflexivity.
Qed.

Lemma revert_backup (flow : Flow) :
  saved flow = None -> revert (backup flow) = flow.
Proof.
  destruct flow as [st sv]. simpl. intros ->.
  unfold revert, backup. simpl. now rewrite restore_same.
Qed.

Lemma find_ext_in {A} (p q : A -> bool) (l : list A) :
  (forall a, In a l -> p a = q a) -> find p l = find q l.
Proof.
  induction l as [|a l IH]; simpl; intros Hpq; [reflexivity|].
  rewrite (Hpq a) by now left.
  destruct (q a); [reflexivity|]. apply IH. auto.
Qed.

(** Replacing flow objects by objects with the same ids does not change
    which flow an id finds. *)
Lemma get_by_id_same_ids (flow_id : string) (o : string -> Flow) (v : View) :
  (forall r, fl_id (state (o r)) = fl_id (state (objects v r))) ->
  get_by_id flow_id (set_objects o v) = get_by_id flow_id v.
Proof.
  intros Hid. unfold get_by_id. cbn [objects live set_objects].
  apply find_ext_in. intros r _. now rewrite Hid.
Qed.

Section Facts.
Context {BI : Builtins} {FA : FlowApi}.

(** The loops of [FlowHandler.put] write the request and the response
    only. *)
Lemma update_section_keeps (P : Flow -> Prop) (a : string) (x : pyval) :
  (forall f r, P f -> P (with_request r f)) ->
  (forall f r, P f -> P (with_response r f)) ->
  preserves P (update_section a x).
Proof.
  intros Hreq Hresp. unfold update_section.
  apply preserves_bind; [apply preserves_get_state|]. intros flow.
  repeat apply preserves_if; try apply preserves_raise;
    (apply preserves_bind; [apply preserves_lift|]; intros fields;
     apply preserves_for_each; intros [k v];
     apply preserves_zoom; intros t s Hs; auto).
Qed.

Lemma put_body_keeps (P : Flow -> Prop) (req : HTTPRequest) :
  (forall f r, P f -> P (with_request r f)) ->
  (forall f r, P f -> P (with_response r f)) ->
  preserves P
    (j <- lift (json req) ;;
     sections <- lift (items j) ;;
     for_each sections (fun '(a, b) => update_section a b))%py.
Proof.
  intros Hreq Hresp.
  apply preserves_bind; [apply preserves_lift|]. intros j.
  apply preserves_bind; [apply preserves_lift|]. intros sections.
  apply preserves_for_each. intros [a x]. now apply update_section_keeps.
Qed.

Lemma saved_backup (flow : Flow) :
  exists b : FlowState,
    saved (backup flow) = Some b /\
    (saved flow = None -> b = state flow) /\
    (forall b' : FlowState, saved flow = Some b' -> b = b').
Proof.
  destruct flow as [st [b|]]; simpl; eexists;
    (split; [reflexivity|]); split; congruence.
Qed.

(** An update that raises [APIError] leaves the flow without a snapshot
    and with the state of the snapshot that [backup] kept: every write to
    the state of the request and of the response is undone, and so is every
    change made since an earlier snapshot, if the flow had one.  The
    attribute [msg] of the response object is not part of that state and
    is left out of the comparison. *)
Theorem put_flow_APIError_undoes (req : HTTPRequest) (flow f' : Flow)
    (status : Z) (msg : string) :
  put_flow req flow = (Raise (APIError status msg), f') ->
  saved f' = None /\
  (saved flow = None -> forget_msg (state f') = forget_msg (state flow)) /\
  (forall b : FlowState,
      saved flow = Some b -> forget_msg (state f') = forget_msg b).
Proof.
  intros Hrun.
  unfold put_flow, bind at 1, modify, except_APIError in Hrun.
  destruct (saved_backup flow) as (b & Hb & Hnone & Hsome).
  pose proof (put_body_keeps (fun f => saved f = Some b) req
                (fun f r H => H) (fun f r H => H) (backup flow) Hb)
    as Hkeep.
  match type of Hrun with
  | context [?body (backup flow)] =>
      destruct (body (backup flow)) as [[[]|e] f2] eqn:Hbody
  end; [discriminate|].
  cbn [snd] in Hkeep.
  destruct e; try discriminate.
  injection Hrun as _ _ <-.
  unfold revert. rewrite Hkeep. cbn [saved state].
  rewrite forget_msg_restore.
  split; [reflexivity|]. split.
  - intros Hn. now rewrite (Hnone Hn).
  - intros b' Hb'. now rewrite (Hsome b' Hb').
Qed.

(** Whatever an update of a flow without a snapshot does, a [revert] after
    it gives back the state that the flow had before the update. *)
Lemma put_flow_then_revert (req : HTTPRequest) (flow f' : Flow)
    (res : result unit) :
  saved flow = None ->
  put_flow req flow = (res, f') ->
  saved (revert f') = None /\
  forget_msg (state (revert f')) = forget_msg (state flow) /\
  fl_id (state (revert f')) = fl_id (state f') /\
  fl_id (state f') = fl_id (state flow).
Proof.
  intros Hnone Hrun.
  unfold put_flow, bind at 1, modify, except_APIError in Hrun.
  assert (Hb : saved (backup flow) = Some (state flow))
    by (unfold backup; now rewrite Hnone).
  pose proof (put_body_keeps
                (fun f => saved f = Some (state flow) /\
                          fl_id (state f) = fl_id (state flow)) req
                (fun f r H => H) (fun f r H => H) (backup flow)) as Hkeep.
  match type of Hrun with
  | context [?body (backup flow)] =>
      destruct (body (backup flow)) as [r0 f2] eqn:Hbody
  end.
  cbn [snd] in Hkeep.
  destruct Hkeep as [Hsaved Hid].
  { split; [exact Hb|]. unfold backup. now rewrite Hnone. }
  assert (Hrev : saved (revert f2) = None /\
                 forget_msg (state (revert f2)) = forget_msg (state flow) /\
                 fl_id (state (revert f2)) = fl_id (state flow)).
  { unfold revert. rewrite Hsaved. cbn [saved state].
    rewrite forget_msg_restore. repeat split. }
  destruct Hrev as (Hs2 & Hf2 & Hi2).
  assert (Hrr : revert (revert f2) = revert f2)
    by (unfold revert at 1; now rewrite Hs2).
  assert (Hplain : saved (revert f2) = None /\
                   forget_msg (state (revert f2)) = forget_msg (state flow) /\
                   fl_id (state (revert f2)) = fl_id (state f2) /\
                   fl_id (state f2) = fl_id (state flow))
    by (repeat split; congruence).
  destruct r0 as [[]|e].
  - injection Hrun as _ <-. exact Hplain.
  - destruct e; injection Hrun as _ <-; try exact Hplain.
    rewrite Hrr. repeat split; congruence.
Qed.

(** [FlowHandler.put] can change the object of the flow that the id finds
    and nothing else; when the id finds no live flow it raises
    [APIError(404)] and changes nothing at all. *)
Theorem FlowHandler_put_frame (v v1 : View) (flow_id : string)
    (req : HTTPRequest) (res : result unit) :
  FlowHandler_put flow_id req v = (res, v1) ->
  live v1 = live v /\ scenarios v1 = scenarios v /\
  scenario v1 = scenario v /\ mock v1 = mock v /\
  learning v1 = learning v /\ matchers v1 = matchers v /\
  pending v1 = pending v /\
  (forall r : string,
      get_by_id flow_id v <> Some r -> objects v1 r = objects v r) /\
  (get_by_id flow_id v = None ->
   res = Raise (APIError 404 "Flow not found.") /\ v1 = v).
Proof.
  unfold FlowHandler_put, bind at 1, get_state.
  destruct (get_by_id flow_id v) as [r|] eqn:Hfind.
  - unfold bind at 1, ret at 1, zoom.
    destruct (put_flow req (objects v r)) as [res0 f'].
    intros [= <- <-].
    cbn [live scenarios scenario mock learning matchers pending objects
         set_objects].
    repeat split; try discriminate.
    intros r' Hne. destruct (String.eqb_spec r' r) as [->|]; congruence.
  - unfold bind at 1, raise. intros [= <- <-]. repeat split.
Qed.

Lemma request_add_headers (pairs : list (string * string)) (r : Request) :
  for_each (map (fun kv => PList [PStr (fst kv); PStr (snd kv)]) pairs)
    (fun header =>
       kv <- lift (header_args header) ;;
       t <- get_state ;;
       modify (set_req_headers (req_headers t ++ [kv])))%py r
  = (Ok tt, set_req_headers (req_headers r ++ pairs) r).
Proof.
  revert r. induction pairs as [|[k x] pairs IH]; intros r.
  - simpl. rewrite app_nil_r. now destruct r.
  - rewrite map_cons. cbn [for_each fst snd]. unfold bind at 1.
    change ((kv <- lift (header_args (PList [PStr k; PStr x])) ;;
             t <- get_state ;;
             modify (set_req_headers (req_headers t ++ [kv])))%py r)
      with (Ok tt, set_req_headers (req_headers r ++ [(k, x)]) r).
    cbv beta iota. rewrite IH. cbn [req_headers set_req_headers].
    now rewrite <- app_assoc.
Qed.

(** An update of the request headers with a list of name and value pairs
    replaces the headers by exactly these pairs, in their order and with
    repeated names kept; the rest of the flow is as [backup] leaves it. *)
Theorem put_flow_replaces_headers (req : HTTPRequest) (flow : Flow)
    (r : Request) (pairs : list (string * string)) :
  fl_kind (state flow) = HTTPFlow ->
  fl_request (state flow) = Some r ->
  json req
  = Ok (PDict [("request",
                PDict [("headers",
                        PList (map (fun kv =>
                                      PList [PStr (fst kv); PStr (snd kv)])
                                   pairs))])]) ->
  put_flow req flow
  = (Ok tt, with_request (Some (set_req_headers pairs r)) (backup flow)).
Proof.
  intros Hkind Hreq Hj.
  assert (Hkind' : fl_kind (state (backup flow)) = HTTPFlow)
    by (unfold backup; destruct (saved flow); exact Hkind).
  assert (Hreq' : fl_request (state (backup flow)) = Some r)
    by (unfold backup; destruct (saved flow); exact Hreq).
  unfold put_flow. rewrite (bind_ok _ _ _ (backup flow) tt) by reflexivity.
  unfold except_APIError.
  rewrite (bind_ok (lift (json req)) _ (backup flow) (backup flow)
             (PDict [("request",
                      PDict [("headers",
                              PList (map (fun kv =>
                                            PList [PStr (fst kv);
                                                   PStr (snd kv)])
                                         pairs))])]))
    by (unfold lift; now rewrite Hj).
  rewrite (bind_ok _ _ _ (backup flow)
             [("request",
               PDict [("headers",
                       PList (map (fun kv =>
                                     PList [PStr (fst kv); PStr (snd kv)])
                                  pairs))])])
    by reflexivity.
  cbn [for_each].
  rewrite (bind_ok _ _ (backup flow)
             (with_request (Some (set_req_headers pairs r)) (backup flow))
             tt); [reflexivity|].
  unfold update_section.
  rewrite (bind_ok _ _ _ (backup flow) (backup flow)) by reflexivity.
  unfold hasattr_request. rewrite Hkind'.
  cbn [String.eqb Ascii.eqb Bool.eqb andb].
  rewrite (bind_ok _ _ _ (backup flow)
             [("headers",
               PList (map (fun kv => PList [PStr (fst kv); PStr (snd kv)])
                          pairs))])
    by reflexivity.
  cbn [for_each].
  rewrite (bind_ok _ _ (backup flow)
             (with_request (Some (set_req_headers pairs r)) (backup flow))
             tt); [reflexivity|].
  unfold zoom. rewrite Hreq'.
  unfold update_request.
  cbn [existsb String.eqb Ascii.eqb Bool.eqb orb andb on_some].
  unfold set_headers.
  rewrite (bind_ok _ _ r (set_req_headers [] r) tt) by reflexivity.
  rewrite (bind_ok _ _ _ (set_req_headers [] r)
             (map (fun kv => PList [PStr (fst kv); PStr (snd kv)]) pairs))
    by reflexivity.
  rewrite request_add_headers. reflexivity.
Qed.

(** A flow that is not an HTTP flow takes no update: a body with at least
    one item raises [APIError(400)] naming the first item, and the flow is
    left as [backup] followed by [revert] leaves it. *)
Theorem put_flow_not_http (req : HTTPRequest) (flow : Flow) (a : string)
    (b : pyval) (rest : dict pyval) :
  fl_kind (state flow) = OtherFlow ->
  json req = Ok (PDict ((a, b) :: rest)) ->
  put_flow req flow
  = (Raise (APIError 400 ("Unknown update " ++ a ++ ": " ++ str b)%string),
     revert (backup flow)).
Proof.
  intros Hkind Hj.
  assert (Hkind' : fl_kind (state (backup flow)) = OtherFlow)
    by (unfold backup; destruct (saved flow); exact Hkind).
  unfold put_flow. rewrite (bind_ok _ _ _ (backup flow) tt) by reflexivity.
  unfold except_APIError.
  rewrite (bind_ok (lift (json req)) _ (backup flow) (backup flow)
             (PDict ((a, b) :: rest)))
    by (unfold lift; now rewrite Hj).
  rewrite (bind_ok _ _ _ (backup flow) ((a, b) :: rest)) by reflexivity.
  cbn [for_each].
  rewrite (bind_raise _ _ (backup flow) (backup flow)
             (APIError 400 ("Unknown update " ++ a ++ ": " ++ str b)%string));
    [reflexivity|].
  unfold update_section.
  rewrite (bind_ok _ _ _ (backup flow) (backup flow)) by reflexivity.
  unfold hasattr_request. rewrite Hkind'. now rewrite !andb_false_r.
Qed.

Section Control.
Context {FC : FlowControl}.

(** After any [FlowHandler.put] on a flow without a snapshot, successful or
    not, a [RevertFlow.post] that finds the flow modified gives the flow
    the state it had before the update and no snapshot; the attribute
    [msg] of the response object, which no snapshot holds, is left out of
    the comparison.  Every other flow object is as before. *)
Theorem put_then_RevertFlow (v v1 : View) (flow_id r : string)
    (req : HTTPRequest) (res : result unit) :
  get_by_id flow_id v = Some r ->
  saved (objects v r) = None ->
  FlowHandler_put flow_id req v = (res, v1) ->
  modified (objects v1 r) = true ->
  exists v2 : View,
    RevertFlow_post flow_id v1 = (Ok tt, v2) /\
    saved (objects v2 r) = None /\
    forget_msg (state (objects v2 r)) = forget_msg (state (objects v r)) /\
    (forall r' : string, r' <> r -> objects v2 r' = objects v r') /\
    live v2 = live v /\ scenarios v2 = scenarios v /\
    scenario v2 = scenario v.
Proof.
  intros Hfind Hnone Hput Hmod.
  unfold FlowHandler_put, bind at 1, get_state in Hput. rewrite Hfind in Hput.
  unfold bind at 1, ret at 1, zoom in Hput.
  destruct (put_flow req (objects v r)) as [res0 f'] eqn:Hrun.
  injection Hput as <- <-.
  destruct (put_flow_then_revert req (objects v r) f' res0 Hnone Hrun)
    as (Hsaved & Hstate & Hidr & Hid).
  set (v1 := set_objects
               (fun r' => if String.eqb r' r then f' else objects v r') v)
    in *.
  assert (Hfind1 : get_by_id flow_id v1 = Some r).
  { unfold v1. rewrite get_by_id_same_ids; [exact Hfind|].
    intros r'. destruct (String.eqb_spec r' r) as [->|]; congruence. }
  assert (Hobj1 : objects v1 r = f')
    by (unfold v1; cbn [objects set_objects]; now rewrite String.eqb_refl).
  set (v2 := set_objects
               (fun r' => if String.eqb r' r then revert (objects v1 r)
                          else objects v1 r') v1).
  assert (Hfind2 : get_by_id flow_id v2 = Some r).
  { unfold v2. rewrite get_by_id_same_ids; [exact Hfind1|].
    intros r'. destruct (String.eqb_spec r' r) as [->|]; [|reflexivity].
    now rewrite Hobj1, Hidr. }
  assert (Hobj2 : objects v2 r = revert f')
    by (unfold v2; cbn [objects set_objects];
        now rewrite String.eqb_refl, Hobj1).
  exists v2. split.
  - unfold RevertFlow_post, self_flow.
    rewrite (bind_ok _ _ v1 v1 r)
      by (unfold bind, get_state; now rewrite Hfind1).
    rewrite (bind_ok _ _ v1 v1 v1) by reflexivity.
    rewrite Hmod.
    rewrite (bind_ok _ _ v1 v1 r)
      by (unfold bind, get_state; now rewrite Hfind1).
    rewrite (bind_ok _ _ v1 v2 tt) by reflexivity.
    rewrite (bind_ok _ _ v2 v2 r)
      by (unfold bind, get_state; now rewrite Hfind2).
    reflexivity.
  - rewrite Hobj2.
    split; [exact Hsaved|]. split; [exact Hstate|].
    split; [|repeat split].
    intros r' Hne. unfold v2, v1. cbn [objects set_objects].
    destruct (String.eqb_spec r' r); [contradiction | reflexivity].
Qed.

(** [ReplayFlow.post] on a live HTTP flow takes a snapshot and drops the
    response, and leaves it dropped when the replay is refused with
    [APIError(400)]: nothing reverts the flow.  No other flow object
    changes. *)
Theorem ReplayFlow_post_drops_response (v : View) (flow_id r : string) :
  get_by_id flow_id v = Some r ->
  fl_kind (state (objects v r)) = HTTPFlow ->
  exists v1 : View,
    ReplayFlow_post flow_id v
    = (match replay_request (objects v1 r) with
       | Some msg => Raise (APIError 400 msg)
       | None => Ok tt
       end, v1) /\
    objects v1 r = with_response None (backup (objects v r)) /\
    fl_response (state (objects v1 r)) = None /\
    (forall r' : string, r' <> r -> objects v1 r' = objects v r') /\
    live v1 = live v /\ scenarios v1 = scenarios v.
Proof.
  intros Hfind _.
  set (va := set_objects
               (fun r' => if String.eqb r' r then backup (objects v r)
                          else objects v r') v).
  assert (Hfa : get_by_id flow_id va = Some r).
  { unfold va. rewrite get_by_id_same_ids; [exact Hfind|].
    intros r'. destruct (String.eqb_spec r' r) as [->|]; [|reflexivity].
    unfold backup. now destruct (saved (objects v r)). }
  set (vb := set_objects
               (fun r' => if String.eqb r' r
                          then with_response None (objects va r)
                          else objects va r') va).
  assert (Hfb : get_by_id flow_id vb = Some r).
  { unfold vb. rewrite get_by_id_same_ids; [exact Hfa|].
    intros r'. destruct (String.eqb_spec r' r) as [->|]; reflexivity. }
  assert (Hobj : objects vb r = with_response None (backup (objects v r))).
  { unfold vb, va. cbn [objects set_objects]. now rewrite String.eqb_refl. }
  exists vb. split; [|split; [exact Hobj|split; [|split]]].
  - unfold ReplayFlow_post, self_flow.
    rewrite (bind_ok _ _ v v r)
      by (unfold bind, get_state; now rewrite Hfind).
    rewrite (bind_ok _ _ v va tt) by reflexivity.
    rewrite (bind_ok _ _ va va r)
      by (unfold bind, get_state; now rewrite Hfa).
    rewrite (bind_ok _ _ va vb tt) by reflexivity.
    rewrite (bind_ok _ _ vb vb r)
      by (unfold bind, get_state; now rewrite Hfb).
    rewrite (bind_ok _ _ vb vb r)
      by (unfold bind, get_state; now rewrite Hfb).
    rewrite (bind_ok _ _ vb vb vb) by reflexivity.
    now destruct (replay_request (objects vb r)).
  - now rewrite Hobj.
  - intros r' Hne. unfold vb, va. cbn [objects set_objects].
    destruct (String.eqb_spec r' r); [contradiction | reflexivity].
  - split; reflexivity.
Qed.

End Control.

End Facts.

(** An update of the response that sets the status code and the attribute
    [msg] and then names an unknown field: the status code of the sample
    is back, the attribute stays.  And an edited flow, whose snapshot
    still has the method of the sample: the snapshot comes back. *)
Lemma put_flow_APIError_undoes_witness :
  (exists f' : Flow,
      put_flow (BI := SampleMore.builtins) (FA := Sample.api)
        (SampleMore.json_request "msg") (Sample.flow "f1" None)
      = (Raise (APIError 400 "Unknown update response.colour: red"), f') /\
      saved f' = None /\
      forget_msg (state f') = forget_msg (state (Sample.flow "f1" None)) /\
      option_map resp_status_code (fl_response (state f')) = Some 200%Z /\
      option_map resp_msg (fl_response (state f')) = Some (Some "gone")) /\
  exists f' : Flow,
    put_flow (BI := SampleMore.builtins) (FA := Sample.api)
      (SampleMore.json_request "colour")
      {| state := state (with_request
                           (Some (request_setattr "method" "PUT"
                                    (Sample.request None)))
                           (Sample.flow "f1" None));
         saved := Some (state (Sample.flow "f1" None)) |}
    = (Raise (APIError 400 "Unknown update request.colour: red"), f') /\
    forget_msg (state f') = forget_msg (state (Sample.flow "f1" None)).
Proof.
  split.
  - eexists. split; [reflexivity|].
    destruct (put_flow_APIError_undoes (BI := SampleMore.builtins)
                (FA := Sample.api) (SampleMore.json_request "msg")
                (Sample.flow "f1" None) _ 400
                "Unknown update response.colour: red" eq_refl)
      as (Hsaved & Hnone & _).
    split; [exact Hsaved|]. split; [exact (Hnone eq_refl)|].
    split; reflexivity.
  - eexists. split; [reflexivity|].
    destruct (put_flow_APIError_undoes (BI := SampleMore.builtins)
                (FA := Sample.api) (SampleMore.json_request "colour")
                {| state := state (with_request
                                     (Some (request_setattr "method" "PUT"
                                              (Sample.request None)))
                                     (Sample.flow "f1" None));
                   saved := Some (state (Sample.flow "f1" None)) |}
                _ 400 "Unknown update request.colour: red" eq_refl)
      as (_ & _ & Hsnap).
    exact (Hsnap (state (Sample.flow "f1" None)) eq_refl).
Defined.

Lemma FlowHandler_put_frame_witness :
  FlowHandler_put (BI := Sample.builtins) (FA := Sample.api)
    "f7" Sample.update Sample.view
  = (Raise (APIError 404 "Flow not found."), Sample.view).
Proof.
  destruct (FlowHandler_put (BI := Sample.builtins) (FA := Sample.api)
              "f7" Sample.update Sample.view) as [res v1] eqn:Hrun.
  destruct (FlowHandler_put_frame (BI := Sample.builtins) (FA := Sample.api)
              Sample.view v1 "f7" Sample.update res Hrun)
    as (_ & _ & _ & _ & _ & _ & _ & _ & Hnone).
  destruct (Hnone eq_refl) as [-> ->]. reflexivity.
Defined.

Lemma put_flow_replaces_headers_witness :
  put_flow (BI := SampleMore.builtins) (FA := Sample.api)
    (SampleMore.json_request "headers") (Sample.flow "f1" None)
  = (Ok tt,
     with_request
       (Some (set_req_headers [("A", "1"); ("A", "2")] (Sample.request None)))
       (backup (Sample.flow "f1" None))).
Proof.
  apply (put_flow_replaces_headers (BI := SampleMore.builtins)
           (FA := Sample.api) (SampleMore.json_request "headers")
           (Sample.flow "f1" None) (Sample.request None)
           [("A", "1"); ("A", "2")]);
    reflexivity.
Defined.

Lemma put_flow_not_http_witness :
  put_flow (BI := SampleMore.builtins) (FA := Sample.api)
    (SampleMore.json_request "colour") SampleMore.tcp_flow
  = (Raise (APIError 400 "Unknown update request: [...]"),
     SampleMore.tcp_flow).
Proof.
  exact (put_flow_not_http (BI := SampleMore.builtins) (FA := Sample.api)
           (SampleMore.json_request "colour") SampleMore.tcp_flow "request"
           (PDict [("method", PStr "POST"); ("colour", PStr "red")]) []
           eq_refl eq_refl).
Defined.

(** The update of the sample that fails on the port, then the revert. *)
Lemma put_then_RevertFlow_witness :
  exists v1 v2 : View,
    FlowHandler_put (BI := Sample.builtins) (FA := Sample.api)
      "f1" Sample.update Sample.view = (Raise TypeError, v1) /\
    RevertFlow_post (FA := Sample.api) "f1" v1 = (Ok tt, v2) /\
    saved (objects v2 "f1") = None /\
    forget_msg (state (objects v2 "f1"))
    = forget_msg (state (objects Sample.view "f1")) /\
    (forall r' : string,
        r' <> "f1" -> objects v2 r' = objects Sample.view r') /\
    live v2 = live Sample.view /\ scenarios v2 = scenarios Sample.view /\
    scenario v2 = scenario Sample.view.
Proof.
  eexists.
  destruct (put_then_RevertFlow (BI := Sample.builtins) (FA := Sample.api)
              Sample.view _ "f1" "f1" Sample.update (Raise TypeError)
              eq_refl eq_refl eq_refl eq_refl) as (v2 & H).
  exists v2. split; [reflexivity | exact H].
Defined.

Lemma ReplayFlow_post_drops_response_witness :
  exists v1 : View,
    ReplayFlow_post (FC := SampleMore.control) "f1" Sample.view
    = (match replay_request (FlowControl := SampleMore.control)
               (objects v1 "f1") with
       | Some msg => Raise (APIError 400 msg)
       | None => Ok tt
       end, v1) /\
    objects v1 "f1"
    = with_response None (backup (objects Sample.view "f1")) /\
    fl_response (state (objects v1 "f1")) = None /\
    (forall r' : string, r' <> "f1" -> objects v1 r' = objects Sample.view r')
    /\
    live v1 = live Sample.view /\ scenarios v1 = scenarios Sample.view.
Proof.
  apply (ReplayFlow_post_drops_response (FC := SampleMore.control)
           Sample.view "f1" "f1").
  - reflexivity.
  - reflexivity.
Defined.

End FlowUpdateMore.

(** ** Deleting and killing flows *)

Module FlowControlMore.
Import PyDictFacts FlowUpdateFacts FlowUpdateMore.

Lemma mem_In (x : string) (l : list string) :
  PyList.mem x l = true <-> In x l.
Proof.
  unfold PyList.mem. rewrite existsb_exists. split.
  - intros (y & Hin & Heq). apply String.eqb_eq in Heq. now subst.
  - intros Hin. exists x. split; [assumption | apply String.eqb_refl].
Qed.

Lemma list_remove_absent (x : string) (l : list string) :
  ~ In x l -> list_remove x l = Raise ValueError.
Proof.
  induction l as [|y l IH]; simpl; intros Hnotin; [reflexivity|].
  destruct (String.eqb_spec x y) as [->|Hne]; [tauto|].
  rewrite IH by tauto. reflexivity.
Qed.

Lemma list_remove_present (x : string) (l : list string) :
  In x l ->
  exists l' : list string,
    list_remove x l = Ok l' /\
    length l = S (length l') /\
    (forall y : string, y <> x -> (In y l' <-> In y l)) /\
    (NoDup l -> ~ In x l').
Proof.
  induction l as [|y l IH]; simpl; [tauto|].
  intros Hin. destruct (String.eqb_spec x y) as [->|Hne].
  - exists l. split; [reflexivity|]. split; [reflexivity|]. split.
    + intros z Hz. split; [tauto|]. intros [Heq|Hz']; [congruence|assumption].
    + intros Hnd. now inversion Hnd.
  - destruct Hin as [Heq|Hin]; [congruence|].
    destruct (IH Hin) as (l' & -> & Hlen & Hother & Hnd).
    exists (y :: l'). split; [reflexivity|]. split; [simpl; now rewrite Hlen|].
    split.
    + intros z Hz. simpl. rewrite (Hother z Hz). tauto.
    + intros Hnodup [Heq|Hx]; [congruence|].
      inversion Hnodup. now apply Hnd.
Qed.

Section Facts.
Context {FA : FlowApi} {FC : FlowControl}.

(** The state after [if self.flow.killable: self.flow.kill()]. *)
Lemma kill_if_killable_run (v : View) (flow_id r : string) :
  get_by_id flow_id v = Some r ->
  (forall f : Flow, fl_id (state (kill f)) = fl_id (state f)) ->
  exists vk : View,
    kill_if_killable flow_id v = (Ok tt, vk) /\
    get_by_id flow_id vk = Some r /\
    live vk = live v /\ scenarios vk = scenarios v /\
    scenario vk = scenario v /\
    fl_id (state (objects vk r)) = fl_id (state (objects v r)) /\
    objects vk r = (if killable (objects v r) then kill (objects v r)
                    else objects v r) /\
    (forall r' : string, r' <> r -> objects vk r' = objects v r').
Proof.
  intros Hfind Hid. unfold kill_if_killable, self_flow.
  rewrite (bind_ok _ _ v v r) by (unfold bind, get_state; now rewrite Hfind).
  rewrite (bind_ok _ _ v v v) by reflexivity.
  destruct (killable (objects v r)) eqn:Hk.
  - rewrite (bind_ok _ _ v v r)
      by (unfold bind, get_state; now rewrite Hfind).
    eexists. split; [reflexivity|].
    cbn [objects live scenarios scenario set_objects].
    rewrite String.eqb_refl. repeat split; auto.
    + rewrite get_by_id_same_ids; [exact Hfind|].
      intros r'. destruct (String.eqb_spec r' r) as [->|]; auto.
    + intros r' Hne. destruct (String.eqb_spec r' r); congruence.
  - exists v. repeat split; auto.
Qed.

(** [FlowHandler.delete] of a live flow that the current scenario does not
    hold raises [ValueError]: the flow stays in the view and in the store,
    but it has been killed if it could be. *)
Theorem FlowHandler_delete_foreign (v : View) (flow_id r : string)
    (sc : Scen) :
  (forall f : Flow, fl_id (state (kill f)) = fl_id (state f)) ->
  get_by_id flow_id v = Some r ->
  get (scenario v) (scenarios v) = Some sc ->
  ~ In r (scen_flows sc) ->
  exists v' : View,
    FlowHandler_delete flow_id v = (Raise ValueError, v') /\
    live v' = live v /\ scenarios v' = scenarios v /\
    objects v' r = (if killable (objects v r) then kill (objects v r)
                    else objects v r).
Proof.
  intros Hid Hfind Hsc Hnotin.
  destruct (kill_if_killable_run v flow_id r Hfind Hid)
    as (vk & Hrun & Hfk & Hlive & Hscs & Hcur & _ & Hobj & _).
  exists vk. split; [|auto].
  unfold FlowHandler_delete.
  rewrite (bind_ok _ _ v vk tt Hrun).
  rewrite (bind_ok _ _ vk vk vk) by reflexivity.
  rewrite Hcur, Hscs.
  rewrite (bind_ok _ _ vk vk sc)
    by (unfold getitem; now rewrite Hsc).
  rewrite (bind_ok _ _ vk vk r)
    by (unfold self_flow, bind, get_state; now rewrite Hfk).
  apply bind_raise. unfold lift. now rewrite list_remove_absent.
Qed.

(** [FlowHandler.delete] of a live flow of the current scenario succeeds:
    the flow leaves the flow list of the scenario, the rule set under its id
    leaves the rule mapping, the flow leaves the view, and the other
    scenarios and the other live flows stay. *)
Theorem FlowHandler_delete_removes (v : View) (flow_id r : string)
    (sc : Scen) :
  (forall f : Flow, fl_id (state (kill f)) = fl_id (state f)) ->
  get_by_id flow_id v = Some r ->
  get (scenario v) (scenarios v) = Some sc ->
  In r (scen_flows sc) ->
  exists (v' : View) (flows' : list string),
    FlowHandler_delete flow_id v = (Ok tt, v') /\
    list_remove r (scen_flows sc) = Ok flows' /\
    get (scenario v) (scenarios v')
    = Some {| scen_flows := flows';
              scen_rules := del (fl_id (state (objects v r)))
                                (scen_rules sc) |} /\
    (forall k : string,
        k <> scenario v -> get k (scenarios v') = get k (scenarios v)) /\
    ~ In r (live v') /\
    (forall r' : string, r' <> r -> (In r' (live v') <-> In r' (live v))) /\
    scenario v' = scenario v.
Proof.
  intros Hid Hfind Hsc Hin.
  destruct (kill_if_killable_run v flow_id r Hfind Hid)
    as (vk & Hrun & Hfk & Hlive & Hscs & Hcur & Hidk & _ & _).
  destruct (list_remove_present r (scen_flows sc) Hin)
    as (flows' & Hrem & _ & _ & _).
  set (sc1 := {| scen_flows := flows'; scen_rules := scen_rules sc |}).
  set (v1 := set_scenarios (set (scenario vk) sc1 (scenarios vk)) vk).
  assert (Hf1 : get_by_id flow_id v1 = Some r) by exact Hfk.
  set (sc2 := {| scen_flows := flows';
                 scen_rules := del (fl_id (state (objects v1 r)))
                                   (scen_rules sc) |}).
  set (v2 := set_scenarios (set (scenario v1) sc2 (scenarios v1)) v1).
  assert (Hf2 : get_by_id flow_id v2 = Some r) by exact Hfk.
  assert (Hstep :
    FlowHandler_delete flow_id v
    = (Ok tt,
       set_live (filter (fun x => negb (PyList.mem x [r])) (live v2)) v2)).
  { unfold FlowHandler_delete.
    rewrite (bind_ok _ _ v vk tt Hrun).
    rewrite (bind_ok _ _ vk vk vk) by reflexivity.
    rewrite (bind_ok _ _ vk vk sc)
      by (unfold getitem; now rewrite Hcur, Hscs, Hsc).
    rewrite (bind_ok _ _ vk vk r)
      by (unfold self_flow, bind, get_state; now rewrite Hfk).
    rewrite (bind_ok _ _ vk vk flows') by (unfold lift; now rewrite Hrem).
    rewrite (bind_ok _ _ vk v1 tt) by reflexivity.
    rewrite (bind_ok _ _ v1 v1 v1) by reflexivity.
    rewrite (bind_ok _ _ v1 v1 sc1)
      by (unfold getitem, v1; cbn [scenario scenarios set_scenarios];
          now rewrite get_set_same).
    rewrite (bind_ok _ _ v1 v1 r)
      by (unfold self_flow, bind, get_state; now rewrite Hf1).
    rewrite (bind_ok _ _ v1 v2 tt) by reflexivity.
    rewrite (bind_ok _ _ v2 v2 r)
      by (unfold self_flow, bind, get_state; now rewrite Hf2).
    reflexivity. }
  eexists. exists flows'. split; [exact Hstep|].
  split; [exact Hrem|].
  cbn [scenarios scenario live set_live].
  unfold v2, v1. cbn [scenarios scenario live objects set_scenarios].
  rewrite Hcur, Hscs, Hlive.
  split; [|split; [|split; [|split]]].
  - rewrite get_set_same. unfold sc2, v1. cbn [objects set_scenarios].
    now rewrite Hidk.
  - intros k Hne. now rewrite !get_set_other by assumption.
  - intros Hmem. apply filter_In in Hmem as [_ Hneg].
    simpl in Hneg. now rewrite String.eqb_refl in Hneg.
  - intros r' Hne. rewrite filter_In. simpl.
    destruct (String.eqb_spec r' r); [contradiction|]. simpl. tauto.
  - reflexivity.
Qed.

Lemma kill_loop (l : list string) (w : View) :
  NoDup l ->
  exists w' : View,
    for_each l
      (fun f =>
         v1 <- get_state ;;
         if killable (objects v1 f) then mutate f kill else ret tt)%py w
    = (Ok tt, w') /\
    live w' = live w /\ scenarios w' = scenarios w /\
    scenario w' = scenario w /\ mock w' = mock w /\
    learning w' = learning w /\
    (forall r : string,
        objects w' r
        = if PyList.mem r l && killable (objects w r)
          then kill (objects w r) else objects w r).
Proof.
  revert w. induction l as [|f l IH]; intros w Hnd.
  - exists w. repeat split.
  - inversion Hnd as [|? ? Hnotin Hnd']; subst.
    cbn [for_each].
    set (w1 := if killable (objects w f)
               then set_objects
                      (fun r' => if String.eqb r' f then kill (objects w f)
                                 else objects w r') w
               else w).
    assert (Hstep :
      (v1 <- get_state ;;
       if killable (objects v1 f) then mutate f kill else ret tt)%py w
      = (Ok tt, w1)).
    { unfold bind, get_state, w1. now destruct (killable (objects w f)). }
    rewrite (bind_ok _ _ w w1 tt Hstep).
    destruct (IH w1 Hnd') as (w' & Hrun & Hl & Hs & Hc & Hm & Hle & Hobj).
    exists w'. split; [exact Hrun|].
    assert (Hframe : live w1 = live w /\ scenarios w1 = scenarios w /\
                     scenario w1 = scenario w /\ mock w1 = mock w /\
                     learning w1 = learning w)
      by (unfold w1; destruct (killable (objects w f)); repeat split).
    destruct Hframe as (F1 & F2 & F3 & F4 & F5).
    rewrite Hl, Hs, Hc, Hm, Hle. repeat split; auto.
    intros r. rewrite Hobj. unfold PyList.mem at 2. cbn [existsb].
    fold (PyList.mem r l).
    destruct (String.eqb_spec r f) as [->|Hne].
    + assert (Hm0 : PyList.mem f l = false).
      { destruct (PyList.mem f l) eqn:E; [|reflexivity].
        apply mem_In in E. contradiction. }
      rewrite Hm0. cbn [andb orb]. unfold w1.
      destruct (killable (objects w f)); [|reflexivity].
      cbn [objects set_objects]. now rewrite String.eqb_refl.
    + assert (Ho : objects w1 r = objects w r).
      { unfold w1. destruct (killable (objects w f)); [|reflexivity].
        cbn [objects set_objects].
        destruct (String.eqb_spec r f); [contradiction | reflexivity]. }
      rewrite Ho. reflexivity.
Qed.

(** [KillFlows.post] never fails; it kills the flows of the view that can
    be killed, each once, and leaves every other flow object, the view, the
    store and the flags alone. *)
Theorem KillFlows_post_kills (v : View) :
  NoDup (live v) ->
  exists v' : View,
    KillFlows_post v = (Ok tt, v') /\
    live v' = live v /\ scenarios v' = scenarios v /\
    scenario v' = scenario v /\ mock v' = mock v /\
    learning v' = learning v /\
    (forall r : string,
        objects v' r
        = if PyList.mem r (live v) && killable (objects v r)
          then kill (objects v r) else objects v r).
Proof.
  intros Hnd. unfold KillFlows_post.
  rewrite (bind_ok _ _ v v v) by reflexivity.
  now apply kill_loop.
Qed.

End Facts.

(** [f2] is live in the sample but belongs to no scenario. *)
Lemma FlowHandler_delete_foreign_witness :
  exists v' : View,
    FlowHandler_delete (FC := SampleMore.control) "f2" SampleMore.view
    = (Raise ValueError, v') /\
    live v' = ["f1"; "f2"] /\
    scenarios v' = scenarios SampleMore.view /\
    objects v' "f2" = Sample.flow "f2" None.
Proof.
  apply (FlowHandler_delete_foreign (FC := SampleMore.control)
           SampleMore.view "f2" "f2" Sample.scen).
  - reflexivity.
  - reflexivity.
  - reflexivity.
  - simpl. intuition discriminate.
Defined.

(** [f1] is intercepted and belongs to the current scenario [B]. *)
Lemma FlowHandler_delete_removes_witness :
  exists (v' : View) (flows' : list string),
    FlowHandler_delete (FC := SampleMore.control) "f1" SampleMore.view
    = (Ok tt, v') /\
    list_remove "f1" ["f1"] = Ok flows' /\
    get "B" (scenarios v')
    = Some {| scen_flows := flows';
              scen_rules := del "f1" [("f1", Sample.rules)] |} /\
    (forall k : string,
        k <> "B" -> get k (scenarios v') = get k (scenarios SampleMore.view))
    /\
    ~ In "f1" (live v') /\
    (forall r' : string,
        r' <> "f1" -> (In r' (live v') <-> In r' (live SampleMore.view))) /\
    scenario v' = "B".
Proof.
  apply (FlowHandler_delete_removes (FC := SampleMore.control)
           SampleMore.view "f1" "f1" Sample.scen).
  - reflexivity.
  - reflexivity.
  - reflexivity.
  - simpl. auto.
Defined.

Lemma KillFlows_post_kills_witness :
  exists v' : View,
    KillFlows_post (FC := SampleMore.control) SampleMore.view = (Ok tt, v') /\
    live v' = live SampleMore.view /\
    scenarios v' = scenarios SampleMore.view /\
    scenario v' = scenario SampleMore.view /\
    mock v' = mock SampleMore.view /\
    learning v' = learning SampleMore.view /\
    (forall r : string,
        objects v' r
        = if PyList.mem r (live SampleMore.view)
             && killable (FlowControl := SampleMore.control)
                  (objects SampleMore.view r)
          then kill (FlowControl := SampleMore.control)
                 (objects SampleMore.view r)
          else objects SampleMore.view r).
Proof.
  apply (KillFlows_post_kills (FC := SampleMore.control) SampleMore.view).
  simpl. repeat constructor; simpl; intuition discriminate.
Defined.

End FlowControlMore.

(** ** Import of a capture *)

Module CaptureMore.
Import PyDictFacts ScenarioFacts Preservation CaptureFacts FlowUpdateFacts.

Section Facts.
Context {FA : FlowApi} {CA : Capture}.

Lemma register_matchers (ms : dict pyval) (w : View) :
  for_each ms (fun '(id, matcher) => newMatcher id matcher) w
  = (Ok tt,
     set_matchers
       (fold_left (fun m e => set (fst e) (snd e) m) ms (matchers w)) w).
Proof.
  revert w. induction ms as [|[id x] ms IH]; intros w.
  - destruct w as [o l ss s m le ma p]. reflexivity.
  - cbn [for_each fold_left fst snd].
    rewrite (bind_ok _ _ w (set_matchers (set id x (matchers w)) w) tt)
      by reflexivity.
    rewrite IH. reflexivity.
Qed.

(** What reading the upload does once the header line has evaluated to a
    mapping: the loop over the decoded flows ends at its first flow. *)
Lemma read_capture_accepted (contents : string) (w w1 : View)
    (ms : dict pyval) (fs : list Flow) (broken : bool) :
  py_eval (fst (readline contents)) w = (Ok (PDict ms), w1) ->
  read_flows (snd (readline contents)) = (fs, broken) ->
  read_capture contents w
  = (match fs with
     | [] => if broken then Raise CodecError else Ok tt
     | _ :: _ => Raise AttributeError
     end,
     set_matchers
       (fold_left (fun m e => set (fst e) (snd e) m) ms (matchers w1)) w1).
Proof.
  intros Heval Hfs. unfold read_capture.
  destruct (readline contents) as [line rest]. cbn [fst snd] in *.
  rewrite (bind_ok _ _ w w1 (PDict ms) Heval).
  rewrite (bind_ok _ _ w1 w1 ms) by reflexivity.
  rewrite (bind_ok _ _ w1 _ tt (register_matchers ms w1)).
  rewrite Hfs.
  destruct fs as [|i fs]; [destruct broken|]; reflexivity.
Qed.

(** The import replaces the current scenario by an empty one and evicts its
    former flows from the view before it reads the upload.  In a store
    that holds the current name, or whose current name is empty, the
    reading of the upload starts in a state where the current name maps to
    no flows and no rules, every other scenario is as before, the view has
    lost exactly the flows of the replaced scenario (none when the current
    name is empty), and the learning flag is on.  No statement brings the
    scenario back: when [eval] raises on the header line the import ends in
    the state that the line left, and when the header line does not write
    the scenarios, the current name and the flows of the view, they are
    so however the import ends. *)
Theorem DumpFlows_post_replaces (v : View) (req : HTTPRequest) :
  current_ok v ->
  exists w : View,
    DumpFlows_post req v = read_capture (filecontents req) w /\
    get (scenario v) (scenarios w)
    = Some {| scen_flows := []; scen_rules := [] |} /\
    scenario w = scenario v /\
    (forall k : string,
        k <> scenario v -> get k (scenarios w) = get k (scenarios v)) /\
    live w
    = (if String.eqb (scenario v) "" then live v
       else match get (scenario v) (scenarios v) with
            | Some sc =>
                filter (fun r => negb (PyList.mem r (scen_flows sc)))
                       (live v)
            | None => live v
            end) /\
    learning w = true /\
    (forall (e : exn) (w' : View),
        py_eval (fst (readline (filecontents req))) w = (Raise e, w') ->
        DumpFlows_post req v = (Raise e, w')) /\
    (preserves (fun s => scenarios s = scenarios w /\
                         scenario s = scenario w /\ live s = live w)
               (py_eval (fst (readline (filecontents req)))) ->
     scenarios (snd (DumpFlows_post req v)) = scenarios w /\
     scenario (snd (DumpFlows_post req v)) = scenario w /\
     live (snd (DumpFlows_post req v)) = live w).
Proof.
  intros Hok.
  assert (Hreset : exists w : View,
             reset_current (set_learning true v) = (Ok tt, w) /\
             scenarios w
             = set (scenario v) {| scen_flows := []; scen_rules := [] |}
                   (scenarios v) /\
             scenario w = scenario v /\
             live w
             = (if String.eqb (scenario v) "" then live v
                else match get (scenario v) (scenarios v) with
                     | Some sc =>
                         filter
                           (fun r => negb (PyList.mem r (scen_flows sc)))
                           (live v)
                     | None => live v
                     end) /\
             learning w = true).
  { rewrite reset_current_cases.
    cbn [scenario scenarios live set_learning].
    destruct (String.eqb_spec (scenario v) "") as [Hempty|Hne]; cbn [negb].
    - eexists. split; [reflexivity|]. repeat split.
    - destruct Hok as [Hempty|Hin]; [contradiction|].
      destruct (In_get_Some _ _ Hin) as [sc Hsc]. rewrite Hsc.
      eexists. split; [reflexivity|]. repeat split. }
  destruct Hreset as (w & Hreset & Hss & Hs & Hlive & Hlearn).
  pose proof (DumpFlows_post_run req v w Hreset) as Hrun.
  exists w. split; [exact Hrun|].
  split; [rewrite Hss; apply get_set_same|].
  split; [exact Hs|].
  split; [intros k Hne; rewrite Hss; now apply get_set_other|].
  split; [exact Hlive|]. split; [exact Hlearn|]. split.
  - intros e w' Heval. rewrite Hrun. now apply read_capture_eval_raises.
  - intros Heval. rewrite Hrun.
    apply (read_capture_preserves
             (fun s => scenarios s = scenarios w /\
                       scenario s = scenario w /\ live s = live w));
      auto.
Qed.

(** Once the header line has evaluated to a mapping, its entries are
    registered as matchers in the order of the mapping, a later entry for
    an id replacing an earlier one, on top of the matchers that the
    evaluation left; they stay registered whatever then happens to the
    flow records.  When the evaluation changes nothing, these are the
    matchers from before the request with the entries of the header
    added. *)
Theorem DumpFlows_post_registers_matchers (v w w1 : View)
    (req : HTTPRequest) (ms : dict pyval) :
  reset_current (set_learning true v) = (Ok tt, w) ->
  py_eval (fst (readline (filecontents req))) w = (Ok (PDict ms), w1) ->
  matchers (snd (DumpFlows_post req v))
  = fold_left (fun m e => set (fst e) (snd e) m) ms (matchers w1) /\
  (w1 = w ->
   matchers (snd (DumpFlows_post req v))
   = fold_left (fun m e => set (fst e) (snd e) m) ms (matchers v)).
Proof.
  intros Hreset Heval.
  assert (Hm : matchers (snd (DumpFlows_post req v))
               = fold_left (fun m e => set (fst e) (snd e) m) ms
                           (matchers w1)).
  { rewrite (DumpFlows_post_run req v w Hreset).
    destruct (read_flows (snd (readline (filecontents req))))
      as [fs broken] eqn:Hfs.
    now rewrite (read_capture_accepted _ w w1 ms fs broken Heval Hfs). }
  split; [exact Hm|].
  intros ->. rewrite Hm.
  destruct (reset_current_frame _ _ Hreset) as (_ & Hmw & _).
  now rewrite Hmw.
Qed.



End Facts.

(** An upload that is no expression into the sample, where [B] is current
    and holds the live flow [f1]. *)
Lemma DumpFlows_post_replaces_witness :
  get "B" (scenarios (snd (DumpFlows_post (FA := Sample.api)
                             (CA := Sample.capture)
                             (Sample.upload "not a mapping") Sample.view)))
  = Some {| scen_flows := []; scen_rules := [] |} /\
  live (snd (DumpFlows_post (FA := Sample.api) (CA := Sample.capture)
               (Sample.upload "not a mapping") Sample.view)) = [].
Proof.
  destruct (DumpFlows_post_replaces (FA := Sample.api) (CA := Sample.capture)
              Sample.view (Sample.upload "not a mapping"))
    as (w & _ & Hcur & _ & _ & Hlive & _ & _ & Hkeep).
  - right. simpl. auto.
  - destruct Hkeep as (Hss & _ & Hl).
    + intros s Hs. exact Hs.
    + rewrite Hss, Hl. split; [exact Hcur | exact Hlive].
Defined.

Lemma DumpFlows_post_registers_matchers_witness :
  matchers (snd (DumpFlows_post (FA := Sample.api) (CA := SampleMore.capture)
                   (Sample.upload
                      ("{'f1': {Match}, } " ++ newline ++ "<f1>")%string)
                   Sample.view))
  = [("f1", PStr "{Match}")].
Proof.
  exact (proj2 (DumpFlows_post_registers_matchers (FA := Sample.api)
                  (CA := SampleMore.capture) Sample.view _ _
                  (Sample.upload
                     ("{'f1': {Match}, } " ++ newline ++ "<f1>")%string)
                  [("f1", PStr "{Match}")] eq_refl eq_refl) eq_refl).
Defined.



End CaptureMore.

(** ** Settings and options *)

Module SettingsMore.
Import FlowUpdateFacts.

Section Facts.
Context {BI : Builtins} {OM : OptManager}.

Lemma json_raises (req : HTTPRequest) (e : exn) :
  json req = Raise e -> exists msg : string, e = APIError 400 msg.
Proof.
  unfold json.
  destruct (negb (String.prefix "application/json" _));
    [intros [= <-]; eauto|].
  destruct (json_loads (body req)); [discriminate|].
  intros [= <-]. eauto.
Qed.

(** The loop of [Settings.put] over the keys of an object stops at the
    first key outside the list. *)
Lemma check_settings (ks : list string) (o : Options) :
  for_each (map PStr ks) check_setting o
  = match find (fun k => negb (PyList.mem k option_whitelist)) ks with
    | Some k => (Raise (APIError 400 ("Unknown setting " ++ k)%string), o)
    | None => (Ok tt, o)
    end.
Proof.
  induction ks as [|k ks IH]; [reflexivity|].
  rewrite map_cons. cbn [for_each find]. unfold bind.
  cbn [check_setting].
  destruct (PyList.mem k option_whitelist); cbn [negb].
  - unfold ret. exact IH.
  - reflexivity.
Qed.

(** [Settings.put] checks every key of the body before it updates any
    option: with a key outside the list of settings it raises
    [APIError(400)] naming the first such key and the options are untouched;
    with all keys in the list the outcome is that of [options.update] on the
    whole body. *)
Theorem Settings_put_checks_first (req : HTTPRequest) (d : dict pyval)
    (o : Options) :
  json req = Ok (PDict d) ->
  (forall k : string,
      find (fun k => negb (PyList.mem k option_whitelist)) (keys d) = Some k ->
      Settings_put req o
      = (Raise (APIError 400 ("Unknown setting " ++ k)%string), o)) /\
  (find (fun k => negb (PyList.mem k option_whitelist)) (keys d) = None ->
   Settings_put req o
   = match options_update d o with
     | Ok o' => (Ok tt, o')
     | Raise e => (Raise e, o)
     end).
Proof.
  intros Hj.
  assert (Hks : iter (PDict d) = Ok (map PStr (keys d))).
  { unfold iter, keys. now rewrite map_map. }
  split.
  - intros k Hfind. unfold Settings_put.
    rewrite (bind_ok (lift (json req)) _ o o (PDict d))
      by (unfold lift; now rewrite Hj).
    rewrite (bind_ok _ _ o o (map PStr (keys d)))
      by (unfold lift; now rewrite Hks).
    apply bind_raise. now rewrite check_settings, Hfind.
  - intros Hfind. unfold Settings_put.
    rewrite (bind_ok (lift (json req)) _ o o (PDict d))
      by (unfold lift; now rewrite Hj).
    rewrite (bind_ok _ _ o o (map PStr (keys d)))
      by (unfold lift; now rewrite Hks).
    rewrite (bind_ok _ _ o o tt) by (now rewrite check_settings, Hfind).
    reflexivity.
Qed.

(** Whatever goes wrong in [Options.put], a bad content type, a body that
    is no JSON, a body that is no object, or a failure of [options.update],
    the exception raised is an [APIError] with status 400. *)
Theorem Options_put_raises_APIError (req : HTTPRequest) (o o' : Options)
    (e : exn) :
  Options_put req o = (Raise e, o') ->
  exists msg : string, e = APIError 400 msg.
Proof.
  unfold Options_put, bind, lift.
  destruct (json req) as [update|e0] eqn:Hj.
  - destruct (update_options update o) as [[[]|err] o1].
    + discriminate.
    + intros [= <- _]. eauto.
  - intros [= <- _]. now apply (json_raises req).
Qed.

End Facts.

(** The body of the sample sets [showhost], then [mode], which is no
    setting, then [http2]: nothing is set. *)
Lemma Settings_put_checks_first_witness :
  Settings_put (BI := SampleMore.builtins) (OM := SampleMore.opts)
    (SampleMore.json_request "settings") [("showhost", PBool false)]
  = (Raise (APIError 400 "Unknown setting mode"),
     [("showhost", PBool false)]).
Proof.
  destruct (Settings_put_checks_first (BI := SampleMore.builtins)
              (OM := SampleMore.opts) (SampleMore.json_request "settings")
              [("showhost", PBool true); ("mode", PStr "x");
               ("http2", PBool false)]
              [("showhost", PBool false)] eq_refl) as [Hbad _].
  exact (Hbad "mode" eq_refl).
Defined.

(** A body that is no JSON. *)
Lemma Options_put_raises_APIError_witness :
  exists msg : string, APIError 400 "Malformed JSON" = APIError 400 msg.
Proof.
  apply (Options_put_raises_APIError (BI := SampleMore.builtins)
           (OM := SampleMore.opts) (SampleMore.json_request "{")
           [] [] (APIError 400 "Malformed JSON")).
  reflexivity.
Defined.

End SettingsMore.

(** ** The event broadcaster *)

Module BroadcastMore.
Import FlowUpdateFacts FlowControlMore.

Section Facts.
Context {SO : Socket}.

Lemma send_loop (message : string) (l : list string) (h : Hub) :
  for_each l (send message) h
  = (Ok tt,
     {| connections := connections h;
        outbox := outbox h
                  ++ map (fun c => (c, message))
                         (filter (fun c => write_message c message) l);
        logged := logged h
                  + length (filter (fun c => negb (write_message c message))
                                   l) |}).
Proof.
  revert h. induction l as [|c l IH]; intros h.
  - simpl. rewrite app_nil_r, Nat.add_0_r. now destruct h.
  - cbn [for_each filter]. unfold bind at 1, send at 1, modify.
    rewrite IH. destruct (write_message c message);
      cbn [negb connections outbox logged map length].
    + now rewrite <- app_assoc.
    + now rewrite Nat.add_succ_r.
Qed.

(** [broadcast] never raises.  Each connection that takes the message gets
    it once, in the order of the connections; each connection that refuses
    it costs one logged error and does not stop the others; the set of
    connections is unchanged. *)
Theorem broadcast_reaches_all (kwargs : dict pyval) (h : Hub) :
  broadcast kwargs h
  = (Ok tt,
     {| connections := connections h;
        outbox := outbox h
                  ++ map (fun c => (c, json_dumps kwargs))
                         (filter (fun c => write_message c (json_dumps kwargs))
                                 (connections h));
        logged := logged h
                  + length (filter
                              (fun c => negb (write_message c
                                                (json_dumps kwargs)))
                              (connections h)) |}).
Proof.
  unfold broadcast. rewrite (bind_ok _ _ h h h) by reflexivity.
  apply send_loop.
Qed.

End Facts.

Lemma filter_other (c : string) (l : list string) :
  ~ In c l -> filter (fun x => negb (String.eqb x c)) l = l.
Proof.
  induction l as [|y l IH]; simpl; intros Hnotin; [reflexivity|].
  destruct (String.eqb_spec y c) as [->|Hne]; [tauto|].
  simpl. rewrite IH by tauto. reflexivity.
Qed.

(** Opening a connection that is not in the set and closing it again gives
    back the hub as it was; opening a connection twice is opening it once;
    closing a connection that is not in the set raises [KeyError]. *)
Lemma Broadcaster_open_on_close (conn : string) (h : Hub) :
  (~ In conn (connections h) ->
   Broadcaster_on_close conn (snd (Broadcaster_open conn h)) = (Ok tt, h) /\
   Broadcaster_on_close conn h = (Raise KeyError, h)) /\
  In conn (connections (snd (Broadcaster_open conn h))) /\
  Broadcaster_open conn (snd (Broadcaster_open conn h))
  = Broadcaster_open conn h.
Proof.
  unfold Broadcaster_open, Broadcaster_on_close, modify, bind, get_state.
  cbn [snd].
  destruct (PyList.mem conn (connections h)) eqn:Hmem.
  - apply mem_In in Hmem. split; [tauto|]. split; [exact Hmem|].
    apply mem_In in Hmem. now rewrite Hmem.
  - assert (Hnotin : ~ In conn (connections h)).
    { intros Hin. apply mem_In in Hin. congruence. }
    assert (Hmem' : PyList.mem conn (connections h ++ [conn]) = true).
    { apply mem_In. apply in_or_app. right. now left. }
    cbn [connections outbox logged]. rewrite Hmem'.
    split; [|split].
    + intros _. split; [|reflexivity].
      cbn [connections outbox logged].
      rewrite filter_app, (filter_other _ _ Hnotin). simpl.
      rewrite String.eqb_refl. simpl. rewrite app_nil_r. now destruct h.
    + apply in_or_app. right. now left.
    + reflexivity.
Qed.

Lemma Broadcaster_open_on_close_witness :
  Broadcaster_on_close "c" (snd (Broadcaster_open "c" SampleMore.hub))
  = (Ok tt, SampleMore.hub) /\
  Broadcaster_on_close "c" SampleMore.hub = (Raise KeyError, SampleMore.hub).
Proof.
  apply (Broadcaster_open_on_close "c" SampleMore.hub).
  simpl. intuition discriminate.
Defined.

(** The sample hub: [a] and [b] take the message, [closed] refuses it. *)
Example broadcast_sample :
  broadcast (SO := SampleMore.socket) [("resource", PStr "flows")]
    SampleMore.hub
  = (Ok tt,
     {| connections := ["a"; "closed"; "b"];
        outbox := [("a", "resource"); ("b", "resource")];
        logged := 1 |}).
Proof. reflexivity. Qed.

End BroadcastMore.
